(** * sync-mcp-cfg: MCP server records and the client configuration handlers

    A shallow embedding of [sync_mcp_cfg.core.models], [sync_mcp_cfg.clients]
    and [sync_mcp_cfg.core.registry], and of the parts of the [add] and
    [sync] commands of [sync_mcp_cfg.cli] that decide what is written.

    - Python values read from a configuration file are [json] values; a
      Python [dict] is an association list kept in insertion order, with the
      update of [d[k] = v] written out in [dict_set].
    - A configuration file is either absent, present with text that
      [json.load] rejects, or present with text that [json.load] reads as a
      value; [json.dump] writes the text of a value.
    - A handler method that raises is a [Raise] with the exception class;
      methods that write return the new file next to their outcome, so that
      what an exception leaves on disk is visible.
    - [MCPServer(...)] is pydantic model construction.  Two rules of pydantic
      matter here and are part of [MCPServer_init]: a field validator runs
      after the field's type check, and it does not run at all for a field
      that the caller did not supply (the validators of [MCPServer] are
      declared without [always=True]).  Values of the wrong JSON type are
      rejected; pydantic's lax coercions (a number given where a string is
      expected, and the like) are outside the model.
    - Strings are byte strings; whitespace is ASCII whitespace.
    - Operating system failures ([IOError] on open, copy or mkdir) are
      outside the model: files can always be read and written. *)

From Stdlib Require Import String Ascii ZArith List Bool Lia PrimFloat.
Import ListNotations.
Open Scope string_scope.
Open Scope list_scope.

Set Implicit Arguments.
Set Warnings "-register-all".

(* ------------------------------------------------------------------ *)
(** ** Python values *)

Inductive json : Type :=
| JNull
| JBool (b : bool)
| JInt (z : Z)
| JFloat (f : float)
| JStr (s : string)
| JArr (items : list json)
| JObj (members : list (string * json)).

(** Truth value of a Python object, as [if x:] and [x and y] test it. *)
Definition truthy (v : json) : bool :=
  match v with
  | JNull => false
  | JBool b => b
  | JInt z => negb (Z.eqb z 0)
  | JFloat f => negb (PrimFloat.eqb f PrimFloat.zero)
  | JStr s => negb (String.eqb s "")
  | JArr l => match l with [] => false | _ :: _ => true end
  | JObj d => match d with [] => false | _ :: _ => true end
  end.

(** [v == s] for a string literal [s]. *)
Definition is_str (s : string) (v : json) : bool :=
  match v with JStr t => String.eqb t s | _ => false end.

(** *** Dictionaries *)

Section Dict.
Variable V : Type.

Definition dict := list (string * V).

Fixpoint dict_get (k : string) (d : dict) : option V :=
  match d with
  | [] => None
  | (k', v) :: d' => if String.eqb k' k then Some v else dict_get k d'
  end.

Definition dict_mem (k : string) (d : dict) : bool :=
  match dict_get k d with Some _ => true | None => false end.

(** [d[k] = v]: an existing key keeps its place, a new key goes last. *)
Fixpoint dict_set (k : string) (v : V) (d : dict) : dict :=
  match d with
  | [] => [(k, v)]
  | (k', v') :: d' =>
      if String.eqb k' k then (k', v) :: d' else (k', v') :: dict_set k v d'
  end.

(** [del d[k]]. *)
Definition dict_del (k : string) (d : dict) : dict :=
  filter (fun kv => negb (String.eqb (fst kv) k)) d.

(** [d.get(k, default)]. *)
Definition get_or (k : string) (default : V) (d : dict) : V :=
  match dict_get k d with Some v => v | None => default end.

Definition keys (d : dict) : list string := map fst d.
End Dict.

(** *** Strings *)

(** ASCII characters for which [str.isspace()] holds. *)
Definition is_space (c : ascii) : bool :=
  let n := nat_of_ascii c in
  (Nat.leb 9 n && Nat.leb n 13) || (Nat.leb 28 n && Nat.leb n 32).

(** [s.split()]: the maximal runs of non-whitespace characters. *)
Fixpoint split_ws (cur : string) (s : string) : list string :=
  match s with
  | EmptyString => match cur with EmptyString => [] | _ => [cur] end
  | String c s' =>
      if is_space c
      then match cur with
           | EmptyString => split_ws EmptyString s'
           | _ => cur :: split_ws EmptyString s'
           end
      else split_ws (cur ++ String c EmptyString) s'
  end.

Definition py_split (s : string) : list string := split_ws EmptyString s.

(** [' '.join(l)]. *)
Definition py_join (l : list string) : string := String.concat " " l.

Fixpoint lstrip (s : string) : string :=
  match s with
  | String c s' => if is_space c then lstrip s' else s
  | EmptyString => EmptyString
  end.

Fixpoint rstrip (s : string) : string :=
  match s with
  | EmptyString => EmptyString
  | String c s' =>
      match rstrip s' with
      | EmptyString => if is_space c then EmptyString else String c EmptyString
      | r => String c r
      end
  end.

(** [s.strip()]. *)
Definition strip (s : string) : string := rstrip (lstrip s).

(** [s.startswith(p)]. *)
Definition startswith (p s : string) : bool := String.prefix p s.

(** [p in s] for strings. *)
Fixpoint contains (p s : string) : bool :=
  String.prefix p s ||
  match s with
  | EmptyString => false
  | String _ s' => contains p s'
  end.

(* ------------------------------------------------------------------ *)
(** ** Exceptions and outcomes *)

Inductive exn : Type :=
| ClientHandlerError      (* core.exceptions *)
| ConfigurationError      (* core.exceptions *)
| PydanticValidationError (* pydantic.ValidationError *)
| ValueError
| AttributeError
| TypeError
| KeyError.

Inductive result (A : Type) : Type :=
| Ok (a : A)
| Raise (e : exn).

Arguments Ok {A} a.
Arguments Raise {A} e.

Definition bind {A B} (m : result A) (k : A -> result B) : result B :=
  match m with
  | Ok a => k a
  | Raise e => Raise e
  end.

Notation "x <- m ;; k" := (bind m (fun x => k))
  (at level 61, m at next level, right associativity).

(** A [for] loop that builds a list and stops at the first exception. *)
Fixpoint mapM {A B} (f : A -> result B) (l : list A) : result (list B) :=
  match l with
  | [] => Ok []
  | a :: l' => b <- f a ;; bs <- mapM f l' ;; Ok (b :: bs)
  end.

(** [obj.get(k, default)] on whatever [obj] is. *)
Definition py_get (k : string) (default : json) (obj : json) : result json :=
  match obj with
  | JObj d => Ok (get_or k default d)
  | _ => Raise AttributeError
  end.

(** [obj.items()]. *)
Definition py_items (obj : json) : result (list (string * json)) :=
  match obj with
  | JObj d => Ok d
  | _ => Raise AttributeError
  end.

(* ------------------------------------------------------------------ *)
(** ** core/models.py *)

Inductive MCPServerType : Type := STDIO | SSE | HTTP.

(** [server_type.value]. *)
Definition MCPServerType_value (t : MCPServerType) : string :=
  match t with STDIO => "stdio" | SSE => "sse" | HTTP => "http" end.

Definition MCPServerType_eqb (a b : MCPServerType) : bool :=
  match a, b with
  | STDIO, STDIO | SSE, SSE | HTTP, HTTP => true
  | _, _ => false
  end.

Record MCPServer : Type := mkMCPServer {
  name : string;
  command : string;
  args : list string;
  env : dict string;
  server_type : MCPServerType;
  url : option string;
  enabled : bool;
  description : option string
}.

Definition allowed_chars : string :=
  "abcdefghijklmnopqrstuvwxyzABCDEFGHIJKLMNOPQRSTUVWXYZ0123456789-_".

Definition in_chars (s : string) (c : ascii) : bool :=
  existsb (Ascii.eqb c) (list_ascii_of_string s).

(** [MCPServer.validate_name]; [None] is the [ValueError]. *)
Definition validate_name (v : string) : option string :=
  if String.eqb v "" || String.eqb (strip v) "" then None
  else if forallb (in_chars allowed_chars) (list_ascii_of_string v)
       then Some (strip v)
       else None.

(** [not v] for an optional string. *)
Definition str_truthy (v : option string) : bool :=
  match v with
  | Some s => negb (String.eqb s "")
  | None => false
  end.

(** [MCPServer.validate_url]; [values] holds the already validated
    [server_type], which is declared before [url]. *)
Definition validate_url (v : option string) (values_server_type : MCPServerType)
  : option (option string) :=
  match values_server_type with
  | SSE | HTTP => if str_truthy v then Some v else None
  | STDIO => Some v
  end.

(** pydantic's type checks of the fields. *)
Definition as_str (v : json) : option string :=
  match v with JStr s => Some s | _ => None end.

Definition as_bool (v : json) : option bool :=
  match v with JBool b => Some b | _ => None end.

Definition as_opt_str (v : json) : option (option string) :=
  match v with
  | JNull => Some None
  | JStr s => Some (Some s)
  | _ => None
  end.

Fixpoint all_str (l : list json) : option (list string) :=
  match l with
  | [] => Some []
  | v :: l' =>
      match as_str v, all_str l' with
      | Some s, Some r => Some (s :: r)
      | _, _ => None
      end
  end.

Definition as_list_str (v : json) : option (list string) :=
  match v with JArr l => all_str l | _ => None end.

Fixpoint all_str_values (d : dict json) : option (dict string) :=
  match d with
  | [] => Some []
  | (k, v) :: d' =>
      match as_str v, all_str_values d' with
      | Some s, Some r => Some ((k, s) :: r)
      | _, _ => None
      end
  end.

Definition as_dict_str (v : json) : option (dict string) :=
  match v with JObj d => all_str_values d | _ => None end.

(** The keyword arguments of one call [MCPServer(...)].  [name] and
    [command] are required; for the others [None] is an argument that the call
    does not pass, and [Some JNull] is an explicit [None]. *)
Record kwargs : Type := mkKwargs {
  kw_name : json;
  kw_command : json;
  kw_args : option json;
  kw_env : option json;
  kw_server_type : option MCPServerType;
  kw_url : option json;
  kw_enabled : option json;
  kw_description : option json
}.

Definition or_default {A} (o : option A) (d : A) : A :=
  match o with Some a => a | None => d end.

(** The [name] field: type check, then [validate_name]. *)
Definition field_name (kw : kwargs) : option string :=
  match as_str (kw_name kw) with
  | Some s => validate_name s
  | None => None
  end.

(** The [url] field: the default [None] is taken as it is when the argument
    is not passed; a passed value is type-checked and then goes through
    [validate_url]. *)
Definition field_url (kw : kwargs) : option (option string) :=
  match kw_url kw with
  | None => Some None
  | Some v =>
      match as_opt_str v with
      | Some u => validate_url u (or_default (kw_server_type kw) STDIO)
      | None => None
      end
  end.

Definition field_description (kw : kwargs) : option (option string) :=
  match kw_description kw with
  | None => Some None
  | Some v => as_opt_str v
  end.

(** Model construction from keyword arguments: every field is checked, and
    any failure makes the call raise pydantic's [ValidationError]. *)
Definition MCPServer_init (kw : kwargs) : result MCPServer :=
  match field_name kw,
        as_str (kw_command kw),
        as_list_str (or_default (kw_args kw) (JArr [])),
        as_dict_str (or_default (kw_env kw) (JObj [])),
        field_url kw,
        as_bool (or_default (kw_enabled kw) (JBool true)),
        field_description kw
  with
  | Some n, Some c, Some a, Some e, Some u, Some en, Some d =>
      Ok {| name := n; command := c; args := a; env := e;
            server_type := or_default (kw_server_type kw) STDIO;
            url := u; enabled := en; description := d |}
  | _, _, _, _, _, _, _ => Raise PydanticValidationError
  end.

(** A record's fields as Python values. *)
Definition json_of_args (a : list string) : json := JArr (map JStr a).

Definition json_of_env (e : dict string) : json :=
  JObj (map (fun kv => (fst kv, JStr (snd kv))) e).

Inductive ClientType : Type := CLAUDE_CODE | CLAUDE_DESKTOP | CURSOR | VSCODE.

Definition ClientType_value (c : ClientType) : string :=
  match c with
  | CLAUDE_CODE => "claude-code"
  | CLAUDE_DESKTOP => "claude-desktop"
  | CURSOR => "cursor"
  | VSCODE => "vscode"
  end.

(** [for client_type in ClientType]: the members in declaration order. *)
Definition ClientType_members : list ClientType :=
  [CLAUDE_CODE; CLAUDE_DESKTOP; CURSOR; VSCODE].

(** [ClientType(value)]: the member with that value, or [ValueError]. *)
Definition ClientType_of_value (v : string) : result ClientType :=
  match find (fun c => String.eqb (ClientType_value c) v) ClientType_members with
  | Some c => Ok c
  | None => Raise ValueError
  end.

(* ------------------------------------------------------------------ *)
(** ** Configuration files *)

Inductive file : Type :=
| Text (raw : string)   (* text that [json.load] rejects *)
| Json (v : json).      (* text that [json.load] reads as [v] *)

(** The file at a handler's [config_path]: [None] when it does not exist. *)
Definition store := option file.

(** The shared shape of [load_servers]: no file gives no servers, a file
    that does not parse gives [ClientHandlerError]. *)
Definition with_config {A} (empty : A) (k : json -> result A) (st : store)
  : result A :=
  match st with
  | None => Ok empty
  | Some (Text _) => Raise ClientHandlerError
  | Some (Json config_data) => k config_data
  end.

(** The shared start of [save_servers]: the existing file's value, or
    [fresh] when there is no file or it does not parse. *)
Definition existing_or (fresh : json) (st : store) : json :=
  match st with
  | Some (Json config_data) => config_data
  | _ => fresh
  end.

(** The type names of the [type] field, read the way the loaders do. *)
Definition map_server_type (stdio_name : string) (t : json) : MCPServerType :=
  if is_str stdio_name t then STDIO
  else if is_str "sse" t then SSE
  else if is_str "http" t then HTTP
  else STDIO.

(* ------------------------------------------------------------------ *)
(** ** clients/base.py and the methods every handler repeats

    [BaseClientHandler] declares [load_servers] and [save_servers] abstract;
    each handler class then spells out [add_server], [remove_server],
    [get_server] and [restore_config] with the same body, written here once
    over the handler's own [load_servers] and [save_servers]. *)

Definition name_is (n : string) (s : MCPServer) : bool := String.eqb (name s) n.

(** [[s for s in servers if s.name != n]]. *)
Definition without (n : string) (servers : list MCPServer) : list MCPServer :=
  filter (fun s => negb (name_is n s)) servers.

(** The files of the host, by path. *)
Definition fsys := string -> option file.

(** [shutil.copy2(src, dst)] of an existing file [f]. *)
Definition fs_write (dst : string) (f : file) (fs : fsys) : fsys :=
  fun p => if String.eqb p dst then Some f else fs p.

Section Base.
Variable load_servers : store -> result (list MCPServer).
Variable save_servers : list MCPServer -> store -> result unit * store.

Definition add_server (server : MCPServer) (st : store) : result unit * store :=
  match load_servers st with
  | Raise e => (Raise e, st)
  | Ok servers => save_servers (without (name server) servers ++ [server]) st
  end.

Definition remove_server (server_name : string) (st : store)
  : result bool * store :=
  match load_servers st with
  | Raise e => (Raise e, st)
  | Ok servers =>
      let original_count := length servers in
      let servers := without server_name servers in
      if Nat.ltb (length servers) original_count
      then match save_servers servers st with
           | (Ok _, st') => (Ok true, st')
           | (Raise e, st') => (Raise e, st')
           end
      else (Ok false, st)
  end.

Definition get_server (server_name : string) (st : store)
  : result (option MCPServer) :=
  servers <- load_servers st ;;
  Ok (find (name_is server_name) servers).

(** [restore_config]; [invalid_backup] is the exception the handler raises
    for a backup that is not JSON.  [shutil.copy2] refuses to copy a file
    onto itself ([SameFileError], an [OSError]). *)
Definition restore_config_with (invalid_backup : exn)
           (config_path backup_path : string) (fs : fsys)
  : result unit * fsys :=
  match fs backup_path with
  | None => (Raise ClientHandlerError, fs)
  | Some (Text _) => (Raise invalid_backup, fs)
  | Some (Json v) =>
      if String.eqb backup_path config_path
      then (Raise ClientHandlerError, fs)
      else (Ok tt, fs_write config_path (Json v) fs)
  end.
End Base.

(** *** What [validate_config] and [backup_config] share *)

(** [isinstance(v, dict)], [isinstance(v, list)], [isinstance(v, str)],
    [isinstance(v, bool)] and [v is None] on a value read from a file. *)
Definition is_dict (v : json) : bool :=
  match v with JObj _ => true | _ => false end.

Definition is_list (v : json) : bool :=
  match v with JArr _ => true | _ => false end.

Definition is_string (v : json) : bool :=
  match v with JStr _ => true | _ => false end.

Definition is_bool (v : json) : bool :=
  match v with JBool _ => true | _ => false end.

Definition is_none (v : json) : bool :=
  match v with JNull => true | _ => false end.

(** The body of the loop that checks one entry of a mapping of servers, as
    kinds A and C and the mapping format of kind B have it: the entry is a
    dictionary with a ["command"], and ["args"] and ["env"], when they are
    there and not [None], are a list and a dictionary. *)
Definition valid_mapping_entry (server_config : json) : bool :=
  match server_config with
  | JObj sc =>
      dict_mem "command" sc
      && (let args := get_or "args" JNull sc in is_none args || is_list args)
      && (let env := get_or "env" JNull sc in is_none env || is_dict env)
  | _ => false
  end.

(** The checks on the mapping itself: a dictionary whose entries all pass. *)
Definition valid_mapping (mcp_servers : json) : bool :=
  match mcp_servers with
  | JObj entries => forallb (fun e => valid_mapping_entry (snd e)) entries
  | _ => false
  end.

(** The shared shape of [validate_config]: no file is valid, a file that
    does not parse is not. *)
Definition validating (k : json -> result bool) (st : store) : result bool :=
  match st with
  | None => Ok true
  | Some (Text _) => Ok false
  | Some (Json config_data) => k config_data
  end.

(** [p.parent] for a path written with ["/"]. *)
Fixpoint parent_chars (p : list ascii) : option (list ascii) :=
  match p with
  | [] => None
  | c :: rest =>
      match parent_chars rest with
      | Some d => Some (c :: d)
      | None => if Ascii.eqb c "/"%char then Some [] else None
      end
  end.

Definition parent (p : string) : string :=
  match parent_chars (list_ascii_of_string p) with
  | Some [] => "/"
  | Some d => string_of_list_ascii d
  | None => "."
  end.

(** [dir / name], as [pathlib] writes the result. *)
Definition path_join (dir name : string) : string :=
  if String.eqb dir "." then name
  else if String.eqb dir "/" then ("/" ++ name)%string
  else (dir ++ "/" ++ name)%string.

(** [backup_config]; [backup_filename] is the file name that the handler
    makes from the clock when no path is given.  [shutil.copy2] refuses to
    copy a file onto itself.  The file system has no directories: the
    handlers make the directory of the backup before they copy (kind D for
    its default path only), and the copy is taken to go through. *)
Definition backup_config_with (backup_filename : string)
           (config_path : string) (backup_path : option string) (fs : fsys)
  : result string * fsys :=
  match fs config_path with
  | None => (Raise ClientHandlerError, fs)
  | Some f =>
      let backup_path :=
        match backup_path with
        | Some p => p
        | None => path_join (path_join (parent config_path) "backups")
                    backup_filename
        end in
      if String.eqb config_path backup_path
      then (Raise ClientHandlerError, fs)
      else (Ok backup_path, fs_write backup_path f fs)
  end.

(** Writing the dictionary [config_data] back with [json.dump]. *)
Definition dump (config_data : dict json) : result unit * store :=
  (Ok tt, Some (Json (JObj config_data))).

(** [mcp_servers[server.name] = server_config] over the servers in turn;
    [None] is a server the loop skips with [continue]. *)
Definition by_name (server_config_of : MCPServer -> option (dict json))
           (servers : list MCPServer) : dict json :=
  fold_left
    (fun d server =>
       match server_config_of server with
       | Some c => dict_set (name server) (JObj c) d
       | None => d
       end)
    servers [].

(** [d[k] = v] only under a condition. *)
Definition set_if (b : bool) (k : string) (v : json) (d : dict json) : dict json :=
  if b then dict_set k v d else d.

Definition url_text (server : MCPServer) : string := or_default (url server) "".

Definition not_stdio (server : MCPServer) : bool :=
  negb (MCPServerType_eqb (server_type server) STDIO).

Definition type_value (server : MCPServer) : json :=
  JStr (MCPServerType_value (server_type server)).

(* ------------------------------------------------------------------ *)
(** ** clients/claude_code.py *)

Module ClaudeCodeHandler.

Definition load_entry (entry : string * json) : result MCPServer :=
  let (name, server_config) := entry in
  command <- py_get "command" (JStr "") server_config ;;
  args <- py_get "args" (JArr []) server_config ;;
  env <- py_get "env" (JObj []) server_config ;;
  server_type <- py_get "type" (JStr "stdio") server_config ;;
  url <- py_get "url" JNull server_config ;;
  MCPServer_init
    {| kw_name := JStr name;
       kw_command := command;
       kw_args := Some args;
       kw_env := Some env;
       kw_server_type := Some (map_server_type "stdio" server_type);
       kw_url := Some url;
       kw_enabled := Some (JBool true);
       kw_description := None |}.

Definition load_servers : store -> result (list MCPServer) :=
  with_config []
    (fun config_data =>
       mcp_servers <- py_get "mcpServers" (JObj []) config_data ;;
       items <- py_items mcp_servers ;;
       mapM load_entry items).

Definition server_config_of (server : MCPServer) : dict json :=
  set_if (str_truthy (url server)) "url" (JStr (url_text server))
    (set_if (not_stdio server) "type" (type_value server)
       [("command", JStr (command server));
        ("args", json_of_args (args server));
        ("env", json_of_env (env server))]).

Definition save_servers (servers : list MCPServer) (st : store)
  : result unit * store :=
  match existing_or (JObj []) st with
  | JObj config_data =>
      dump (dict_set "mcpServers"
              (JObj (by_name (fun s => Some (server_config_of s)) servers))
              config_data)
  | _ => (Raise TypeError, st)
  end.

Definition add_server := add_server load_servers save_servers.
Definition remove_server := remove_server load_servers save_servers.
Definition get_server := get_server load_servers.
Definition restore_config := restore_config_with ConfigurationError.

Definition validate_config : store -> result bool :=
  validating
    (fun config_data =>
       mcp_servers <- py_get "mcpServers" (JObj []) config_data ;;
       Ok (valid_mapping mcp_servers)).

(** [timestamp] is [datetime.now().strftime("%Y%m%d_%H%M%S")]. *)
Definition backup_config (timestamp : string) :=
  backup_config_with ("claude_code_config_backup_" ++ timestamp ++ ".json").

End ClaudeCodeHandler.

(* ------------------------------------------------------------------ *)
(** ** clients/vscode.py *)

Module VSCodeHandler.

Definition load_entry (entry : string * json) : result MCPServer :=
  let (name, server_config) := entry in
  command <- py_get "command" (JStr "") server_config ;;
  args <- py_get "args" (JArr []) server_config ;;
  env <- py_get "env" (JObj []) server_config ;;
  server_type <- py_get "type" (JStr "stdio") server_config ;;
  url <- py_get "url" JNull server_config ;;
  description <- py_get "description" (JStr "VS Code MCP Server") server_config ;;
  MCPServer_init
    {| kw_name := JStr name;
       kw_command := command;
       kw_args := Some args;
       kw_env := Some env;
       kw_server_type := Some (map_server_type "stdio" server_type);
       kw_url := Some url;
       kw_enabled := Some (JBool true);
       kw_description := Some description |}.

Definition load_servers : store -> result (list MCPServer) :=
  with_config []
    (fun config_data =>
       mcp_config <- py_get "mcp" (JObj []) config_data ;;
       server_configs <- py_get "servers" (JObj []) mcp_config ;;
       items <- py_items server_configs ;;
       mapM load_entry items).

Definition server_config_of (server : MCPServer) : dict json :=
  set_if (str_truthy (url server)) "url" (JStr (url_text server))
    (set_if (not_stdio server) "type" (type_value server)
       (set_if (match env server with [] => false | _ => true end)
          "env" (json_of_env (env server))
          [("command", JStr (command server));
           ("args", json_of_args (args server))])).

(** [if 'mcp' not in config_data: config_data['mcp'] = {}]. *)
Definition ensure_mcp (config_data : dict json) : dict json :=
  if dict_mem "mcp" config_data then config_data
  else dict_set "mcp" (JObj []) config_data.

Definition save_servers (servers : list MCPServer) (st : store)
  : result unit * store :=
  match existing_or (JObj []) st with
  | JObj config_data =>
      let config_data := ensure_mcp config_data in
      match dict_get "mcp" config_data with
      | Some (JObj mcp) =>
          dump (dict_set "mcp"
                  (JObj (dict_set "servers"
                           (JObj (by_name (fun s => Some (server_config_of s)) servers))
                           mcp))
                  config_data)
      | _ => (Raise TypeError, st)
      end
  | _ => (Raise TypeError, st)
  end.

Definition add_server := add_server load_servers save_servers.
Definition remove_server := remove_server load_servers save_servers.
Definition get_server := get_server load_servers.
Definition restore_config := restore_config_with ConfigurationError.

Definition validate_config : store -> result bool :=
  validating
    (fun config_data =>
       mcp_config <- py_get "mcp" (JObj []) config_data ;;
       if negb (is_dict mcp_config) then Ok false
       else
         servers <- py_get "servers" (JObj []) mcp_config ;;
         Ok (valid_mapping servers)).

Definition backup_config (timestamp : string) :=
  backup_config_with ("vscode_mcp_backup_" ++ timestamp ++ ".json").

End VSCodeHandler.

(* ------------------------------------------------------------------ *)
(** ** clients/gemini_cli.py *)

Module GeminiCLIHandler.

(** [a or b]. *)
Definition py_or (a b : json) : json := if truthy a then a else b.

Section Load.
(** How an f-string renders a value ([str(v)]): Python's own, taken as
    given. *)
Variable py_str : json -> string.

Definition default_description (timeout cwd : json) : json :=
  if truthy timeout || truthy cwd
  then JStr ("Gemini CLI MCP Server (timeout: " ++ py_str timeout
               ++ "ms, cwd: " ++ py_str cwd ++ ")")
  else JNull.

Definition load_entry (entry : string * json) : result MCPServer :=
  let (name, server_config) := entry in
  command <- py_get "command" (JStr "") server_config ;;
  args <- py_get "args" (JArr []) server_config ;;
  env <- py_get "env" (JObj []) server_config ;;
  server_type <- py_get "type" (JStr "stdio") server_config ;;
  url1 <- py_get "url" JNull server_config ;;
  url2 <- py_get "httpUrl" JNull server_config ;;
  trust <- py_get "trust" (JBool true) server_config ;;
  cwd <- py_get "cwd" JNull server_config ;;
  timeout <- py_get "timeout" JNull server_config ;;
  description <- py_get "description" (default_description timeout cwd)
                   server_config ;;
  MCPServer_init
    {| kw_name := JStr name;
       kw_command := command;
       kw_args := Some args;
       kw_env := Some env;
       kw_server_type := Some (map_server_type "stdio" server_type);
       kw_url := Some (py_or url1 url2);
       kw_enabled := Some trust;
       kw_description := Some description |}.

Definition load_servers : store -> result (list MCPServer) :=
  with_config []
    (fun config_data =>
       mcp_servers <- py_get "mcpServers" (JObj []) config_data ;;
       items <- py_items mcp_servers ;;
       mapM load_entry items).
End Load.

Definition server_config_of (server : MCPServer) : dict json :=
  set_if (str_truthy (url server))
    (if MCPServerType_eqb (server_type server) HTTP then "httpUrl" else "url")
    (JStr (url_text server))
    (set_if (not_stdio server) "type" (type_value server)
       [("command", JStr (command server));
        ("args", json_of_args (args server));
        ("env", json_of_env (env server));
        ("trust", JBool (enabled server))]).

Definition save_servers (servers : list MCPServer) (st : store)
  : result unit * store :=
  match existing_or (JObj []) st with
  | JObj config_data =>
      dump (dict_set "mcpServers"
              (JObj (by_name (fun s => Some (server_config_of s)) servers))
              config_data)
  | _ => (Raise TypeError, st)
  end.

Definition add_server py_str := add_server (load_servers py_str) save_servers.
Definition remove_server py_str := remove_server (load_servers py_str) save_servers.
Definition get_server py_str := get_server (load_servers py_str).
Definition restore_config := restore_config_with ClientHandlerError.

(** The entry check of this handler: ["args"] and ["env"], when the keys are
    there, are a list and a dictionary. *)
Definition valid_entry (server_config : json) : bool :=
  match server_config with
  | JObj sc =>
      dict_mem "command" sc
      && negb (dict_mem "args" sc && negb (is_list (get_or "args" JNull sc)))
      && negb (dict_mem "env" sc && negb (is_dict (get_or "env" JNull sc)))
  | _ => false
  end.

Definition validate_config : store -> result bool :=
  validating
    (fun config_data =>
       match config_data with
       | JObj d =>
           match get_or "mcpServers" (JObj []) d with
           | JObj entries => Ok (forallb (fun e => valid_entry (snd e)) entries)
           | _ => Ok false
           end
       | _ => Ok false
       end).

Definition backup_config (timestamp : string) :=
  backup_config_with ("gemini_cli_config_" ++ timestamp ++ ".json").

End GeminiCLIHandler.

(* ------------------------------------------------------------------ *)
(** ** clients/opencode.py *)

(** A loop whose body may [continue] without producing an element. *)
Fixpoint collectM {A B} (f : A -> result (option B)) (l : list A)
  : result (list B) :=
  match l with
  | [] => Ok []
  | a :: l' =>
      b <- f a ;;
      bs <- collectM f l' ;;
      Ok (match b with Some x => x :: bs | None => bs end)
  end.

Module OpenCodeHandler.

(** [command_list[0]] and [command_list[1:] if len(command_list) > 1 else []]
    for a truthy [command_list]. *)
Definition head_and_rest (command_list : json) : result (json * json) :=
  match command_list with
  | JArr (x :: rest) => Ok (x, JArr rest)
  | JStr (String c rest) =>
      Ok (JStr (String c EmptyString),
          match rest with EmptyString => JArr [] | _ => JStr rest end)
  | JObj _ => Raise KeyError
  | _ => Raise TypeError
  end.

(** [url.startswith("http://") and not "sse" in url] for a truthy [url]. *)
Definition plain_http (url : json) : result bool :=
  match url with
  | JStr u => Ok (startswith "http://" u && negb (contains "sse" u))
  | _ => Raise AttributeError
  end.

Definition load_entry (entry : string * json) : result (option MCPServer) :=
  let (server_id, server_config) := entry in
  match server_config with
  | JObj sc =>
      let server_type := get_or "type" (JStr "local") sc in
      let enabled := get_or "enabled" (JBool true) sc in
      if is_str "local" server_type then
        let command_list := get_or "command" (JArr []) sc in
        if negb (truthy command_list) then Ok None
        else
          cr <- head_and_rest command_list ;;
          let env := get_or "environment" (JObj []) sc in
          server <- MCPServer_init
                      {| kw_name := JStr server_id;
                         kw_command := fst cr;
                         kw_args := Some (snd cr);
                         kw_env := Some env;
                         kw_server_type := Some STDIO;
                         kw_url := None;
                         kw_enabled := Some enabled;
                         kw_description := None |} ;;
          Ok (Some server)
      else if is_str "remote" server_type then
        let url := get_or "url" (JStr "") sc in
        if negb (truthy url) then Ok None
        else
          is_http <- plain_http url ;;
          server <- MCPServer_init
                      {| kw_name := JStr server_id;
                         kw_command := JStr "";
                         kw_args := Some (JArr []);
                         kw_env := Some (JObj []);
                         kw_server_type := Some (if is_http then HTTP else SSE);
                         kw_url := Some url;
                         kw_enabled := Some enabled;
                         kw_description := None |} ;;
          Ok (Some server)
      else Ok None
  | _ => Ok None
  end.

Definition load_servers : store -> result (list MCPServer) :=
  with_config []
    (fun config_data =>
       mcp_config <- py_get "mcp" (JObj []) config_data ;;
       items <- py_items mcp_config ;;
       collectM load_entry items).

Definition is_remote_type (server : MCPServer) : bool :=
  match server_type server with SSE | HTTP => true | STDIO => false end.

(** The entry written for a server; [None] for the servers that the loop
    skips as invalid configurations. *)
Definition server_config_of (server : MCPServer) : option (dict json) :=
  if MCPServerType_eqb (server_type server) STDIO
     && negb (String.eqb (command server) "")
  then
    Some (set_if (match env server with [] => false | _ => true end)
            "environment" (json_of_env (env server))
            [("type", JStr "local");
             ("command", json_of_args (command server :: args server));
             ("enabled", JBool (enabled server))])
  else if is_remote_type server && str_truthy (url server)
  then
    Some [("type", JStr "remote");
          ("url", JStr (url_text server));
          ("enabled", JBool (enabled server))]
  else None.

(** [if "$schema" not in config_data: config_data["$schema"] = ...]. *)
Definition ensure_schema (config_data : dict json) : dict json :=
  if dict_mem "$schema" config_data then config_data
  else dict_set "$schema" (JStr "https://opencode.ai/config.json") config_data.

Definition save_servers (servers : list MCPServer) (st : store)
  : result unit * store :=
  match existing_or (JObj []) st with
  | JObj config_data =>
      dump (dict_set "mcp" (JObj (by_name server_config_of servers))
              (ensure_schema config_data))
  | _ => (Raise TypeError, st)
  end.

Definition add_server := add_server load_servers save_servers.
Definition remove_server := remove_server load_servers save_servers.
Definition get_server := get_server load_servers.
Definition restore_config := restore_config_with ConfigurationError.

Definition valid_entry (server_config : json) : bool :=
  match server_config with
  | JObj sc =>
      let server_type := get_or "type" JNull sc in
      if negb (is_str "local" server_type || is_str "remote" server_type)
      then false
      else
        (if is_str "local" server_type
         then
           let command := get_or "command" JNull sc in
           let environment := get_or "environment" JNull sc in
           (is_list command && truthy command)
           && (is_none environment || is_dict environment)
         else
           let url := get_or "url" JNull sc in
           is_string url && truthy url)
        && is_bool (get_or "enabled" (JBool true) sc)
  | _ => false
  end.

Definition validate_config : store -> result bool :=
  validating
    (fun config_data =>
       mcp_config <- py_get "mcp" (JObj []) config_data ;;
       match mcp_config with
       | JObj entries => Ok (forallb (fun e => valid_entry (snd e)) entries)
       | _ => Ok false
       end).

Definition backup_config (timestamp : string) :=
  backup_config_with ("opencode_config_backup_" ++ timestamp ++ ".json").

End OpenCodeHandler.

(* ------------------------------------------------------------------ *)
(** ** clients/cursor.py *)

Module CursorHandler.

(** The four answers of [_detect_config_format]. *)
Inductive config_format : Type := both | claude | cursor | none.

(** [k in config_data and config_data[k]]: the stored value, or [False].
    On a value that is not a dictionary, membership may succeed (an element
    of a list, a substring of a string) and indexing by [k] then raises. *)
Definition has (k : string) (config_data : json) : result json :=
  match config_data with
  | JObj d => Ok (match dict_get k d with Some v => v | None => JBool false end)
  | JArr l => if existsb (is_str k) l then Raise TypeError else Ok (JBool false)
  | JStr s => if contains k s then Raise TypeError else Ok (JBool false)
  | _ => Raise TypeError
  end.

Definition _detect_config_format (config_data : json) : result config_format :=
  has_mcp_servers <- has "mcpServers" config_data ;;
  has_servers <- has "servers" config_data ;;
  Ok (if truthy has_mcp_servers && truthy has_servers then both
      else if truthy has_mcp_servers then claude
      else if truthy has_servers then cursor
      else none).

Definition load_claude_entry (entry : string * json) : result MCPServer :=
  let (name, server_config) := entry in
  command <- py_get "command" (JStr "") server_config ;;
  args <- py_get "args" (JArr []) server_config ;;
  env <- py_get "env" (JObj []) server_config ;;
  server_type <- py_get "type" (JStr "stdio") server_config ;;
  url <- py_get "url" JNull server_config ;;
  disabled <- py_get "disabled" (JBool false) server_config ;;
  MCPServer_init
    {| kw_name := JStr name;
       kw_command := command;
       kw_args := Some args;
       kw_env := Some env;
       kw_server_type := Some (map_server_type "stdio" server_type);
       kw_url := Some url;
       kw_enabled := Some (JBool (negb (truthy disabled)));
       kw_description := None |}.

Definition _load_claude_format (config_data : json) : result (list MCPServer) :=
  mcp_servers <- py_get "mcpServers" (JObj []) config_data ;;
  items <- py_items mcp_servers ;;
  mapM load_claude_entry items.

(** What [for x in v] goes through. *)
Definition py_iter (v : json) : result (list json) :=
  match v with
  | JArr l => Ok l
  | JObj d => Ok (map (fun kv => JStr (fst kv)) d)
  | JStr s => Ok (map (fun c => JStr (String c EmptyString)) (list_ascii_of_string s))
  | _ => Raise TypeError
  end.

(** The executable and the arguments out of the combined command string. *)
Definition split_command (command : json) : result (json * json) :=
  if truthy command then
    match command with
    | JStr c =>
        match py_split c with
        | actual_command :: rest => Ok (JStr actual_command, JArr (map JStr rest))
        | [] => Ok (command, JArr [])
        end
    | _ => Raise AttributeError
    end
  else Ok (JStr "", JArr []).

Definition load_cursor_entry (server_config : json) : result MCPServer :=
  name <- py_get "name" (JStr "") server_config ;;
  server_type <- py_get "type" (JStr "command") server_config ;;
  command <- py_get "command" (JStr "") server_config ;;
  enabled <- py_get "enabled" (JBool true) server_config ;;
  ca <- split_command command ;;
  MCPServer_init
    {| kw_name := name;
       kw_command := fst ca;
       kw_args := Some (snd ca);
       kw_env := Some (JObj []);
       kw_server_type := Some (map_server_type "command" server_type);
       kw_url := None;
       kw_enabled := Some enabled;
       kw_description := None |}.

Definition _load_cursor_format (config_data : json) : result (list MCPServer) :=
  server_list <- py_get "servers" (JArr []) config_data ;;
  items <- py_iter server_list ;;
  mapM load_cursor_entry items.

Definition load_servers : store -> result (list MCPServer) :=
  with_config []
    (fun config_data =>
       config_format <- _detect_config_format config_data ;;
       match config_format with
       | both =>
           a <- _load_claude_format config_data ;;
           b <- _load_cursor_format config_data ;;
           Ok (a ++ b)
       | claude => _load_claude_format config_data
       | cursor => _load_cursor_format config_data
       | none => Ok []
       end).

Definition claude_config_of (server : MCPServer) : dict json :=
  set_if (negb (enabled server)) "disabled" (JBool true)
    (set_if (str_truthy (url server)) "url" (JStr (url_text server))
       (set_if (not_stdio server) "type" (type_value server)
          [("command", JStr (command server));
           ("args", json_of_args (args server));
           ("env", json_of_env (env server))])).

(** [_save_claude_format]: [config_data['mcpServers'] = mcp_servers]. *)
Definition _save_claude_format (config_data : dict json)
           (servers : list MCPServer) : dict json :=
  dict_set "mcpServers"
    (JObj (by_name (fun s => Some (claude_config_of s)) servers)) config_data.

Definition command_str (server : MCPServer) : string :=
  match args server with
  | [] => command server
  | _ => command server ++ " " ++ py_join (args server)
  end.

Definition cursor_type (server : MCPServer) : string :=
  match server_type server with
  | STDIO => "command"
  | SSE => "sse"
  | HTTP => "http"
  end.

Definition cursor_config_of (server : MCPServer) : json :=
  JObj [("name", JStr (name server));
        ("type", JStr (cursor_type server));
        ("command", JStr (command_str server));
        ("enabled", JBool (enabled server))].

(** [_save_cursor_format]: [config_data['servers'] = server_list]. *)
Definition _save_cursor_format (config_data : dict json)
           (servers : list MCPServer) : dict json :=
  dict_set "servers" (JArr (map cursor_config_of servers)) config_data.

(** The configuration [save_servers] starts from and the format it found:
    a missing or unreadable file gives a new configuration in the native
    format. *)
Definition existing (st : store) : result (json * config_format) :=
  match st with
  | Some (Json config_data) =>
      existing_format <- _detect_config_format config_data ;;
      Ok (config_data, existing_format)
  | _ => Ok (JObj [("version", JStr "1.0")], cursor)
  end.

Definition save_servers (servers : list MCPServer) (st : store)
  : result unit * store :=
  match existing st with
  | Raise e => (Raise e, st)
  | Ok (JObj config_data, existing_format) =>
      match existing_format with
      | both =>
          dump (_save_claude_format (dict_del "servers" config_data) servers)
      | claude => dump (_save_claude_format config_data servers)
      | cursor | none => dump (_save_cursor_format config_data servers)
      end
  | Ok (_, _) => (Raise TypeError, st)
  end.

Definition add_server := add_server load_servers save_servers.
Definition remove_server := remove_server load_servers save_servers.
Definition get_server := get_server load_servers.
Definition restore_config := restore_config_with ConfigurationError.

Definition _validate_claude_format (config_data : json) : result bool :=
  mcp_servers <- py_get "mcpServers" (JObj []) config_data ;;
  Ok (valid_mapping mcp_servers).

Definition valid_cursor_entry (server_config : json) : bool :=
  match server_config with
  | JObj sc =>
      (dict_mem "name" sc && dict_mem "command" sc)
      && (let server_type := get_or "type" JNull sc in
          is_none server_type
          || is_str "command" server_type || is_str "sse" server_type
          || is_str "http" server_type)
      && (let enabled := get_or "enabled" JNull sc in
          is_none enabled || is_bool enabled)
  | _ => false
  end.

Definition _validate_cursor_format (config_data : json) : result bool :=
  servers <- py_get "servers" (JArr []) config_data ;;
  match servers with
  | JArr items => Ok (forallb valid_cursor_entry items)
  | _ => Ok false
  end.

Definition validate_config : store -> result bool :=
  validating
    (fun config_data =>
       config_format <- _detect_config_format config_data ;;
       match config_format with
       | claude => _validate_claude_format config_data
       | cursor => _validate_cursor_format config_data
       | both =>
           a <- _validate_claude_format config_data ;;
           if a then _validate_cursor_format config_data else Ok false
       | none => Ok true
       end).

(** [get_config_format]. *)
Definition get_config_format (st : store) : result config_format :=
  match st with
  | Some (Json config_data) => _detect_config_format config_data
  | _ => Ok none
  end.

Definition backup_config (timestamp : string) :=
  backup_config_with ("cursor_mcp_backup_" ++ timestamp ++ ".json").

End CursorHandler.

(* ------------------------------------------------------------------ *)
(** ** clients/__init__.py *)

(** The handler classes of the [clients] package. *)
Inductive handler_class : Type :=
| ClaudeCode
| ClaudeDesktop
| Cursor
| VSCode
| GeminiCLI
| OpenCode.

Definition CLIENT_HANDLERS : list (ClientType * handler_class) :=
  [(CLAUDE_CODE, ClaudeCode);
   (CLAUDE_DESKTOP, ClaudeDesktop);
   (CURSOR, Cursor);
   (VSCODE, VSCode)].

(** [get_client_handler].  The argument is whatever string the caller has:
    [ClientType] is a [str] enumeration, so a member and its value are the
    same dictionary key. *)
Definition get_client_handler (client_type : string) : result handler_class :=
  match find (fun e => String.eqb (ClientType_value (fst e)) client_type)
             CLIENT_HANDLERS with
  | Some e => Ok (snd e)
  | None => Raise ValueError
  end.

(* ------------------------------------------------------------------ *)
(** ** core/registry.py *)

Record ClientConfig : Type := mkClientConfig {
  client_type : ClientType;
  config_path : string;
  is_available : bool;
  servers : list MCPServer
}.

(** [dir / name] on paths. *)
Definition child (dir name : string) : string := (dir ++ "/" ++ name)%string.

Infix "//" := child (at level 40, left associativity).

(** The methods of [ClientConfig] (core/models.py) on its list of servers. *)
Module Client.

Definition with_servers (c : ClientConfig) (l : list MCPServer) : ClientConfig :=
  {| client_type := client_type c; config_path := config_path c;
     is_available := is_available c; servers := l |}.

Definition add_server (server : MCPServer) (c : ClientConfig) : ClientConfig :=
  with_servers c (without (name server) (servers c) ++ [server]).

Definition remove_server (server_name : string) (c : ClientConfig)
  : bool * ClientConfig :=
  let original_count := length (servers c) in
  let c' := with_servers c (without server_name (servers c)) in
  (Nat.ltb (length (servers c')) original_count, c').

Definition get_server (server_name : string) (c : ClientConfig)
  : option MCPServer :=
  find (name_is server_name) (servers c).

End Client.

(** What discovery asks the host. *)
Record host : Type := mkHost {
  system : string;                 (* [platform.system().lower()] *)
  home : string;                   (* [Path.home()] *)
  path_exists : string -> bool;    (* [Path.exists] *)
  which : string -> bool           (* [shutil.which(cmd) is not None] *)
}.

Module ClientRegistry.
Section Discovery.
Variable h : host.

Definition found (t : ClientType) (path : string) : option ClientConfig :=
  Some {| client_type := t; config_path := path;
          is_available := true; servers := [] |}.

Definition _discover_claude_code : option ClientConfig :=
  let config_path := home h // ".claude.json" in
  let local_settings := home h // ".claude" // "settings.json" in
  let local_settings_parent := home h // ".claude" in
  if path_exists h config_path then found CLAUDE_CODE config_path
  else if path_exists h local_settings || path_exists h local_settings_parent
       then found CLAUDE_CODE config_path
       else None.

Definition _discover_claude_desktop : option ClientConfig :=
  let dir :=
    if String.eqb (system h) "darwin"
    then home h // "Library" // "Application Support" // "Claude"
    else if String.eqb (system h) "windows"
         then home h // "AppData" // "Roaming" // "Claude"
         else home h // ".config" // "Claude" in
  let config_path := dir // "claude_desktop_config.json" in
  let configured := path_exists h config_path || path_exists h dir in
  let is_available :=
    if String.eqb (system h) "darwin"
    then path_exists h "/Applications/Claude.app" || configured
    else if String.eqb (system h) "windows"
         then existsb (path_exists h)
                [home h // "AppData" // "Local" // "Claude" // "Claude.exe";
                 "C:/Program Files/Claude/Claude.exe";
                 "C:/Program Files (x86)/Claude/Claude.exe"]
              || configured
         else configured in
  if is_available then found CLAUDE_DESKTOP config_path else None.

Definition _discover_cursor : option ClientConfig :=
  let global_config := home h // ".cursor" // "mcp.json" in
  let configured :=
    path_exists h global_config || path_exists h (home h // ".cursor") in
  let is_available :=
    if String.eqb (system h) "darwin"
    then path_exists h "/Applications/Cursor.app" || configured
    else if String.eqb (system h) "windows"
         then existsb (path_exists h)
                [home h // "AppData" // "Local" // "Programs" // "cursor" // "Cursor.exe";
                 "C:/Program Files/Cursor/Cursor.exe"]
              || configured
         else existsb (path_exists h)
                [home h // ".local" // "share" // "cursor";
                 "/usr/local/bin/cursor";
                 "/usr/bin/cursor"]
              || configured in
  if is_available then found CURSOR global_config else None.

Definition _discover_vscode : option ClientConfig :=
  let config_path :=
    if String.eqb (system h) "darwin"
    then home h // "Library" // "Application Support" // "Code" // "User" // "settings.json"
    else if String.eqb (system h) "windows"
         then home h // "AppData" // "Roaming" // "Code" // "User" // "settings.json"
         else home h // ".config" // "Code" // "User" // "settings.json" in
  let vscode_available :=
    which h "code" || which h "code-insiders" || path_exists h config_path
    || path_exists h "/Applications/Visual Studio Code.app" in
  if vscode_available then found VSCODE config_path else None.

(** [_discover_client].  Its last branch compares with
    [ClientType.GEMINI_CLI], a name the enumeration does not have; no
    member reaches that comparison, each one is taken by an earlier
    branch. *)
Definition _discover_client (client_type : ClientType) : option ClientConfig :=
  match client_type with
  | CLAUDE_CODE => _discover_claude_code
  | CLAUDE_DESKTOP => _discover_claude_desktop
  | CURSOR => _discover_cursor
  | VSCODE => _discover_vscode
  end.

(** [_discover_clients]: the registry's [_clients] after a discovery. *)
Definition _discover_clients : list (ClientType * ClientConfig) :=
  flat_map
    (fun client_type =>
       match _discover_client client_type with
       | Some config => [(client_type, config)]
       | None => []
       end)
    ClientType_members.

(** [get_available_clients]. *)
Definition get_available_clients : list ClientConfig :=
  map snd _discover_clients.
End Discovery.
(** The registry's [_clients], a dictionary keyed by client type. *)
Definition clients := list (ClientType * ClientConfig).

Definition ClientType_eqb (a b : ClientType) : bool :=
  String.eqb (ClientType_value a) (ClientType_value b).

Fixpoint lookup (t : ClientType) (cs : clients) : option ClientConfig :=
  match cs with
  | [] => None
  | (t', c) :: cs' => if ClientType_eqb t' t then Some c else lookup t cs'
  end.

(** [get_client]; [None] is [ClientNotFoundError]. *)
Definition get_client (t : ClientType) (cs : clients) : option ClientConfig :=
  lookup t cs.

Definition is_client_available (t : ClientType) (cs : clients) : bool :=
  match lookup t cs with Some _ => true | None => false end.

(** [self._clients[t] = config]. *)
Fixpoint assign (t : ClientType) (config : ClientConfig) (cs : clients) : clients :=
  match cs with
  | [] => [(t, config)]
  | (t', c) :: cs' =>
      if ClientType_eqb t' t then (t', config) :: cs'
      else (t', c) :: assign t config cs'
  end.

Definition add_custom_client (config : ClientConfig) (cs : clients) : clients :=
  assign (client_type config) config cs.

(** [get_available_clients] of a registry in any state. *)
Definition available (cs : clients) : list ClientConfig := map snd cs.

End ClientRegistry.


(* ------------------------------------------------------------------ *)
(** ** The handlers behind one interface

    The five handler classes of [clients/] that implement
    [BaseClientHandler], named by the tool kind each one serves:
    A [claude_code.py], B [cursor.py], C [vscode.py], D [gemini_cli.py],
    E [opencode.py]. *)

Inductive adapter : Type := kind_A | kind_B | kind_C | kind_D | kind_E.

Section Adapters.
Variable py_str : json -> string.

Definition load (k : adapter) : store -> result (list MCPServer) :=
  match k with
  | kind_A => ClaudeCodeHandler.load_servers
  | kind_B => CursorHandler.load_servers
  | kind_C => VSCodeHandler.load_servers
  | kind_D => GeminiCLIHandler.load_servers py_str
  | kind_E => OpenCodeHandler.load_servers
  end.

Definition save (k : adapter) : list MCPServer -> store -> result unit * store :=
  match k with
  | kind_A => ClaudeCodeHandler.save_servers
  | kind_B => CursorHandler.save_servers
  | kind_C => VSCodeHandler.save_servers
  | kind_D => GeminiCLIHandler.save_servers
  | kind_E => OpenCodeHandler.save_servers
  end.

Definition add (k : adapter) := add_server (load k) (save k).
Definition remove (k : adapter) := remove_server (load k) (save k).
Definition get (k : adapter) := get_server (load k).
End Adapters.

Definition validate (k : adapter) : store -> result bool :=
  match k with
  | kind_A => ClaudeCodeHandler.validate_config
  | kind_B => CursorHandler.validate_config
  | kind_C => VSCodeHandler.validate_config
  | kind_D => GeminiCLIHandler.validate_config
  | kind_E => OpenCodeHandler.validate_config
  end.

Definition backup (k : adapter) (timestamp : string)
  : string -> option string -> fsys -> result string * fsys :=
  match k with
  | kind_A => ClaudeCodeHandler.backup_config timestamp
  | kind_B => CursorHandler.backup_config timestamp
  | kind_C => VSCodeHandler.backup_config timestamp
  | kind_D => GeminiCLIHandler.backup_config timestamp
  | kind_E => OpenCodeHandler.backup_config timestamp
  end.

Definition restore (k : adapter)
  : string -> string -> fsys -> result unit * fsys :=
  match k with
  | kind_A => ClaudeCodeHandler.restore_config
  | kind_B => CursorHandler.restore_config
  | kind_C => VSCodeHandler.restore_config
  | kind_D => GeminiCLIHandler.restore_config
  | kind_E => OpenCodeHandler.restore_config
  end.

(* ------------------------------------------------------------------ *)
(** ** cli/commands/add.py *)

Module AddCommand.

(** [s.split('=', 1)] when ['=' in s]; [None] when there is no ['=']. *)
Fixpoint split_eq (s : string) : option (string * string) :=
  match s with
  | EmptyString => None
  | String c rest =>
      if Ascii.eqb c "="%char then Some (EmptyString, rest)
      else match split_eq rest with
           | Some (key, value) => Some (String c key, value)
           | None => None
           end
  end.

(** The loop over [--env]: [env_dict[key] = value] for each entry; [None]
    when an entry has no ['='] and the command returns. *)
Fixpoint parse_env (env : list string) (env_dict : dict string)
  : option (dict string) :=
  match env with
  | [] => Some env_dict
  | env_var :: rest =>
      match split_eq env_var with
      | None => None
      | Some (key, value) => parse_env rest (dict_set key value env_dict)
      end
  end.

(** The arguments and options of [add_command] as click hands them over:
    [--type] is one of the three choices. *)
Record options : Type := mkOptions {
  opt_name : string;
  opt_command : string;
  opt_args : list string;
  opt_env : list string;
  opt_server_type : MCPServerType;
  opt_url : option string;
  opt_description : option string;
  opt_disabled : bool
}.

Definition json_of_opt (v : option string) : json :=
  match v with Some s => JStr s | None => JNull end.

(** The part of [add_command] that makes the server object; [None] is a
    return after an error message.  pydantic's [ValidationError] is a
    [ValueError], which the command catches. *)
Definition make_server (o : options) : option MCPServer :=
  match parse_env (opt_env o) [] with
  | None => None
  | Some env_dict =>
      if negb (MCPServerType_eqb (opt_server_type o) STDIO)
         && negb (str_truthy (opt_url o))
      then None
      else
        match MCPServer_init
                {| kw_name := JStr (opt_name o);
                   kw_command := JStr (opt_command o);
                   kw_args := Some (json_of_args (opt_args o));
                   kw_env := Some (json_of_env env_dict);
                   kw_server_type := Some (opt_server_type o);
                   kw_url := Some (json_of_opt (opt_url o));
                   kw_enabled := Some (JBool (negb (opt_disabled o)));
                   kw_description := Some (json_of_opt (opt_description o)) |}
        with
        | Ok server => Some server
        | Raise _ => None
        end
  end.

End AddCommand.

(* ------------------------------------------------------------------ *)
(** ** cli/commands/sync.py *)

Module SyncCommand.

(** The filter of [--servers]: all the source's servers when none is asked
    for; [None], a return after the message, when a name that is asked for
    is not among the source's. *)
Definition select_servers (servers : list string)
           (source_servers : list MCPServer) : option (list MCPServer) :=
  match servers with
  | [] => Some source_servers
  | _ :: _ =>
      let missing_servers :=
        filter (fun n => negb (existsb (name_is n) source_servers)) servers in
      match missing_servers with
      | _ :: _ => None
      | [] =>
          Some (filter (fun s => existsb (String.eqb (name s)) servers)
                  source_servers)
      end
  end.

(** The loop over [--to]: the source is skipped, an invalid name ends the
    command ([None]). *)
Fixpoint named_targets (source_client_type : ClientType)
         (target_clients : list string) : option (list ClientType) :=
  match target_clients with
  | [] => Some []
  | client_name :: rest =>
      match ClientType_of_value client_name with
      | Raise _ => None
      | Ok client_type =>
          match named_targets source_client_type rest with
          | None => None
          | Some types =>
              Some (if ClientRegistry.ClientType_eqb client_type source_client_type
                    then types else client_type :: types)
          end
      end
  end.

(** [target_client_types]: the clients named with [--to], or every
    available client but the source. *)
Definition target_client_types (target_clients : list string)
           (source_client_type : ClientType)
           (available_clients : list ClientConfig) : option (list ClientType) :=
  match target_clients with
  | [] =>
      Some (map client_type
              (filter (fun client =>
                         negb (ClientRegistry.ClientType_eqb (client_type client)
                                 source_client_type))
                 available_clients))
  | _ :: _ => named_targets source_client_type target_clients
  end.

(** The work on one target once its handler is made: the load of the
    existing servers and the loop over the source's servers.  The backup
    that [--backup] takes before, a copy to another path whose failure is
    only reported, is left out. *)
Section Target.
Variable load_servers : store -> result (list MCPServer).
Variable add_server : MCPServer -> store -> result unit * store.
Variable overwrite : bool.
(** [Confirm.ask]: the answer to the [n]-th question of the loop. *)
Variable ask : nat -> bool.

Record progress : Type := mkProgress {
  asked : nat;             (* questions put so far *)
  client_success : nat;
  config : store           (* the target's configuration file *)
}.

(** [existing_names] is taken once, before the loop.  An exception of
    [add_server] is reported and the loop goes on. *)
Fixpoint sync_servers (existing_names : list string)
         (source_servers : list MCPServer) (p : progress) : progress :=
  match source_servers with
  | [] => p
  | server :: rest =>
      let conflict :=
        existsb (String.eqb (name server)) existing_names && negb overwrite in
      let asked' := if conflict then S (asked p) else asked p in
      if conflict && negb (ask (asked p))
      then sync_servers existing_names rest
             {| asked := asked'; client_success := client_success p;
                config := config p |}
      else
        match add_server server (config p) with
        | (Ok _, st') =>
            sync_servers existing_names rest
              {| asked := asked'; client_success := S (client_success p);
                 config := st' |}
        | (Raise _, st') =>
            sync_servers existing_names rest
              {| asked := asked'; client_success := client_success p;
                 config := st' |}
        end
  end.

(** A failing load of the target is reported and the target is left. *)
Definition sync_target (source_servers : list MCPServer) (st : store)
  : result progress :=
  existing_servers <- load_servers st ;;
  Ok (sync_servers (map name existing_servers) source_servers
        {| asked := 0; client_success := 0; config := st |}).
End Target.

End SyncCommand.

(* ------------------------------------------------------------------ *)
(** ** The vocabulary of the properties *)

(** *** Valid records *)

(** The name went through [validate_name]. *)
Definition named (s : MCPServer) : Prop :=
  validate_name (name s) = Some (name s).

(** A valid record: a validated name, and a non-empty url with every
    transport other than stdio.  This is what [MCPServer(...)] leaves when
    the url is passed. *)
Definition consistent (s : MCPServer) : Prop :=
  named s /\ (not_stdio s = true -> str_truthy (url s) = true).

(** The url as a handler reads it back: an empty url is not written. *)
Definition norm_url (s : MCPServer) : option string :=
  if str_truthy (url s) then url s else None.

(** The number of records that carry the name [n]. *)
Definition count_name (n : string) (l : list MCPServer) : nat :=
  length (filter (name_is n) l).

(** *** What is stored where *)

(** The top-level keys under which a kind stores MCP servers. *)
Definition storage_keys (k : adapter) : list string :=
  match k with
  | kind_A => ["mcpServers"]
  | kind_B => ["mcpServers"; "servers"]
  | kind_C => ["mcp"]
  | kind_D => ["mcpServers"]
  | kind_E => ["mcp"]
  end.

(** What a successful [save] of [servers] leaves under the storage key of
    the kind, in the dictionary [d'] that it wrote.  Kind B writes one of its
    two formats. *)
Definition wrote (k : adapter) (servers : list MCPServer) (d' : dict json) : Prop :=
  match k with
  | kind_A =>
      dict_get "mcpServers" d'
      = Some (JObj (by_name (fun s => Some (ClaudeCodeHandler.server_config_of s)) servers))
  | kind_B =>
      dict_get "mcpServers" d'
      = Some (JObj (by_name (fun s => Some (CursorHandler.claude_config_of s)) servers))
      \/ dict_get "servers" d'
         = Some (JArr (map CursorHandler.cursor_config_of servers))
  | kind_C =>
      exists mcp,
        dict_get "mcp" d' = Some (JObj mcp) /\
        dict_get "servers" mcp
        = Some (JObj (by_name (fun s => Some (VSCodeHandler.server_config_of s)) servers))
  | kind_D =>
      dict_get "mcpServers" d'
      = Some (JObj (by_name (fun s => Some (GeminiCLIHandler.server_config_of s)) servers))
  | kind_E =>
      dict_get "mcp" d'
      = Some (JObj (by_name OpenCodeHandler.server_config_of servers))
  end.

(** The existing dictionaries a kind can write its servers into: kind C
    assigns into the value of ["mcp"], which has to be a dictionary when the
    key is there. *)
Definition saveable (k : adapter) (d : dict json) : Prop :=
  match k with
  | kind_C => forall v, dict_get "mcp" d = Some v -> exists mcp, v = JObj mcp
  | _ => True
  end.

(** The shape that the handlers of kinds A and D share: the servers are a
    mapping under one top-level key, read entry by entry with [dec] and
    written entry by entry with [enc]. *)
Definition mapping_load (key : string) (dec : string * json -> result MCPServer)
  : store -> result (list MCPServer) :=
  with_config []
    (fun config_data =>
       mcp_servers <- py_get key (JObj []) config_data ;;
       items <- py_items mcp_servers ;;
       mapM dec items).

Definition mapping_save (key : string) (enc : MCPServer -> dict json)
           (servers : list MCPServer) (st : store) : result unit * store :=
  match existing_or (JObj []) st with
  | JObj config_data =>
      dump (dict_set key (JObj (by_name (fun s => Some (enc s)) servers))
              config_data)
  | _ => (Raise TypeError, st)
  end.

(** The exception a kind's [restore_config] raises for a backup that is not
    JSON. *)
Definition invalid_backup (k : adapter) : exn :=
  match k with
  | kind_D => ClientHandlerError
  | _ => ConfigurationError
  end.

(** *** The two formats of kind B *)

(** A kind-B configuration with both sub-formats populated: the
    ["mcpServers"] mapping holds [mcp] and the ["servers"] list holds [srv],
    neither of them empty. *)
Definition both_populated (d mcp : dict json) (srv : list json) : Prop :=
  dict_get "mcpServers" d = Some (JObj mcp) /\ mcp <> [] /\
  dict_get "servers" d = Some (JArr srv) /\ srv <> [].

(** Whether kind B finds a non-empty ["mcpServers"] in the existing file,
    and so writes its mapping format. *)
Definition writes_mapping (st : store) : bool :=
  match st with
  | Some (Json (JObj d)) => truthy (get_or "mcpServers" (JBool false) d)
  | _ => false
  end.

(** A word of a command line: not empty and free of whitespace. *)
Definition token (s : string) : Prop :=
  s <> "" /\ forallb (fun c => negb (is_space c)) (list_ascii_of_string s) = true.

(** The command and arguments that come back from the list format: the
    whitespace split of the joined command line. *)
Definition cursor_command (s : MCPServer) : string * list string :=
  let c := CursorHandler.command_str s in
  if String.eqb c "" then ("", [])
  else match py_split c with
       | x :: rest => (x, rest)
       | [] => (c, [])
       end.

(** *** What is read back *)

(** What the kinds read back for a server [s] that they wrote.  Kinds A and
    C have no field for [enabled] and load it as true; kind C fills in a
    description; kind D and the mapping format of kind B keep [enabled]. *)
Definition A_image (s : MCPServer) : MCPServer :=
  {| name := name s; command := command s; args := args s; env := env s;
     server_type := server_type s; url := norm_url s; enabled := true;
     description := None |}.

Definition C_image (s : MCPServer) : MCPServer :=
  {| name := name s; command := command s; args := args s; env := env s;
     server_type := server_type s; url := norm_url s; enabled := true;
     description := Some "VS Code MCP Server" |}.

Definition D_image (s : MCPServer) : MCPServer :=
  {| name := name s; command := command s; args := args s; env := env s;
     server_type := server_type s; url := norm_url s; enabled := enabled s;
     description := None |}.

(** The list format of kind B stores neither the environment nor the url. *)
Definition B_list_image (s : MCPServer) : MCPServer :=
  {| name := name s; command := fst (cursor_command s);
     args := snd (cursor_command s); env := [];
     server_type := server_type s; url := None; enabled := enabled s;
     description := None |}.

(** Whether kind E writes a local entry for [r]. *)
Definition local_entry (r : MCPServer) : bool :=
  MCPServerType_eqb (server_type r) STDIO && negb (String.eqb (command r) "").

(** Kind E: a local entry keeps the command line, the environment and the
    enabled flag; a remote entry keeps the url and the enabled flag, and its
    transport is read off the url. *)
Definition E_image (s : MCPServer) : MCPServer :=
  if local_entry s
  then {| name := name s; command := command s; args := args s; env := env s;
          server_type := STDIO; url := None; enabled := enabled s;
          description := None |}
  else {| name := name s; command := ""; args := []; env := [];
          server_type :=
            (if startswith "http://" (url_text s) && negb (contains "sse" (url_text s))
             then HTTP else SSE);
          url := Some (url_text s); enabled := enabled s;
          description := None |}.

(** The entry kind E writes for a server, empty for one that it skips. *)
Definition opencode_entry (s : MCPServer) : dict json :=
  or_default (OpenCodeHandler.server_config_of s) [].

(** What [get] returns after [add] of the server [r] to the file [st]. *)
Definition read_back (k : adapter) (st : store) (r : MCPServer) : MCPServer :=
  match k with
  | kind_A => A_image r
  | kind_B => if writes_mapping st then D_image r else B_list_image r
  | kind_C => C_image r
  | kind_D => D_image r
  | kind_E => E_image r
  end.

(** The servers that a kind writes in a way it can load again: the mapping
    formats want a valid record, the list format of kind B a valid name,
    kind E a valid name and a server that it has an entry for. *)
Definition can_write (k : adapter) (st : store) (s : MCPServer) : Prop :=
  match k with
  | kind_B => if writes_mapping st then consistent s else named s
  | kind_E => named s /\ OpenCodeHandler.server_config_of s <> None
  | _ => consistent s
  end.

(** The servers [r] that a kind can add to the file [st], from which it
    loaded [l]: those it can write; kind B, when it writes its mapping
    format, wants the servers already loaded to be valid records too, and
    when it writes its list format needs a file that is absent or holds a
    dictionary. *)
Definition can_add (k : adapter) (st : store) (l : list MCPServer)
           (r : MCPServer) : Prop :=
  match k with
  | kind_B =>
      if writes_mapping st
      then consistent r /\ Forall consistent l
      else named r /\ (st = None \/ exists d, st = Some (Json (JObj d)))
  | kind_E => named r /\ OpenCodeHandler.server_config_of r <> None
  | _ => consistent r
  end.

Definition same_command_line (r r' : MCPServer) : Prop :=
  command r' = command r /\ args r' = args r.

(** The fields of [r] that the record [r'] read back by a kind agrees on. *)
Definition kept_fields (k : adapter) (st : store) (r r' : MCPServer) : Prop :=
  name r' = name r /\
  match k with
  | kind_A | kind_C =>
      same_command_line r r' /\ env r' = env r /\
      server_type r' = server_type r /\ url r' = norm_url r /\
      enabled r' = true
  | kind_D =>
      same_command_line r r' /\ env r' = env r /\
      server_type r' = server_type r /\ url r' = norm_url r /\
      enabled r' = enabled r
  | kind_B =>
      server_type r' = server_type r /\ enabled r' = enabled r /\
      if writes_mapping st
      then same_command_line r r' /\ env r' = env r /\ url r' = norm_url r
      else env r' = [] /\ url r' = None /\
           (Forall token (command r :: args r)
            \/ (command r = "" /\ args r = []) -> same_command_line r r')
  | kind_E =>
      enabled r' = enabled r /\
      if local_entry r
      then same_command_line r r' /\ env r' = env r /\
           server_type r' = STDIO /\ url r' = None
      else url r' = url r /\ command r' = "" /\ args r' = [] /\ env r' = [] /\
           server_type r'
           = (if startswith "http://" (url_text r)
                 && negb (contains "sse" (url_text r))
              then HTTP else SSE)
  end.

(* ------------------------------------------------------------------ *)
(** ** Sample inputs *)

(** A host with a live configuration and a backup whose text is not JSON. *)
Definition fs_bad_backup : fsys :=
  fun p =>
    if String.eqb p "backup.json" then Some (Text "{not json")
    else if String.eqb p "settings.json" then Some (Json (JObj []))
    else None.

(** [MCPServer(name=n, command=c)]: every other argument left out. *)
Definition minimal (n c : string) : kwargs :=
  {| kw_name := JStr n; kw_command := JStr c;
     kw_args := None; kw_env := None; kw_server_type := None;
     kw_url := None; kw_enabled := None; kw_description := None |}.

(** [MCPServer(name="sse-server", command="", server_type=MCPServerType.SSE)],
    the call that [test_url_validation_for_sse_server] expects to raise. *)
Definition sse_without_url : kwargs :=
  {| kw_name := JStr "sse-server"; kw_command := JStr "";
     kw_args := None; kw_env := None; kw_server_type := Some SSE;
     kw_url := None; kw_enabled := None; kw_description := None |}.

(** A kind-B file in which both sub-formats hold a server named ["fs"], next
    to an unrelated key. *)
Definition both_mcp : dict json :=
  [("fs", JObj [("command", JStr "npx");
                ("args", JArr [JStr "-y"; JStr "pkg"])])].

Definition both_srv : list json :=
  [JObj [("name", JStr "fs"); ("type", JStr "command");
         ("command", JStr "node server.js"); ("enabled", JBool true)]].

Definition both_config : dict json :=
  [("mcpServers", JObj both_mcp); ("servers", JArr both_srv);
   ("theme", JStr "dark")].

(** A stdio server with an empty command and a url: a valid record, and one
    that kind E skips. *)
Definition stdio_with_url : MCPServer :=
  {| name := "remote"; command := ""; args := []; env := [];
     server_type := STDIO; url := Some "http://localhost:3000";
     enabled := true; description := None |}.

Definition sample_server : MCPServer :=
  {| name := "weather"; command := "node"; args := ["/path/to/weather.js"];
     env := [("API_KEY", "secret")]; server_type := STDIO; url := None;
     enabled := true; description := None |}.

(** A settings file with one key that has nothing to do with MCP. *)
Definition sample_settings : store :=
  Some (Json (JObj [("editor.fontSize", JInt 12)])).

(** A kind-A file whose one entry passes [validate_config] under a name
    that [MCPServer] refuses. *)
Definition entry_with_bad_name : store :=
  Some (Json (JObj [("mcpServers",
                     JObj [("my server", JObj [("command", JStr "npx")])])])).

(** A host with one kind-A configuration and nothing else. *)
Definition fs_one_config : fsys :=
  fun p => if String.eqb p "/home/u/.claude.json"
           then Some (Json (JObj [("mcpServers", JObj [])])) else None.

(** A kind-B file in the list format with one sse entry:
    [{"servers": [{"name": "events", "type": "sse", "command": ""}]}]. *)
Definition cursor_sse_list : store :=
  Some (Json (JObj [("servers",
                     JArr [JObj [("name", JStr "events");
                                 ("type", JStr "sse");
                                 ("command", JStr "")]])])).

(** The configuration of the kind-A scenario:
    [{"mcpServers": {"fs": {"command": "npx", "args": ["-y", "pkg"], "env": {}}}}]. *)
Definition kind_A_scenario : store :=
  Some (Json (JObj
    [("mcpServers",
      JObj [("fs", JObj [("command", JStr "npx");
                         ("args", JArr [JStr "-y"; JStr "pkg"]);
                         ("env", JObj [])])])])).

(* ================================================================== *)
(** * Properties *)

Unset Implicit Arguments.

(** ** Dictionaries *)

Section DictFacts.
Variable V : Type.
Implicit Types (d : dict V) (k : string) (v : V).

Lemma dict_get_set_same k v d : dict_get k (dict_set k v d) = Some v.
Proof.
  induction d as [|[k' v'] d IH]; simpl.
  - now rewrite String.eqb_refl.
  - destruct (String.eqb k' k) eqn:E; simpl; rewrite E; auto.
Qed.

Lemma dict_get_set_other k k' v d :
  k' <> k -> dict_get k' (dict_set k v d) = dict_get k' d.
Proof.
  intros N. induction d as [|[k0 v0] d IH]; simpl.
  - destruct (String.eqb k k') eqn:E; auto.
    apply String.eqb_eq in E. congruence.
  - destruct (String.eqb k0 k) eqn:E; simpl.
    + apply String.eqb_eq in E. subst k0.
      destruct (String.eqb k k') eqn:E'; auto.
      apply String.eqb_eq in E'. congruence.
    + now rewrite IH.
Qed.

Lemma dict_get_del_same k d : dict_get k (dict_del k d) = None.
Proof.
  induction d as [|[k0 v0] d IH]; simpl; auto.
  destruct (String.eqb k0 k) eqn:E; simpl; auto. now rewrite E.
Qed.

Lemma dict_get_del_other k k' d :
  k' <> k -> dict_get k' (dict_del k d) = dict_get k' d.
Proof.
  intros N. induction d as [|[k0 v0] d IH]; simpl; auto.
  destruct (String.eqb k0 k) eqn:E; simpl.
  - apply String.eqb_eq in E. subst k0.
    destruct (String.eqb k k') eqn:E'; auto.
    apply String.eqb_eq in E'. congruence.
  - now rewrite IH.
Qed.

Lemma dict_get_In k v d : dict_get k d = Some v -> In (k, v) d.
Proof.
  induction d as [|[k0 v0] d IH]; simpl; [discriminate|].
  destruct (String.eqb k0 k) eqn:E; auto.
  apply String.eqb_eq in E. intros [= ->]. subst. now left.
Qed.

Lemma dict_get_None k d : dict_get k d = None <-> ~ In k (keys d).
Proof.
  induction d as [|[k0 v0] d IH]; simpl; [tauto|].
  destruct (String.eqb k0 k) eqn:E.
  - apply String.eqb_eq in E. split; [discriminate|]. intros H. exfalso. auto.
  - apply String.eqb_neq in E. rewrite IH. tauto.
Qed.

Lemma In_dict_set k v d kv :
  In kv (dict_set k v d) -> kv = (k, v) \/ In kv d.
Proof.
  induction d as [|[k0 v0] d IH]; simpl.
  - intros [H|[]]. now left.
  - destruct (String.eqb k0 k) eqn:E; simpl.
    + apply String.eqb_eq in E. subst k0. intros [H|H]; auto.
    + intros [H|H]; auto. destruct (IH H); auto.
Qed.

Lemma dict_mem_true k d : dict_mem k d = true <-> exists v, dict_get k d = Some v.
Proof.
  unfold dict_mem. destruct (dict_get k d); split; eauto; try discriminate.
  intros [? [=]].
Qed.
End DictFacts.

(** ** Saving keeps the sibling keys (C1) *)

Lemma not_in_cons_neq (k a : string) (l : list string) :
  ~ In k (a :: l) -> k <> a /\ ~ In k l.
Proof. simpl. intros H. split; [intros ->|]; tauto. Qed.

Ltac other_keys :=
  repeat match goal with
    | H : ~ In _ (_ :: _) |- _ => apply not_in_cons_neq in H; destruct H
    | H : ~ (_ \/ _) |- _ => apply Decidable.not_or in H; destruct H
    end.

Ltac set_other := rewrite ?dict_get_set_other, ?dict_get_del_other by congruence.

(** C1.  For every kind, [save] on a file that holds a dictionary [d] leaves
    a dictionary [d'] in which every key outside the kind's storage keys that
    was in [d] still has its value, and no such key is touched apart from
    ["$schema"], which kind E adds when it is missing; a save that succeeds
    has put the servers under the storage key, and a save fails only for kind
    C, when ["mcp"] holds something that is not a dictionary, and then writes
    nothing. *)
Theorem save_keeps_sibling_keys (k : adapter) (servers : list MCPServer)
        (d : dict json) :
  exists d',
    snd (save k servers (Some (Json (JObj d)))) = Some (Json (JObj d')) /\
    (forall key v, ~ In key (storage_keys k) ->
                   dict_get key d = Some v -> dict_get key d' = Some v) /\
    (forall key, ~ In key (storage_keys k) -> key <> "$schema" ->
                 dict_get key d' = dict_get key d) /\
    (saveable k d ->
     fst (save k servers (Some (Json (JObj d)))) = Ok tt /\ wrote k servers d').
Proof.
  destruct k; simpl.
  - (* A *)
    eexists. split; [reflexivity|]. repeat split.
    + intros key v N G. other_keys. now set_other.
    + intros key N _. other_keys. now set_other.
    + apply dict_get_set_same.
  - (* B *)
    unfold CursorHandler.save_servers, CursorHandler.existing,
      CursorHandler._detect_config_format; simpl.
    destruct (truthy (match dict_get "mcpServers" d with
                      | Some v => v | None => JBool false end)),
             (truthy (match dict_get "servers" d with
                      | Some v => v | None => JBool false end)); simpl;
      (eexists; split; [reflexivity|]; repeat split;
       [ intros key v N G; other_keys
       | intros key N _; other_keys
       | ]);
      unfold CursorHandler._save_claude_format, CursorHandler._save_cursor_format;
      set_other; auto;
      try (left; apply dict_get_set_same); try (right; apply dict_get_set_same).
  - (* C *)
    unfold VSCodeHandler.save_servers, VSCodeHandler.ensure_mcp, dict_mem; simpl.
    destruct (dict_get "mcp" d) as [m|] eqn:M.
    + rewrite M. destruct m;
        try (exists d; split; [reflexivity|]; split; [auto|]; split; [auto|];
             intros S; destruct (S _ eq_refl); discriminate).
      eexists. split; [reflexivity|]. repeat split.
      * intros key v N G. other_keys. now set_other.
      * intros key N _. other_keys. now set_other.
      * eexists. split; [apply dict_get_set_same|apply dict_get_set_same].
    + rewrite dict_get_set_same. eexists. split; [reflexivity|]. repeat split.
      * intros key v N G. other_keys. now set_other.
      * intros key N _. other_keys. now set_other.
      * eexists. split; [apply dict_get_set_same|reflexivity].
  - (* D *)
    eexists. split; [reflexivity|]. repeat split.
    + intros key v N G. other_keys. now set_other.
    + intros key N _. other_keys. now set_other.
    + apply dict_get_set_same.
  - (* E *)
    unfold OpenCodeHandler.save_servers, OpenCodeHandler.ensure_schema, dict_mem; simpl.
    eexists. split; [reflexivity|]. repeat split.
    + intros key v N G. other_keys. set_other.
      destruct (dict_get "$schema" d) eqn:S; auto.
      destruct (string_dec key "$schema") as [->|Nk]; [congruence|].
      now set_other.
    + intros key N Nk. other_keys. set_other.
      destruct (dict_get "$schema" d) eqn:S; auto.
      now set_other.
    + apply dict_get_set_same.
Qed.

(** ** Restoring from a backup (C5) *)

(** C5, as the handlers have it.  A backup that exists but is not JSON makes
    [restore] raise before anything is copied: [ConfigurationError] for kinds
    A, B, C and E, [ClientHandlerError] for kind D; a backup that does not
    exist makes every kind raise [ClientHandlerError].  In both cases no file
    of the host changes.  A JSON backup at another path is copied over the
    live configuration. *)
Theorem restore_checks_backup_first (k : adapter)
        (config_path backup_path : string) (fs : fsys) :
  (forall raw, fs backup_path = Some (Text raw) ->
     restore k config_path backup_path fs = (Raise (invalid_backup k), fs)) /\
  (fs backup_path = None ->
     restore k config_path backup_path fs = (Raise ClientHandlerError, fs)) /\
  (forall v, fs backup_path = Some (Json v) -> backup_path <> config_path ->
     restore k config_path backup_path fs
     = (Ok tt, fs_write config_path (Json v) fs)).
Proof.
  repeat split.
  - intros raw H. destruct k; cbv [restore ClaudeCodeHandler.restore_config
      CursorHandler.restore_config VSCodeHandler.restore_config
      GeminiCLIHandler.restore_config OpenCodeHandler.restore_config
      restore_config_with invalid_backup]; now rewrite H.
  - intros H. destruct k; cbv [restore ClaudeCodeHandler.restore_config
      CursorHandler.restore_config VSCodeHandler.restore_config
      GeminiCLIHandler.restore_config OpenCodeHandler.restore_config
      restore_config_with]; now rewrite H.
  - intros v H N. apply String.eqb_neq in N.
    destruct k; cbv [restore ClaudeCodeHandler.restore_config
      CursorHandler.restore_config VSCodeHandler.restore_config
      GeminiCLIHandler.restore_config OpenCodeHandler.restore_config
      restore_config_with]; now rewrite H, N.
Qed.

(** Kind D does not raise [ConfigurationError] for a backup that is not
    JSON. *)
Lemma gemini_restore_raises_ClientHandlerError :
  fs_bad_backup "backup.json" = Some (Text "{not json") /\
  fst (restore kind_D "settings.json" "backup.json" fs_bad_backup)
  <> Raise ConfigurationError.
Proof. split; [reflexivity|]. cbv. discriminate. Qed.

(** ** Validation of a server record (C6, C7) *)

Lemma allowed_not_space (c : ascii) :
  in_chars allowed_chars c = true -> is_space c = false.
Proof.
  unfold in_chars. rewrite existsb_exists. intros [x [I E]].
  apply Ascii.eqb_eq in E. subst x.
  cbv [allowed_chars list_ascii_of_string] in I.
  repeat (destruct I as [<-|I]; [reflexivity|]). destruct I.
Qed.

Lemma lstrip_no_space (s : string) :
  forallb (fun c => negb (is_space c)) (list_ascii_of_string s) = true ->
  lstrip s = s.
Proof.
  destruct s as [|c s]; simpl; auto.
  rewrite andb_true_iff, negb_true_iff. intros [-> _]. reflexivity.
Qed.

Lemma rstrip_no_space (s : string) :
  forallb (fun c => negb (is_space c)) (list_ascii_of_string s) = true ->
  rstrip s = s.
Proof.
  induction s as [|c s IH]; simpl; auto.
  rewrite andb_true_iff, negb_true_iff. intros [C S].
  rewrite (IH S), C. now destruct s.
Qed.

Lemma allowed_no_space (s : string) :
  forallb (in_chars allowed_chars) (list_ascii_of_string s) = true ->
  forallb (fun c => negb (is_space c)) (list_ascii_of_string s) = true.
Proof.
  rewrite !forallb_forall. intros H c I.
  now rewrite (allowed_not_space _ (H c I)).
Qed.

Lemma strip_allowed (s : string) :
  forallb (in_chars allowed_chars) (list_ascii_of_string s) = true ->
  strip s = s.
Proof.
  intros H. apply allowed_no_space in H. unfold strip.
  now rewrite (lstrip_no_space _ H), (rstrip_no_space _ H).
Qed.

(** [validate_name] accepts exactly the non-empty strings over the allowed
    characters, and returns them as they are. *)
Lemma validate_name_spec (v w : string) :
  validate_name v = Some w <->
  v <> "" /\ forallb (in_chars allowed_chars) (list_ascii_of_string v) = true
  /\ w = v.
Proof.
  unfold validate_name.
  destruct (String.eqb v "") eqn:E; simpl.
  - apply String.eqb_eq in E. split; [discriminate|]. tauto.
  - apply String.eqb_neq in E.
    destruct (forallb (in_chars allowed_chars) (list_ascii_of_string v)) eqn:F.
    + rewrite (strip_allowed _ F).
      apply String.eqb_neq in E. rewrite E. apply String.eqb_neq in E.
      split; [intros [= <-]; auto | intros (_ & _ & ->); auto].
    + destruct (String.eqb (strip v) ""); split; try discriminate;
        intros (_ & [=] & _).
Qed.

Lemma validate_name_idem (v w : string) :
  validate_name v = Some w -> validate_name w = Some w.
Proof.
  intros H. pose proof H as H'. apply validate_name_spec in H'.
  destruct H' as (_ & _ & ->). exact H.
Qed.

(** A name with a character outside the allowed set, such as a space or a
    slash, is rejected; so is the empty name. *)
Lemma validate_name_rejects (v : string) (c : ascii) :
  In c (list_ascii_of_string v) -> in_chars allowed_chars c = false ->
  validate_name v = None.
Proof.
  intros I N. destruct (validate_name v) as [w|] eqn:E; auto.
  apply validate_name_spec in E. destruct E as (_ & F & _).
  rewrite forallb_forall in F. rewrite (F c I) in N. discriminate.
Qed.

Lemma validate_name_rejects_empty : validate_name "" = None.
Proof. reflexivity. Qed.

Example name_with_space_rejected : validate_name "server name" = None.
Proof. reflexivity. Qed.

Example name_with_slash_rejected : validate_name "server/name" = None.
Proof. reflexivity. Qed.

Example name_with_hyphen_accepted :
  validate_name "server-name_1" = Some "server-name_1".
Proof. reflexivity. Qed.

Lemma init_rejects_bad_name (kw : kwargs) :
  field_name kw = None -> MCPServer_init kw = Raise PydanticValidationError.
Proof. unfold MCPServer_init. now intros ->. Qed.

(** A [url] that is passed is checked: with transport sse or http, an
    explicit [None] or an empty string is rejected. *)
Lemma init_rejects_passed_empty_url (kw : kwargs) (v : json) :
  kw_url kw = Some v -> kw_server_type kw <> None ->
  kw_server_type kw <> Some STDIO ->
  v = JNull \/ v = JStr "" ->
  MCPServer_init kw = Raise PydanticValidationError.
Proof.
  intros U T1 T2 V. unfold MCPServer_init.
  assert (field_url kw = None) as ->.
  { unfold field_url. rewrite U.
    destruct (kw_server_type kw) as [[]|]; try congruence;
      destruct V as [-> | ->]; reflexivity. }
  repeat match goal with |- context [match ?x with _ => _ end] => destruct x end;
    reflexivity.
Qed.

(** A record with a valid name and a non-empty url is accepted, whatever the
    transport. *)
Lemma init_accepts (n c u : string) (t : MCPServerType) :
  validate_name n = Some n -> u <> "" ->
  MCPServer_init
    {| kw_name := JStr n; kw_command := JStr c; kw_args := None;
       kw_env := None; kw_server_type := Some t; kw_url := Some (JStr u);
       kw_enabled := None; kw_description := None |}
  = Ok {| name := n; command := c; args := []; env := [];
          server_type := t; url := Some u; enabled := true;
          description := None |}.
Proof.
  intros N U. apply String.eqb_neq in U.
  unfold MCPServer_init, field_name, field_url; simpl. rewrite N.
  unfold validate_url, str_truthy. rewrite U. now destruct t.
Qed.

(** C6, at the call of the repository's own test.  The url validator is not
    run for a url that is not passed, so a record with transport sse and no
    url is constructed. *)
Theorem sse_without_url_is_accepted :
  MCPServer_init sse_without_url
  = Ok {| name := "sse-server"; command := ""; args := []; env := [];
          server_type := SSE; url := None; enabled := true;
          description := None |}.
Proof. reflexivity. Qed.

(** C7, as the code has it.  No validator looks at [command]: a record with
    a valid name, any command (the empty one too), transport stdio and no url
    is accepted. *)
Theorem empty_command_is_accepted (n c : string) :
  validate_name n = Some n ->
  MCPServer_init (minimal n c)
  = Ok {| name := n; command := c; args := []; env := [];
          server_type := STDIO; url := None; enabled := true;
          description := None |}.
Proof.
  intros N. unfold MCPServer_init, minimal, field_name; simpl. now rewrite N.
Qed.

Lemma empty_command_is_accepted_witness :
  validate_name "local" = Some "local" /\
  MCPServer_init (minimal "local" "")
  = Ok {| name := "local"; command := ""; args := []; env := [];
          server_type := STDIO; url := None; enabled := true;
          description := None |}.
Proof.
  split; [reflexivity|]. apply (empty_command_is_accepted "local" ""). reflexivity.
Defined.

(** A record with an empty command and no url passes validation. *)
Lemma empty_command_without_url_constructed :
  exists s, MCPServer_init (minimal "local" "") = Ok s
            /\ command s = "" /\ url s = None.
Proof. eexists. split; [reflexivity|]. split; reflexivity. Qed.

(** ** The client kinds and the handler lookup (C8) *)

Lemma get_client_handler_spec (v : string) (cls : handler_class) :
  get_client_handler v = Ok cls <->
  In (v, cls) [("claude-code", ClaudeCode); ("claude-desktop", ClaudeDesktop);
               ("cursor", Cursor); ("vscode", VSCode)].
Proof.
  unfold get_client_handler, CLIENT_HANDLERS; cbn [find fst snd ClientType_value].
  destruct (String.eqb "claude-code" v) eqn:E1.
  { apply String.eqb_eq in E1; subst v; cbn [snd]. split.
    - intros [= <-]; simpl; tauto.
    - intros H; simpl in H; intuition congruence. }
  destruct (String.eqb "claude-desktop" v) eqn:E2.
  { apply String.eqb_eq in E2; subst v; cbn [snd]. split.
    - intros [= <-]; simpl; tauto.
    - intros H; simpl in H; intuition congruence. }
  destruct (String.eqb "cursor" v) eqn:E3.
  { apply String.eqb_eq in E3; subst v; cbn [snd]. split.
    - intros [= <-]; simpl; tauto.
    - intros H; simpl in H; intuition congruence. }
  destruct (String.eqb "vscode" v) eqn:E4.
  { apply String.eqb_eq in E4; subst v; cbn [snd]. split.
    - intros [= <-]; simpl; tauto.
    - intros H; simpl in H; intuition congruence. }
  apply String.eqb_neq in E1, E2, E3, E4. split; [discriminate|].
  intros H; simpl in H; intuition congruence.
Qed.

Lemma get_client_handler_total (v : string) :
  (exists cls, get_client_handler v = Ok cls)
  \/ get_client_handler v = Raise ValueError.
Proof.
  unfold get_client_handler.
  destruct (find _ CLIENT_HANDLERS); [left; eauto | now right].
Qed.

Lemma discover_client_type (h : host) (t : ClientType) (c : ClientConfig) :
  ClientRegistry._discover_client h t = Some c -> client_type c = t.
Proof.
  destruct t;
    cbv [ClientRegistry._discover_client ClientRegistry._discover_claude_code
         ClientRegistry._discover_claude_desktop ClientRegistry._discover_cursor
         ClientRegistry._discover_vscode ClientRegistry.found];
    repeat match goal with
      | |- (if ?b then _ else _) = _ -> _ => destruct b
      end;
    (discriminate || (intros [= <-]; reflexivity)).
Qed.

Lemma discovered_is_member (h : host) (t : ClientType) (c : ClientConfig) :
  In (t, c) (ClientRegistry._discover_clients h) ->
  In t ClientType_members /\ client_type c = t.
Proof.
  unfold ClientRegistry._discover_clients. rewrite in_flat_map.
  intros (t' & M & I).
  destruct (ClientRegistry._discover_client h t') as [c'|] eqn:D;
    simpl in I; [|destruct I].
  destruct I as [[= <- <-]|[]]. split; [exact M|].
  exact (discover_client_type h t' c' D).
Qed.

(** C8.  The lookup answers exactly for the values of the four members of
    [ClientType], with the handler class listed for each, and raises
    [ValueError] for every other value; ["gemini-cli"] and ["opencode"] are
    not values of [ClientType]; no value is answered with the Gemini CLI or
    the OpenCode handler class; and every client that discovery registers
    has one of the four kinds. *)
Theorem handler_lookup_covers_four_kinds :
  (forall v cls,
     get_client_handler v = Ok cls <->
     In (v, cls) [("claude-code", ClaudeCode); ("claude-desktop", ClaudeDesktop);
                  ("cursor", Cursor); ("vscode", VSCode)]) /\
  (forall v,
     ~ In v (map ClientType_value ClientType_members) ->
     get_client_handler v = Raise ValueError) /\
  map ClientType_value ClientType_members
  = ["claude-code"; "claude-desktop"; "cursor"; "vscode"] /\
  ClientType_of_value "gemini-cli" = Raise ValueError /\
  ClientType_of_value "opencode" = Raise ValueError /\
  get_client_handler "gemini-cli" = Raise ValueError /\
  get_client_handler "opencode" = Raise ValueError /\
  (forall v, get_client_handler v <> Ok GeminiCLI
             /\ get_client_handler v <> Ok OpenCode) /\
  (forall h t c,
     In (t, c) (ClientRegistry._discover_clients h) ->
     In t ClientType_members /\ client_type c = t
     /\ ClientType_value t <> "gemini-cli" /\ ClientType_value t <> "opencode").
Proof.
  split; [exact get_client_handler_spec|].
  split.
  { intros v N. destruct (get_client_handler_total v) as [[cls H]|H]; auto.
    exfalso. apply N. apply get_client_handler_spec in H. simpl in *.
    destruct H as [[= <- _]|[[= <- _]|[[= <- _]|[[= <- _]|[]]]]]; tauto. }
  repeat (split; [reflexivity|]).
  split.
  { intros v. split; intros H; apply get_client_handler_spec in H; simpl in H;
      destruct H as [[=]|[[=]|[[=]|[[=]|[]]]]]. }
  intros h t c I. destruct (discovered_is_member h t c I) as [M E].
  repeat split; auto; destruct t; discriminate.
Qed.

(** ** Model construction *)

Lemma init_inv (kw : kwargs) (s : MCPServer) :
  MCPServer_init kw = Ok s ->
  field_name kw = Some (name s) /\
  as_str (kw_command kw) = Some (command s) /\
  as_list_str (or_default (kw_args kw) (JArr [])) = Some (args s) /\
  as_dict_str (or_default (kw_env kw) (JObj [])) = Some (env s) /\
  field_url kw = Some (url s) /\
  as_bool (or_default (kw_enabled kw) (JBool true)) = Some (enabled s) /\
  field_description kw = Some (description s) /\
  server_type s = or_default (kw_server_type kw) STDIO.
Proof.
  unfold MCPServer_init.
  destruct (field_name kw); [|discriminate].
  destruct (as_str (kw_command kw)); [|discriminate].
  destruct (as_list_str _); [|discriminate].
  destruct (as_dict_str _); [|discriminate].
  destruct (field_url kw); [|discriminate].
  destruct (as_bool _); [|discriminate].
  destruct (field_description kw); [|discriminate].
  intros [= <-]. simpl. repeat split.
Qed.

Lemma init_intro (kw : kwargs) n c a e u en d :
  field_name kw = Some n ->
  as_str (kw_command kw) = Some c ->
  as_list_str (or_default (kw_args kw) (JArr [])) = Some a ->
  as_dict_str (or_default (kw_env kw) (JObj [])) = Some e ->
  field_url kw = Some u ->
  as_bool (or_default (kw_enabled kw) (JBool true)) = Some en ->
  field_description kw = Some d ->
  MCPServer_init kw
  = Ok {| name := n; command := c; args := a; env := e;
          server_type := or_default (kw_server_type kw) STDIO;
          url := u; enabled := en; description := d |}.
Proof.
  intros H1 H2 H3 H4 H5 H6 H7. unfold MCPServer_init.
  now rewrite H1, H2, H3, H4, H5, H6, H7.
Qed.

(** Every constructed record has a validated name, and that name is the
    string that was passed. *)
Lemma init_named (kw : kwargs) (s : MCPServer) :
  MCPServer_init kw = Ok s -> named s /\ kw_name kw = JStr (name s).
Proof.
  intros H. apply init_inv in H. destruct H as (N & _).
  unfold field_name in N. destruct (kw_name kw); try discriminate. simpl in N.
  pose proof N as N'. apply validate_name_spec in N'. destruct N' as (_ & _ & E).
  subst s0. split; [exact N|reflexivity].
Qed.

(** When the url is passed, a transport other than stdio comes with a
    non-empty url. *)
Lemma init_consistent (kw : kwargs) (s : MCPServer) (v : json) :
  MCPServer_init kw = Ok s -> kw_url kw = Some v -> consistent s.
Proof.
  intros H U. split; [exact (proj1 (init_named _ _ H))|].
  apply init_inv in H. destruct H as (_ & _ & _ & _ & FU & _ & _ & T).
  unfold field_url in FU. rewrite U in FU.
  destruct (as_opt_str v) as [u|]; [|discriminate].
  unfold not_stdio. rewrite T.
  destruct (or_default (kw_server_type kw) STDIO); simpl in *;
    try discriminate; intros _;
    destruct (str_truthy u) eqn:S; try discriminate;
    injection FU as <-; exact S.
Qed.

Lemma all_str_map (a : list string) : all_str (map JStr a) = Some a.
Proof. induction a as [|x a IH]; simpl; [|rewrite IH]; reflexivity. Qed.

Lemma as_list_str_args (a : list string) : as_list_str (json_of_args a) = Some a.
Proof. apply all_str_map. Qed.

Lemma as_dict_str_env (e : dict string) : as_dict_str (json_of_env e) = Some e.
Proof.
  unfold json_of_env, as_dict_str.
  induction e as [|[k v] e IH]; simpl; [|rewrite IH]; reflexivity.
Qed.

(** ** Loops *)

Lemma mapM_ok {A B} (f : A -> result B) (l : list A) :
  (forall a, In a l -> exists b, f a = Ok b) ->
  exists bs, mapM f l = Ok bs.
Proof.
  induction l as [|a l IH]; intros H; simpl; [eauto|].
  destruct (H a (or_introl eq_refl)) as [b ->].
  destruct IH as [bs ->]; [intros; apply H; now right|]. simpl. eauto.
Qed.

Lemma mapM_map {A B} (f : A -> result B) (g : A -> B) (l : list A) :
  (forall a, In a l -> f a = Ok (g a)) -> mapM f l = Ok (map g l).
Proof.
  induction l as [|a l IH]; intros H; simpl; auto.
  rewrite (H a (or_introl eq_refl)). simpl.
  rewrite IH; [reflexivity|intros; apply H; now right].
Qed.

Lemma mapM_map_map {A B C} (f : B -> result C) (g : A -> B) (h : A -> C)
      (l : list A) :
  (forall a, In a l -> f (g a) = Ok (h a)) -> mapM f (map g l) = Ok (map h l).
Proof.
  induction l as [|a l IH]; intros H; simpl; auto.
  rewrite (H a (or_introl eq_refl)). simpl.
  rewrite IH; [reflexivity|intros; apply H; now right].
Qed.

Lemma mapM_Forall2 {A B} (f : A -> result B) (l : list A) (bs : list B) :
  mapM f l = Ok bs -> Forall2 (fun a b => f a = Ok b) l bs.
Proof.
  revert bs. induction l as [|a l IH]; simpl; intros bs.
  - intros [= <-]. constructor.
  - destruct (f a) as [b|] eqn:E; simpl; [|discriminate].
    destruct (mapM f l) as [bs'|]; simpl; [|discriminate].
    intros [= <-]. constructor; auto.
Qed.

Lemma mapM_length {A B} (f : A -> result B) (l : list A) (bs : list B) :
  mapM f l = Ok bs -> length bs = length l.
Proof.
  intros H. apply mapM_Forall2 in H. symmetry. eapply Forall2_length; eauto.
Qed.

Lemma mapM_Forall {A B} (f : A -> result B) (P : B -> Prop) (l : list A)
      (bs : list B) :
  (forall a b, f a = Ok b -> P b) -> mapM f l = Ok bs -> Forall P bs.
Proof.
  intros H M. apply mapM_Forall2 in M.
  induction M; constructor; eauto.
Qed.

Lemma collectM_ok {A B} (f : A -> result (option B)) (l : list A) :
  (forall a, In a l -> exists b, f a = Ok b) ->
  exists bs, collectM f l = Ok bs.
Proof.
  induction l as [|a l IH]; intros H; simpl; [eauto|].
  destruct (H a (or_introl eq_refl)) as [b ->].
  destruct IH as [bs ->]; [intros; apply H; now right|]. simpl. eauto.
Qed.

Lemma collectM_Forall {A B} (f : A -> result (option B)) (P : B -> Prop)
      (l : list A) (bs : list B) :
  (forall a b, f a = Ok (Some b) -> P b) -> collectM f l = Ok bs -> Forall P bs.
Proof.
  intros H. revert bs. induction l as [|a l IH]; simpl; intros bs.
  - intros [= <-]. constructor.
  - destruct (f a) as [b|] eqn:E; simpl; [|discriminate].
    destruct (collectM f l) as [bs'|]; simpl; [|discriminate].
    intros [= <-]. destruct b; [constructor|]; eauto.
Qed.

(** ** Looking a server up by name *)

Lemma find_name_None (n : string) (l : list MCPServer) :
  find (name_is n) l = None <-> ~ In n (map name l).
Proof.
  induction l as [|s l IH]; simpl; [tauto|].
  unfold name_is at 1. destruct (String.eqb (name s) n) eqn:E.
  - apply String.eqb_eq in E. split; [discriminate|tauto].
  - apply String.eqb_neq in E. rewrite IH. tauto.
Qed.

Lemma without_names (n : string) (l : list MCPServer) (s : MCPServer) :
  In s (without n l) <-> In s l /\ name s <> n.
Proof.
  unfold without. rewrite filter_In. unfold name_is.
  rewrite negb_true_iff, String.eqb_neq. tauto.
Qed.

Lemma without_not_in (n : string) (l : list MCPServer) :
  ~ In n (map name (without n l)).
Proof.
  rewrite in_map_iff. intros (s & E & I). apply without_names in I. tauto.
Qed.

(** The record found under a key of a loaded dictionary is the one the
    entry of that key decodes to. *)
Lemma find_of_mapM (f : string * json -> result MCPServer)
      (es : dict json) (bs : list MCPServer) (n : string) (v : json) :
  (forall e b, f e = Ok b -> name b = fst e) ->
  mapM f es = Ok bs -> dict_get n es = Some v ->
  exists b, find (name_is n) bs = Some b /\ f (n, v) = Ok b.
Proof.
  intros N M. apply mapM_Forall2 in M.
  induction M as [|[k v'] b es bs F M IH]; simpl; [discriminate|].
  unfold name_is at 1. rewrite (N _ _ F). simpl.
  destruct (String.eqb k n) eqn:E.
  - apply String.eqb_eq in E. subst k. intros [= <-]. eauto.
  - exact IH.
Qed.

Lemma find_of_collectM (f : string * json -> result (option MCPServer))
      (es : dict json) (bs : list MCPServer) (n : string) (v : json)
      (b : MCPServer) :
  (forall e b, f e = Ok (Some b) -> name b = fst e) ->
  collectM f es = Ok bs -> dict_get n es = Some v -> f (n, v) = Ok (Some b) ->
  find (name_is n) bs = Some b.
Proof.
  intros N. revert bs. induction es as [|[k v'] es IH]; simpl; intros bs;
    [discriminate|].
  destruct (f (k, v')) as [o|] eqn:F; simpl; [|discriminate].
  destruct (collectM f es) as [bs'|]; simpl; [|discriminate].
  intros [= <-]. destruct (String.eqb k n) eqn:E.
  - apply String.eqb_eq in E. subst k. intros [= <-] G.
    rewrite G in F. injection F as <-. simpl. unfold name_is.
    rewrite (N _ _ G). simpl. now rewrite String.eqb_refl.
  - intros G1 G2. destruct o as [b'|]; [|eauto].
    simpl. unfold name_is at 1. rewrite (N _ _ F). simpl. rewrite E. eauto.
Qed.

Lemma names_of_collectM (f : string * json -> result (option MCPServer))
      (es : dict json) (bs : list MCPServer) :
  (forall e b, f e = Ok (Some b) -> name b = fst e) ->
  collectM f es = Ok bs -> incl (map name bs) (keys es).
Proof.
  intros N. revert bs. induction es as [|e es IH]; simpl; intros bs.
  - intros [= <-]. apply incl_refl.
  - destruct (f e) as [o|] eqn:F; simpl; [|discriminate].
    destruct (collectM f es) as [bs'|]; simpl; [|discriminate].
    intros [= <-]. destruct o as [b|]; simpl.
    + rewrite (N _ _ F). apply incl_cons; [now left|].
      apply incl_tl. auto.
    + apply incl_tl. auto.
Qed.

(** ** The dictionary built from a list of servers *)

Section ByName.
Variable enc : MCPServer -> option (dict json).

Let step (d : dict json) (server : MCPServer) : dict json :=
  match enc server with
  | Some c => dict_set (name server) (JObj c) d
  | None => d
  end.

Lemma by_name_app (l1 l2 : list MCPServer) :
  by_name enc (l1 ++ l2) = fold_left step l2 (by_name enc l1).
Proof. unfold by_name. now rewrite fold_left_app. Qed.

Lemma by_name_snoc_skip (l : list MCPServer) (r : MCPServer) :
  enc r = None -> by_name enc (l ++ [r]) = by_name enc l.
Proof. intros H. rewrite by_name_app. simpl. unfold step. now rewrite H. Qed.

Lemma by_name_snoc (l : list MCPServer) (r : MCPServer) (c : dict json) :
  enc r = Some c ->
  dict_get (name r) (by_name enc (l ++ [r])) = Some (JObj c).
Proof.
  intros H. rewrite by_name_app. simpl. unfold step. rewrite H.
  apply dict_get_set_same.
Qed.

Lemma fold_step_In (l : list MCPServer) (d : dict json) (kv : string * json) :
  In kv (fold_left step l d) ->
  In kv d \/ exists s c, In s l /\ enc s = Some c /\ kv = (name s, JObj c).
Proof.
  revert d. induction l as [|s l IH]; simpl; intros d H; [now left|].
  apply IH in H. destruct H as [H|(s' & c & I & E & K)].
  - unfold step in H. destruct (enc s) as [c|] eqn:E; [|now left].
    apply In_dict_set in H. destruct H as [->|H]; [|now left].
    right. exists s, c. auto.
  - right. exists s', c. auto.
Qed.

(** Every entry of the dictionary is the encoding of one of the servers. *)
Lemma by_name_In (l : list MCPServer) (kv : string * json) :
  In kv (by_name enc l) ->
  exists s c, In s l /\ enc s = Some c /\ kv = (name s, JObj c).
Proof.
  intros H. apply fold_step_In in H. destruct H as [[]|H]. exact H.
Qed.

Lemma by_name_keys (l : list MCPServer) (k : string) :
  In k (keys (by_name enc l)) -> In k (map name l).
Proof.
  unfold keys. rewrite in_map_iff. intros ([k' v] & E & I). simpl in E. subst k'.
  apply by_name_In in I. destruct I as (s & c & I & _ & K).
  injection K as -> _. now apply in_map.
Qed.
End ByName.

(** ** Kind E: what is skipped and what is read back (C10) *)

Arguments validate_name : simpl never.
Arguments MCPServer_init : simpl never.

Lemma opencode_entry_name (e : string * json) (b : MCPServer) :
  OpenCodeHandler.load_entry e = Ok (Some b) -> name b = fst e.
Proof.
  destruct e as [k v]. unfold OpenCodeHandler.load_entry.
  destruct v; try discriminate.
  destruct (is_str "local" _).
  - destruct (negb (truthy _)); [discriminate|].
    destruct (OpenCodeHandler.head_and_rest _); simpl; [|discriminate].
    destruct (MCPServer_init _) eqn:I; simpl; [|discriminate].
    intros [= <-]. apply init_named in I. destruct I as [_ [= ->]]. reflexivity.
  - destruct (is_str "remote" _); [|discriminate].
    destruct (negb (truthy _)); [discriminate|].
    destruct (OpenCodeHandler.plain_http _); simpl; [|discriminate].
    destruct (MCPServer_init _) eqn:I; simpl; [|discriminate].
    intros [= <-]. apply init_named in I. destruct I as [_ [= ->]]. reflexivity.
Qed.

Lemma opencode_reload (s : MCPServer) (c : dict json) :
  named s -> OpenCodeHandler.server_config_of s = Some c ->
  OpenCodeHandler.load_entry (name s, JObj c) = Ok (Some (E_image s)).
Proof.
  intros N. unfold OpenCodeHandler.server_config_of, E_image, local_entry.
  destruct (MCPServerType_eqb (server_type s) STDIO
            && negb (String.eqb (command s) "")) eqn:L.
  - intros [= <-]. unfold OpenCodeHandler.load_entry.
    destruct (env s) as [|kv e] eqn:Ee; cbn -[json_of_env];
      (erewrite init_intro;
       [ reflexivity | exact N | reflexivity | apply all_str_map
       | cbn [kw_env or_default]; first [apply as_dict_str_env | reflexivity]
       | reflexivity | reflexivity | reflexivity ]).
  - destruct (OpenCodeHandler.is_remote_type s && str_truthy (url s)) eqn:R;
      [|discriminate].
    intros [= <-]. apply andb_true_iff in R. destruct R as [R U].
    unfold OpenCodeHandler.load_entry, url_text.
    destruct (url s) as [u|] eqn:Eu; [|discriminate]. simpl in U.
    cbn. rewrite U. cbn.
    destruct (prefix "http://" u && negb (contains "sse" u)) eqn:P;
      (erewrite init_intro;
       [ reflexivity | exact N | reflexivity | reflexivity | reflexivity
       | unfold field_url; cbn; rewrite U; reflexivity
       | reflexivity | reflexivity ]).
Qed.

Lemma with_config_ok {A} (empty : A) (k : json -> result A) (st : store) (a : A) :
  with_config empty k st = Ok a ->
  (st = None /\ a = empty) \/ exists v, st = Some (Json v) /\ k v = Ok a.
Proof.
  destruct st as [[raw|v]|]; simpl; [discriminate| |].
  - intros H. right. eauto.
  - intros [= <-]. now left.
Qed.

Lemma py_get_ok (k : string) (default v w : json) :
  py_get k default v = Ok w -> exists d, v = JObj d /\ w = get_or k default d.
Proof. destruct v; try discriminate. intros [= <-]. eauto. Qed.

Lemma opencode_load_inv (st : store) (l : list MCPServer) :
  OpenCodeHandler.load_servers st = Ok l ->
  (st = None /\ l = []) \/
  exists d m, st = Some (Json (JObj d)) /\ get_or "mcp" (JObj []) d = JObj m
              /\ collectM OpenCodeHandler.load_entry m = Ok l.
Proof.
  intros H. apply with_config_ok in H. destruct H as [H|(v & -> & H)]; [now left|].
  right. destruct (py_get "mcp" (JObj []) v) as [w|] eqn:G; [|discriminate].
  apply py_get_ok in G. destruct G as (d & -> & ->). simpl in H.
  destruct (get_or "mcp" (JObj []) d) eqn:M; try discriminate.
  simpl in H. eauto.
Qed.

Lemma opencode_loaded_named (st : store) (l : list MCPServer) :
  OpenCodeHandler.load_servers st = Ok l -> Forall named l.
Proof.
  intros H. apply opencode_load_inv in H.
  destruct H as [[_ ->]|(d & m & _ & _ & H)]; [constructor|].
  eapply collectM_Forall; [|exact H].
  intros [k v] b E. unfold OpenCodeHandler.load_entry in E.
  destruct v; try discriminate.
  destruct (is_str "local" _).
  - destruct (negb (truthy _)); [discriminate|].
    destruct (OpenCodeHandler.head_and_rest _); simpl in E; [|discriminate].
    destruct (MCPServer_init _) eqn:I; simpl in E; [|discriminate].
    injection E as <-. exact (proj1 (init_named _ _ I)).
  - destruct (is_str "remote" _); [|discriminate].
    destruct (negb (truthy _)); [discriminate|].
    destruct (OpenCodeHandler.plain_http _); simpl in E; [|discriminate].
    destruct (MCPServer_init _) eqn:I; simpl in E; [|discriminate].
    injection E as <-. exact (proj1 (init_named _ _ I)).
Qed.

(** The file that kind E writes for named servers loads again. *)
Lemma opencode_load_saved (recs : list MCPServer) (d : dict json) :
  Forall named recs ->
  exists bs,
    OpenCodeHandler.load_servers
      (Some (Json (JObj (dict_set "mcp"
                           (JObj (by_name OpenCodeHandler.server_config_of recs)) d))))
    = Ok bs
    /\ collectM OpenCodeHandler.load_entry
         (by_name OpenCodeHandler.server_config_of recs) = Ok bs.
Proof.
  intros F. unfold OpenCodeHandler.load_servers, with_config, py_get, get_or.
  rewrite dict_get_set_same. simpl.
  destruct (collectM_ok OpenCodeHandler.load_entry
              (by_name OpenCodeHandler.server_config_of recs)) as [bs E].
  - intros [k v] I. apply by_name_In in I.
    destruct I as (s & c & I & E & [= -> ->]).
    rewrite Forall_forall in F.
    rewrite (opencode_reload s c (F s I) E). eauto.
  - rewrite E. eauto.
Qed.

Lemma opencode_save_after_load (st : store) (l recs : list MCPServer) :
  OpenCodeHandler.load_servers st = Ok l ->
  exists d,
    OpenCodeHandler.save_servers recs st
    = (Ok tt, Some (Json (JObj (dict_set "mcp"
                 (JObj (by_name OpenCodeHandler.server_config_of recs)) d)))).
Proof.
  intros H. apply opencode_load_inv in H.
  destruct H as [[-> _]|(d & m & -> & _)];
    unfold OpenCodeHandler.save_servers, existing_or, dump;
    eexists; reflexivity.
Qed.

(** C10.  Kind E writes no entry for a stdio server with an empty command,
    nor for an sse or http server without a url, and raises nothing: after
    [add] of such a server the ["mcp"] dictionary has no entry under its
    name, and [get] of that name returns none. *)
Theorem opencode_skips_what_it_cannot_encode
        (st : store) (l : list MCPServer) (r : MCPServer) :
  OpenCodeHandler.load_servers st = Ok l ->
  (server_type r = STDIO /\ command r = "")
  \/ (server_type r <> STDIO /\ str_truthy (url r) = false) ->
  exists d m,
    OpenCodeHandler.add_server r st = (Ok tt, Some (Json (JObj d))) /\
    dict_get "mcp" d = Some (JObj m) /\
    dict_get (name r) m = None /\
    OpenCodeHandler.get_server (name r) (Some (Json (JObj d))) = Ok None.
Proof.
  intros L U.
  assert (OpenCodeHandler.server_config_of r = None) as Skip.
  { unfold OpenCodeHandler.server_config_of, OpenCodeHandler.is_remote_type.
    destruct U as [[-> ->]|[T ->]]; [reflexivity|].
    destruct (server_type r); [congruence| |]; reflexivity. }
  pose proof (opencode_loaded_named _ _ L) as Nl.
  assert (Forall named (without (name r) l)) as Nw.
  { rewrite Forall_forall in *. intros s I. apply without_names in I.
    apply Nl. tauto. }
  unfold OpenCodeHandler.add_server, add_server. rewrite L.
  destruct (opencode_save_after_load st l (without (name r) l ++ [r]) L)
    as [d0 ->].
  rewrite (by_name_snoc_skip _ _ _ Skip).
  destruct (opencode_load_saved (without (name r) l) d0 Nw) as (bs & Lb & Cb).
  assert (dict_get (name r)
            (by_name OpenCodeHandler.server_config_of (without (name r) l))
          = None) as G.
  { apply dict_get_None. intros I. apply by_name_keys in I.
    exact (without_not_in _ _ I). }
  do 2 eexists. split; [reflexivity|]. split; [apply dict_get_set_same|].
  split; [exact G|].
  unfold OpenCodeHandler.get_server, get_server. rewrite Lb. simpl.
  f_equal. apply find_name_None. intros I.
  apply (names_of_collectM _ _ _ opencode_entry_name Cb) in I.
  apply dict_get_None in G. auto.
Qed.

Lemma opencode_skips_what_it_cannot_encode_witness :
  exists d m,
    OpenCodeHandler.add_server
      {| name := "remote"; command := ""; args := []; env := [];
         server_type := SSE; url := None; enabled := true;
         description := None |}
      (Some (Json (JObj [("theme", JStr "dark")])))
    = (Ok tt, Some (Json (JObj d))) /\
    dict_get "mcp" d = Some (JObj m) /\
    dict_get "remote" m = None /\
    OpenCodeHandler.get_server "remote" (Some (Json (JObj d))) = Ok None.
Proof.
  apply (opencode_skips_what_it_cannot_encode
           (Some (Json (JObj [("theme", JStr "dark")]))) []
           {| name := "remote"; command := ""; args := []; env := [];
              server_type := SSE; url := None; enabled := true;
              description := None |}).
  - reflexivity.
  - right. split; [discriminate|reflexivity].
Defined.

(** ** Kind B with both sub-formats present (C2, C9) *)

Lemma cursor_detect_both (d mcp : dict json) (srv : list json) :
  both_populated d mcp srv ->
  CursorHandler._detect_config_format (JObj d) = Ok CursorHandler.both.
Proof.
  intros (M & Mn & S & Sn). unfold CursorHandler._detect_config_format; simpl.
  rewrite M, S. destruct mcp; [congruence|]. destruct srv; [congruence|].
  reflexivity.
Qed.

Lemma cursor_load_both (d mcp : dict json) (srv : list json) :
  both_populated d mcp srv ->
  CursorHandler.load_servers (Some (Json (JObj d)))
  = (a <- mapM CursorHandler.load_claude_entry mcp ;;
     b <- mapM CursorHandler.load_cursor_entry srv ;;
     Ok (a ++ b)).
Proof.
  intros B. unfold CursorHandler.load_servers, with_config.
  rewrite (cursor_detect_both _ _ _ B). destruct B as (M & _ & S & _).
  unfold bind at 1.
  unfold CursorHandler._load_claude_format, CursorHandler._load_cursor_format,
    py_get, get_or. rewrite M, S. reflexivity.
Qed.

Lemma cursor_save_both (d mcp : dict json) (srv : list json)
      (servers : list MCPServer) :
  both_populated d mcp srv ->
  CursorHandler.save_servers servers (Some (Json (JObj d)))
  = (Ok tt,
     Some (Json (JObj (CursorHandler._save_claude_format
                         (dict_del "servers" d) servers)))).
Proof.
  intros B. unfold CursorHandler.save_servers, CursorHandler.existing.
  now rewrite (cursor_detect_both _ _ _ B).
Qed.

Lemma cursor_both_parts (d mcp : dict json) (srv : list json) :
  both_populated d mcp srv ->
  CursorHandler._load_claude_format (JObj d)
  = mapM CursorHandler.load_claude_entry mcp /\
  CursorHandler._load_cursor_format (JObj d)
  = mapM CursorHandler.load_cursor_entry srv.
Proof.
  intros (M & _ & S & _).
  unfold CursorHandler._load_claude_format, CursorHandler._load_cursor_format,
    py_get, get_or. now rewrite M, S.
Qed.

(** With both sub-formats populated the load is the mapping's records
    followed by the list's. *)
Lemma cursor_both_load (d mcp : dict json) (srv : list json)
      (a b : list MCPServer) :
  both_populated d mcp srv ->
  CursorHandler._load_claude_format (JObj d) = Ok a ->
  CursorHandler._load_cursor_format (JObj d) = Ok b ->
  CursorHandler.load_servers (Some (Json (JObj d))) = Ok (a ++ b)
  /\ length (a ++ b) = length mcp + length srv.
Proof.
  intros B La Lb. destruct (cursor_both_parts d mcp srv B) as [Ec Eb].
  rewrite Ec in La. rewrite Eb in Lb. rewrite (cursor_load_both _ _ _ B), La, Lb.
  split; [reflexivity|].
  now rewrite length_app, (mapM_length _ _ _ La), (mapM_length _ _ _ Lb).
Qed.

(** And the save writes the mapping and drops the ["servers"] key. *)
Lemma cursor_both_save (d mcp : dict json) (srv : list json)
      (servers : list MCPServer) :
  both_populated d mcp srv ->
  exists d',
    CursorHandler.save_servers servers (Some (Json (JObj d)))
    = (Ok tt, Some (Json (JObj d'))) /\
    ~ In "servers" (keys d') /\
    dict_get "mcpServers" d'
    = Some (JObj (by_name (fun s => Some (CursorHandler.claude_config_of s))
                    servers)) /\
    (forall key, key <> "mcpServers" -> key <> "servers" ->
                 dict_get key d' = dict_get key d).
Proof.
  intros B. eexists. split; [apply (cursor_save_both _ _ _ _ B)|].
  unfold CursorHandler._save_claude_format. repeat split.
  - apply dict_get_None.
    rewrite dict_get_set_other by discriminate. apply dict_get_del_same.
  - apply dict_get_set_same.
  - intros key N1 N2.
    now rewrite dict_get_set_other, dict_get_del_other by auto.
Qed.

(** C2.  With both sub-formats populated, [load_servers] returns the records
    of the ["mcpServers"] mapping followed by those of the ["servers"] list,
    as many as the two hold together; and [save_servers] writes a file that
    has the saved servers under ["mcpServers"] and no ["servers"] key, all
    other keys kept. *)
Theorem cursor_both_formats_union_then_collapse
        (d mcp : dict json) (srv : list json) :
  both_populated d mcp srv ->
  (forall a b,
     CursorHandler._load_claude_format (JObj d) = Ok a ->
     CursorHandler._load_cursor_format (JObj d) = Ok b ->
     CursorHandler.load_servers (Some (Json (JObj d))) = Ok (a ++ b)
     /\ length (a ++ b) = length mcp + length srv) /\
  (forall l,
     CursorHandler.load_servers (Some (Json (JObj d))) = Ok l ->
     exists a b,
       CursorHandler._load_claude_format (JObj d) = Ok a /\
       CursorHandler._load_cursor_format (JObj d) = Ok b /\
       l = a ++ b /\ length l = length mcp + length srv) /\
  (forall servers,
     exists d',
       CursorHandler.save_servers servers (Some (Json (JObj d)))
       = (Ok tt, Some (Json (JObj d'))) /\
       ~ In "servers" (keys d') /\
       dict_get "mcpServers" d'
       = Some (JObj (by_name (fun s => Some (CursorHandler.claude_config_of s))
                       servers)) /\
       (forall key, key <> "mcpServers" -> key <> "servers" ->
                    dict_get key d' = dict_get key d)).
Proof.
  intros B. split; [|split].
  - intros a b La Lb. exact (cursor_both_load d mcp srv a b B La Lb).
  - intros l L. destruct (cursor_both_parts d mcp srv B) as [Ec Eb].
    rewrite (cursor_load_both _ _ _ B) in L.
    destruct (mapM CursorHandler.load_claude_entry mcp) as [a|] eqn:Ea;
      [|discriminate].
    destruct (mapM CursorHandler.load_cursor_entry srv) as [b|] eqn:Eb';
      [|discriminate].
    injection L as <-. exists a, b.
    destruct (cursor_both_load d mcp srv a b B) as [_ Len]; [congruence..|].
    repeat split; congruence.
  - intros servers. exact (cursor_both_save d mcp srv servers B).
Qed.

Lemma both_config_populated : both_populated both_config both_mcp both_srv.
Proof. repeat split; (reflexivity || discriminate). Qed.

Lemma cursor_both_formats_union_then_collapse_witness :
  both_populated both_config both_mcp both_srv /\
  (forall servers,
     exists d',
       CursorHandler.save_servers servers (Some (Json (JObj both_config)))
       = (Ok tt, Some (Json (JObj d'))) /\
       ~ In "servers" (keys d')).
Proof.
  split; [exact both_config_populated|].
  intros servers.
  destruct (cursor_both_formats_union_then_collapse
              both_config both_mcp both_srv both_config_populated)
    as (_ & _ & S).
  destruct (S servers) as (d' & E & N & _). exists d'. split; assumption.
Defined.

Lemma length_without (n : string) (l : list MCPServer) :
  length (without n l) + count_name n l = length l.
Proof.
  unfold without, count_name. induction l as [|s l IH]; simpl; auto.
  destruct (name_is n s); simpl; lia.
Qed.

Lemma count_name_app (n : string) (a b : list MCPServer) :
  count_name n (a ++ b) = count_name n a + count_name n b.
Proof. unfold count_name. now rewrite filter_app, length_app. Qed.

Lemma count_name_In (n : string) (l : list MCPServer) (s : MCPServer) :
  In s l -> name s = n -> 1 <= count_name n l.
Proof.
  intros I E. unfold count_name.
  assert (In s (filter (name_is n) l)) as F.
  { apply filter_In. split; auto. unfold name_is. now apply String.eqb_eq. }
  destruct (filter (name_is n) l); [destruct F|simpl; lia].
Qed.

Lemma count_name_zero (n : string) (l : list MCPServer) :
  count_name n l = 0 <-> ~ In n (map name l).
Proof.
  unfold count_name. induction l as [|s l IH]; simpl; [tauto|].
  unfold name_is at 1. destruct (String.eqb (name s) n) eqn:E; simpl.
  - apply String.eqb_eq in E. split; [discriminate|tauto].
  - apply String.eqb_neq in E. rewrite IH. tauto.
Qed.

(** C9.  When the ["mcpServers"] mapping and the ["servers"] list each hold a
    server named [n], [load_servers] returns both records, so the name occurs
    at least twice; one [remove_server n] then returns true and writes a file
    without the ["servers"] key whose ["mcpServers"] mapping is built from
    the loaded records that are not named [n]: it has no entry for [n], and
    at least two records fewer were written than were loaded. *)
Theorem cursor_same_name_in_both_formats
        (d mcp : dict json) (srv : list json) (a b : list MCPServer)
        (s1 s2 : MCPServer) (n : string) :
  both_populated d mcp srv ->
  CursorHandler._load_claude_format (JObj d) = Ok a ->
  CursorHandler._load_cursor_format (JObj d) = Ok b ->
  In s1 a -> name s1 = n -> In s2 b -> name s2 = n ->
  CursorHandler.load_servers (Some (Json (JObj d))) = Ok (a ++ b) /\
  2 <= count_name n (a ++ b) /\
  exists d',
    CursorHandler.remove_server n (Some (Json (JObj d)))
    = (Ok true, Some (Json (JObj d'))) /\
    ~ In "servers" (keys d') /\
    dict_get "mcpServers" d'
    = Some (JObj (by_name (fun s => Some (CursorHandler.claude_config_of s))
                    (without n (a ++ b)))) /\
    dict_get n (by_name (fun s => Some (CursorHandler.claude_config_of s))
                  (without n (a ++ b))) = None /\
    length (without n (a ++ b)) + 2 <= length (a ++ b).
Proof.
  intros B La Lb I1 E1 I2 E2.
  destruct (cursor_both_load d mcp srv a b B La Lb) as [L _].
  assert (2 <= count_name n (a ++ b)) as C.
  { rewrite count_name_app.
    pose proof (count_name_In n a s1 I1 E1).
    pose proof (count_name_In n b s2 I2 E2). lia. }
  pose proof (length_without n (a ++ b)) as W.
  split; [exact L|]. split; [exact C|].
  destruct (cursor_both_save d mcp srv (without n (a ++ b)) B)
    as (d' & Sv & Ns & M & _).
  exists d'. unfold CursorHandler.remove_server, remove_server. rewrite L.
  assert (Nat.ltb (length (without n (a ++ b))) (length (a ++ b)) = true) as ->
    by (apply Nat.ltb_lt; lia).
  rewrite Sv. repeat split; auto; [|lia].
  apply dict_get_None. intros K. apply by_name_keys in K.
  exact (without_not_in _ _ K).
Qed.

Lemma cursor_same_name_in_both_formats_witness :
  exists a b d',
    CursorHandler.load_servers (Some (Json (JObj both_config))) = Ok (a ++ b) /\
    2 <= count_name "fs" (a ++ b) /\
    CursorHandler.remove_server "fs" (Some (Json (JObj both_config)))
    = (Ok true, Some (Json (JObj d'))) /\
    ~ In "servers" (keys d').
Proof.
  destruct (cursor_same_name_in_both_formats
              both_config both_mcp both_srv
              [{| name := "fs"; command := "npx"; args := ["-y"; "pkg"];
                  env := []; server_type := STDIO; url := None;
                  enabled := true; description := None |}]
              [{| name := "fs"; command := "node"; args := ["server.js"];
                  env := []; server_type := STDIO; url := None;
                  enabled := true; description := None |}]
              {| name := "fs"; command := "npx"; args := ["-y"; "pkg"];
                 env := []; server_type := STDIO; url := None;
                 enabled := true; description := None |}
              {| name := "fs"; command := "node"; args := ["server.js"];
                 env := []; server_type := STDIO; url := None;
                 enabled := true; description := None |}
              "fs" both_config_populated)
    as (L & C & d' & R & N & _);
    try reflexivity; try (left; reflexivity).
  eexists _, _, d'. split; [exact L|]. split; [exact C|].
  split; [exact R|exact N].
Defined.

(** ** Reading back what was written: the mapping formats *)

Lemma str_truthy_Some (u : string) :
  str_truthy (Some u) = negb (String.eqb u "").
Proof. reflexivity. Qed.

(** Case analysis on the fields that decide which keys are written. *)
Ltac written_keys s :=
  let n := fresh "n" in let c := fresh "c" in let a := fresh "a" in
  let e := fresh "e" in let t := fresh "t" in let u := fresh "u" in
  let en := fresh "en" in let ds := fresh "ds" in
  destruct s as [n c a e t u en ds];
  unfold consistent, named, not_stdio, norm_url, url_text in *;
  cbn [name command args env server_type url enabled description] in *;
  destruct t; destruct u as [u|];
  rewrite ?str_truthy_Some in *;
  try destruct (String.eqb u "") eqn:?;
  cbn [negb MCPServerType_eqb str_truthy or_default] in *;
  try match goal with
    | H : _ /\ (true = true -> false = true) |- _ =>
        destruct H as [_ H]; discriminate (H eq_refl)
    end.

Ltac init_fields N :=
  erewrite init_intro;
  [ reflexivity
  | exact N
  | reflexivity
  | cbn [kw_args or_default]; first [apply as_list_str_args | reflexivity]
  | cbn [kw_env or_default]; first [apply as_dict_str_env | reflexivity]
  | unfold field_url, validate_url;
    cbn [kw_url kw_server_type or_default as_opt_str];
    rewrite ?str_truthy_Some;
    repeat match goal with H : String.eqb _ "" = _ |- _ => rewrite H end;
    reflexivity
  | reflexivity
  | reflexivity ].

Lemma claude_code_reload (s : MCPServer) :
  consistent s ->
  ClaudeCodeHandler.load_entry
    (name s, JObj (ClaudeCodeHandler.server_config_of s))
  = Ok (A_image s).
Proof.
  intros C. unfold ClaudeCodeHandler.load_entry,
    ClaudeCodeHandler.server_config_of, A_image, type_value.
  written_keys s; destruct C as [N _];
    cbn -[json_of_env json_of_args]; init_fields N.
Qed.

(** The kind-A scenario: one stdio record, enabled. *)
Example load_kind_A_scenario :
  ClaudeCodeHandler.load_servers kind_A_scenario
  = Ok [{| name := "fs"; command := "npx"; args := ["-y"; "pkg"]; env := [];
           server_type := STDIO; url := None; enabled := true;
           description := None |}].
Proof. reflexivity. Qed.

Lemma vscode_reload (s : MCPServer) :
  consistent s ->
  VSCodeHandler.load_entry (name s, JObj (VSCodeHandler.server_config_of s))
  = Ok (C_image s).
Proof.
  intros C. unfold VSCodeHandler.load_entry,
    VSCodeHandler.server_config_of, C_image, type_value.
  written_keys s; destruct C as [N _]; destruct e as [|kv e];
    cbn -[json_of_env json_of_args]; init_fields N.
Qed.

Lemma gemini_reload (py_str : json -> string) (s : MCPServer) :
  consistent s ->
  GeminiCLIHandler.load_entry py_str
    (name s, JObj (GeminiCLIHandler.server_config_of s))
  = Ok (D_image s).
Proof.
  intros C. unfold GeminiCLIHandler.load_entry,
    GeminiCLIHandler.server_config_of, D_image, type_value.
  written_keys s; destruct C as [N _];
    cbn -[json_of_env json_of_args];
    unfold GeminiCLIHandler.py_or; cbn [truthy];
    repeat match goal with H : String.eqb _ "" = _ |- _ => rewrite H end;
    cbn [negb]; init_fields N.
Qed.

Lemma cursor_claude_reload (s : MCPServer) :
  consistent s ->
  CursorHandler.load_claude_entry
    (name s, JObj (CursorHandler.claude_config_of s))
  = Ok (D_image s).
Proof.
  intros C. unfold CursorHandler.load_claude_entry,
    CursorHandler.claude_config_of, D_image, type_value.
  written_keys s; destruct C as [N _]; destruct en;
    cbn -[json_of_env json_of_args]; init_fields N.
Qed.

Ltac entry_inv :=
  let k := fresh "k" in let v := fresh "v" in let I := fresh "I" in
  intros [k v] ?b; cbv beta iota delta [ClaudeCodeHandler.load_entry
    VSCodeHandler.load_entry GeminiCLIHandler.load_entry
    CursorHandler.load_claude_entry];
  destruct v; try discriminate; cbn [py_get bind]; intros I;
  split;
  [ eapply init_consistent; [exact I|reflexivity]
  | apply init_named in I; destruct I as [_ I]; cbn [kw_name] in I;
    injection I as ->; reflexivity ].

Lemma claude_code_entry_inv :
  forall e b, ClaudeCodeHandler.load_entry e = Ok b ->
              consistent b /\ name b = fst e.
Proof. entry_inv. Qed.

Lemma vscode_entry_inv :
  forall e b, VSCodeHandler.load_entry e = Ok b ->
              consistent b /\ name b = fst e.
Proof. entry_inv. Qed.

Lemma gemini_entry_inv (py_str : json -> string) :
  forall e b, GeminiCLIHandler.load_entry py_str e = Ok b ->
              consistent b /\ name b = fst e.
Proof. entry_inv. Qed.

Lemma cursor_claude_entry_inv :
  forall e b, CursorHandler.load_claude_entry e = Ok b ->
              consistent b /\ name b = fst e.
Proof. entry_inv. Qed.

(** *** A mapping of servers, written and read back

    [dec] reads one entry of a mapping and [enc] writes one; what is said
    here holds for the four mapping formats alike. *)

Section Mapping.
Variable dec : string * json -> result MCPServer.
Variable enc : MCPServer -> dict json.
Variable image : MCPServer -> MCPServer.

Hypothesis dec_inv :
  forall e b, dec e = Ok b -> consistent b /\ name b = fst e.
Hypothesis dec_enc :
  forall s, consistent s -> dec (name s, JObj (enc s)) = Ok (image s).

Let written (recs : list MCPServer) : dict json :=
  by_name (fun s => Some (enc s)) recs.

Lemma mapping_loads (recs : list MCPServer) :
  Forall consistent recs -> exists bs, mapM dec (written recs) = Ok bs.
Proof.
  intros F. apply mapM_ok. intros [k v] I. apply by_name_In in I.
  destruct I as (s & c & I & [= <-] & [= -> ->]).
  rewrite Forall_forall in F. rewrite (dec_enc s (F s I)). eauto.
Qed.

(** The server added last is found under its name, as its image. *)
Lemma mapping_finds_added (l : list MCPServer) (r : MCPServer) :
  Forall consistent l -> consistent r ->
  exists bs,
    mapM dec (written (without (name r) l ++ [r])) = Ok bs /\
    find (name_is (name r)) bs = Some (image r).
Proof.
  intros Fl Cr.
  assert (Forall consistent (without (name r) l ++ [r])) as F.
  { apply Forall_app. split; [|now constructor].
    rewrite Forall_forall in *. intros s I. apply without_names in I.
    apply Fl. tauto. }
  destruct (mapping_loads _ F) as [bs M]. exists bs. split; [exact M|].
  destruct (find_of_mapM dec _ bs (name r) (JObj (enc r))
              (fun e b H => proj2 (dec_inv e b H)) M) as (b & Fb & D).
  - unfold written. now apply by_name_snoc.
  - rewrite (dec_enc r Cr) in D. now injection D as <-.
Qed.

Lemma fold_step_fresh (l : list MCPServer) (d : dict json) :
  NoDup (keys d ++ map name l) ->
  fold_left
    (fun d server => match Some (enc server) with
                     | Some c => dict_set (name server) (JObj c) d
                     | None => d
                     end) l d
  = d ++ map (fun s => (name s, JObj (enc s))) l.
Proof.
  revert d. induction l as [|s l IH]; intros d N; simpl.
  - now rewrite app_nil_r.
  - assert (dict_set (name s) (JObj (enc s)) d = d ++ [(name s, JObj (enc s))])
      as ->.
    { assert (~ In (name s) (keys d)) as Nk.
      { intros I. apply NoDup_remove_2 in N. apply N.
        apply in_or_app. now left. }
      clear - Nk. induction d as [|[k v] d IH]; simpl in *; auto.
      destruct (String.eqb k (name s)) eqn:E.
      - apply String.eqb_eq in E. tauto.
      - rewrite IH; tauto. }
    rewrite IH.
    + now rewrite <- app_assoc.
    + unfold keys in *. rewrite map_app. simpl. rewrite <- app_assoc. simpl.
      exact N.
Qed.

(** With distinct names, every server has its own entry and is read back. *)
Lemma mapping_reads_all (recs : list MCPServer) :
  Forall consistent recs -> NoDup (map name recs) ->
  mapM dec (written recs) = Ok (map image recs).
Proof.
  intros F N. unfold written, by_name. rewrite fold_step_fresh by exact N.
  simpl. clear N. induction recs as [|s recs IH]; simpl; auto.
  inversion F as [|? ? Cs Fr]; subst.
  rewrite (dec_enc s Cs). simpl. now rewrite (IH Fr).
Qed.
End Mapping.

Lemma claude_code_is_mapping :
  ClaudeCodeHandler.load_servers
  = mapping_load "mcpServers" ClaudeCodeHandler.load_entry
  /\ ClaudeCodeHandler.save_servers
     = mapping_save "mcpServers" ClaudeCodeHandler.server_config_of.
Proof. split; reflexivity. Qed.

Lemma gemini_is_mapping (py_str : json -> string) :
  GeminiCLIHandler.load_servers py_str
  = mapping_load "mcpServers" (GeminiCLIHandler.load_entry py_str)
  /\ GeminiCLIHandler.save_servers
     = mapping_save "mcpServers" GeminiCLIHandler.server_config_of.
Proof. split; reflexivity. Qed.

Section TopLevelMapping.
Variable key : string.
Variable dec : string * json -> result MCPServer.
Variable enc : MCPServer -> dict json.
Variable image : MCPServer -> MCPServer.

Hypothesis dec_inv :
  forall e b, dec e = Ok b -> consistent b /\ name b = fst e.
Hypothesis dec_enc :
  forall s, consistent s -> dec (name s, JObj (enc s)) = Ok (image s).

Lemma mapping_load_inv (st : store) (l : list MCPServer) :
  mapping_load key dec st = Ok l ->
  (st = None /\ l = []) \/
  exists d m, st = Some (Json (JObj d)) /\ get_or key (JObj []) d = JObj m
              /\ mapM dec m = Ok l.
Proof.
  intros H. apply with_config_ok in H. destruct H as [H|(v & -> & H)]; [now left|].
  right. destruct (py_get key (JObj []) v) as [w|] eqn:G; [|discriminate].
  apply py_get_ok in G. destruct G as (d & -> & ->). simpl in H.
  destruct (get_or key (JObj []) d) eqn:M; try discriminate.
  simpl in H. eauto.
Qed.

Lemma mapping_loaded_consistent (st : store) (l : list MCPServer) :
  mapping_load key dec st = Ok l -> Forall consistent l.
Proof.
  intros H. apply mapping_load_inv in H.
  destruct H as [[_ ->]|(d & m & _ & _ & H)]; [constructor|].
  eapply mapM_Forall; [|exact H]. intros e b E. exact (proj1 (dec_inv e b E)).
Qed.

Lemma mapping_save_after_load (st : store) (l recs : list MCPServer) :
  mapping_load key dec st = Ok l ->
  exists d,
    mapping_save key enc recs st
    = (Ok tt, Some (Json (JObj (dict_set key
                 (JObj (by_name (fun s => Some (enc s)) recs)) d)))).
Proof.
  intros H. apply mapping_load_inv in H.
  destruct H as [[-> _]|(d & m & -> & _)];
    unfold mapping_save, existing_or, dump; eexists; reflexivity.
Qed.

Lemma mapping_load_saved (m d : dict json) :
  mapping_load key dec (Some (Json (JObj (dict_set key (JObj m) d))))
  = mapM dec m.
Proof.
  unfold mapping_load, with_config, py_get, get_or.
  now rewrite dict_get_set_same.
Qed.

(** [add_server] then [get_server] over a mapping under a top-level key. *)
Lemma mapping_add_get (st : store) (l : list MCPServer) (r : MCPServer) :
  mapping_load key dec st = Ok l -> consistent r ->
  exists st',
    add_server (mapping_load key dec) (mapping_save key enc) r st = (Ok tt, st')
    /\ get_server (mapping_load key dec) (name r) st' = Ok (Some (image r)).
Proof.
  intros L C. unfold add_server, get_server. rewrite L.
  destruct (mapping_save_after_load st l (without (name r) l ++ [r]) L)
    as [d ->].
  eexists. split; [reflexivity|]. rewrite mapping_load_saved.
  destruct (mapping_finds_added dec enc image dec_inv dec_enc l r
              (mapping_loaded_consistent _ _ L) C) as (bs & -> & F).
  simpl. now rewrite F.
Qed.

(** What is loaded after a save of servers with distinct names. *)
Lemma mapping_save_load (st st' : store) (l recs : list MCPServer) :
  mapping_load key dec st = Ok l ->
  Forall consistent recs -> NoDup (map name recs) ->
  mapping_save key enc recs st = (Ok tt, st') ->
  mapping_load key dec st' = Ok (map image recs).
Proof.
  intros L F N S.
  destruct (mapping_save_after_load st l recs L) as [d E].
  rewrite E in S. injection S as <-. rewrite mapping_load_saved.
  now apply mapping_reads_all.
Qed.
End TopLevelMapping.

(** ** Kind C: the mapping under ["mcp"]["servers"] *)

Lemma vscode_load_inv (st : store) (l : list MCPServer) :
  VSCodeHandler.load_servers st = Ok l ->
  (st = None /\ l = []) \/
  exists d mcp m,
    st = Some (Json (JObj d)) /\ get_or "mcp" (JObj []) d = JObj mcp /\
    get_or "servers" (JObj []) mcp = JObj m /\
    mapM VSCodeHandler.load_entry m = Ok l.
Proof.
  intros H. apply with_config_ok in H. destruct H as [H|(v & -> & H)]; [now left|].
  right. destruct (py_get "mcp" (JObj []) v) as [w|] eqn:G; [|discriminate].
  apply py_get_ok in G. destruct G as (d & -> & ->). cbn [bind] in H.
  destruct (py_get "servers" (JObj []) (get_or "mcp" (JObj []) d)) as [w|] eqn:G;
    [|discriminate].
  apply py_get_ok in G. destruct G as (mcp & E & ->). cbn [bind] in H.
  destruct (get_or "servers" (JObj []) mcp) eqn:M; try discriminate.
  cbn [py_items bind] in H. exists d, mcp. eauto.
Qed.

Lemma vscode_loaded_consistent (st : store) (l : list MCPServer) :
  VSCodeHandler.load_servers st = Ok l -> Forall consistent l.
Proof.
  intros H. apply vscode_load_inv in H.
  destruct H as [[_ ->]|(d & mcp & m & _ & _ & _ & H)]; [constructor|].
  eapply mapM_Forall; [|exact H].
  intros e b E. exact (proj1 (vscode_entry_inv e b E)).
Qed.

Lemma vscode_save_after_load (st : store) (l recs : list MCPServer) :
  VSCodeHandler.load_servers st = Ok l ->
  exists d mcp,
    VSCodeHandler.save_servers recs st
    = (Ok tt,
       Some (Json (JObj (dict_set "mcp"
          (JObj (dict_set "servers"
                   (JObj (by_name (fun s => Some (VSCodeHandler.server_config_of s))
                            recs)) mcp)) d)))).
Proof.
  intros H. apply vscode_load_inv in H.
  destruct H as [[-> _]|(d & mcp & m & -> & G & _)].
  - do 2 eexists. reflexivity.
  - unfold VSCodeHandler.save_servers, existing_or, VSCodeHandler.ensure_mcp,
      dict_mem. unfold get_or in G.
    destruct (dict_get "mcp" d) as [v|] eqn:E.
    + subst v. rewrite E. do 2 eexists. reflexivity.
    + rewrite dict_get_set_same. do 2 eexists. reflexivity.
Qed.

Lemma vscode_load_saved (m mcp d : dict json) :
  VSCodeHandler.load_servers
    (Some (Json (JObj (dict_set "mcp"
                         (JObj (dict_set "servers" (JObj m) mcp)) d))))
  = mapM VSCodeHandler.load_entry m.
Proof.
  unfold VSCodeHandler.load_servers, with_config, py_get, get_or.
  rewrite dict_get_set_same. cbn [bind]. now rewrite dict_get_set_same.
Qed.

Lemma vscode_add_get (st : store) (l : list MCPServer) (r : MCPServer) :
  VSCodeHandler.load_servers st = Ok l -> consistent r ->
  exists st',
    VSCodeHandler.add_server r st = (Ok tt, st') /\
    VSCodeHandler.get_server (name r) st' = Ok (Some (C_image r)).
Proof.
  intros L C.
  unfold VSCodeHandler.add_server, VSCodeHandler.get_server, add_server,
    get_server. rewrite L.
  destruct (vscode_save_after_load st l (without (name r) l ++ [r]) L)
    as (d & mcp & ->).
  eexists. split; [reflexivity|]. rewrite vscode_load_saved.
  destruct (mapping_finds_added VSCodeHandler.load_entry
              VSCodeHandler.server_config_of C_image
              vscode_entry_inv vscode_reload l r
              (vscode_loaded_consistent _ _ L) C) as (bs & -> & F).
  simpl. now rewrite F.
Qed.

Lemma vscode_save_load (st st' : store) (l recs : list MCPServer) :
  VSCodeHandler.load_servers st = Ok l ->
  Forall consistent recs -> NoDup (map name recs) ->
  VSCodeHandler.save_servers recs st = (Ok tt, st') ->
  VSCodeHandler.load_servers st' = Ok (map C_image recs).
Proof.
  intros L F N S.
  destruct (vscode_save_after_load st l recs L) as (d & mcp & E).
  rewrite E in S. injection S as <-. rewrite vscode_load_saved.
  now apply (mapping_reads_all VSCodeHandler.load_entry
               VSCodeHandler.server_config_of C_image vscode_reload).
Qed.

(** ** Kind E: adding and reading back *)

Lemma by_name_ext (f g : MCPServer -> option (dict json)) (l : list MCPServer) :
  (forall s, In s l -> f s = g s) -> by_name f l = by_name g l.
Proof.
  unfold by_name. generalize (@nil (string * json)).
  induction l as [|s l IH]; intros d H; simpl; auto.
  rewrite (H s (or_introl eq_refl)). apply IH. intros; apply H; now right.
Qed.

Lemma by_name_distinct (enc : MCPServer -> dict json) (recs : list MCPServer) :
  NoDup (map name recs) ->
  by_name (fun s => Some (enc s)) recs
  = map (fun s => (name s, JObj (enc s))) recs.
Proof.
  intros N. unfold by_name. now rewrite fold_step_fresh.
Qed.

Lemma opencode_add_get (st : store) (l : list MCPServer) (r : MCPServer) :
  OpenCodeHandler.load_servers st = Ok l ->
  named r -> OpenCodeHandler.server_config_of r <> None ->
  exists st',
    OpenCodeHandler.add_server r st = (Ok tt, st') /\
    OpenCodeHandler.get_server (name r) st' = Ok (Some (E_image r)).
Proof.
  intros L Nr Enc.
  destruct (OpenCodeHandler.server_config_of r) as [c|] eqn:Ec; [|congruence].
  pose proof (opencode_loaded_named _ _ L) as Nl.
  assert (Forall named (without (name r) l ++ [r])) as F.
  { apply Forall_app. split; [|now constructor].
    rewrite Forall_forall in *. intros s I. apply without_names in I.
    apply Nl. tauto. }
  unfold OpenCodeHandler.add_server, OpenCodeHandler.get_server, add_server,
    get_server. rewrite L.
  destruct (opencode_save_after_load st l (without (name r) l ++ [r]) L)
    as [d ->].
  destruct (opencode_load_saved _ d F) as (bs & Lb & Cb).
  eexists. split; [reflexivity|]. rewrite Lb. simpl. f_equal.
  eapply find_of_collectM; [exact opencode_entry_name|exact Cb| |].
  - apply by_name_snoc. exact Ec.
  - now apply opencode_reload.
Qed.

Lemma opencode_reload_entry (s : MCPServer) :
  named s -> OpenCodeHandler.server_config_of s <> None ->
  OpenCodeHandler.load_entry (name s, JObj (opencode_entry s))
  = Ok (Some (E_image s)).
Proof.
  intros N E. unfold opencode_entry.
  destruct (OpenCodeHandler.server_config_of s) as [c|] eqn:Ec; [|congruence].
  now apply opencode_reload.
Qed.

Lemma collectM_map {A B C} (f : B -> result (option C)) (g : A -> B)
      (h : A -> C) (l : list A) :
  (forall a, In a l -> f (g a) = Ok (Some (h a))) ->
  collectM f (map g l) = Ok (map h l).
Proof.
  induction l as [|a l IH]; intros H; simpl; auto.
  rewrite (H a (or_introl eq_refl)). cbn [bind].
  rewrite IH; [reflexivity|intros; apply H; now right].
Qed.

Lemma opencode_save_load (st st' : store) (l recs : list MCPServer) :
  OpenCodeHandler.load_servers st = Ok l ->
  Forall named recs ->
  Forall (fun s => OpenCodeHandler.server_config_of s <> None) recs ->
  NoDup (map name recs) ->
  OpenCodeHandler.save_servers recs st = (Ok tt, st') ->
  OpenCodeHandler.load_servers st' = Ok (map E_image recs).
Proof.
  intros L F Enc N S.
  destruct (opencode_save_after_load st l recs L) as [d E].
  rewrite E in S. injection S as <-.
  destruct (opencode_load_saved recs d F) as (bs & -> & Cb). rewrite <- Cb.
  rewrite (by_name_ext _ (fun s => Some (opencode_entry s))).
  2:{ intros s I. rewrite Forall_forall in Enc. specialize (Enc s I).
      unfold opencode_entry.
      destruct (OpenCodeHandler.server_config_of s); [reflexivity|congruence]. }
  rewrite by_name_distinct by exact N.
  apply collectM_map. intros s I. rewrite Forall_forall in F, Enc.
  apply opencode_reload_entry; auto.
Qed.

(** ** Kind B: the list format *)

Lemma append_assoc (a b c : string) : ((a ++ b) ++ c = a ++ (b ++ c))%string.
Proof. induction a as [|x a IH]; simpl; [|rewrite IH]; reflexivity. Qed.

Lemma append_nil_r (a : string) : (a ++ "")%string = a.
Proof. induction a as [|x a IH]; simpl; [|rewrite IH]; reflexivity. Qed.

Lemma append_nonempty (a b : string) : a <> "" -> (a ++ b)%string <> "".
Proof. destruct a; [congruence|discriminate]. Qed.

Lemma split_ws_word (t cur rest : string) :
  forallb (fun c => negb (is_space c)) (list_ascii_of_string t) = true ->
  split_ws cur (t ++ rest) = split_ws (cur ++ t) rest.
Proof.
  revert cur. induction t as [|c t IH]; intros cur H; simpl.
  - now rewrite append_nil_r.
  - simpl in H. apply andb_true_iff in H. destruct H as [C H].
    apply negb_true_iff in C. rewrite C, (IH _ H), append_assoc. reflexivity.
Qed.

Lemma split_ws_space (cur rest : string) :
  cur <> "" -> split_ws cur (" " ++ rest) = cur :: split_ws "" rest.
Proof. intros N. simpl. destruct cur; [congruence|reflexivity]. Qed.

(** Splitting a line of words joined by single spaces gives the words. *)
Lemma py_split_join (ws : list string) :
  Forall token ws -> py_split (py_join ws) = ws.
Proof.
  unfold py_split, py_join. induction 1 as [|w ws [Nw Tw] F IH]; [reflexivity|].
  destruct ws as [|w' ws].
  - simpl. rewrite <- (append_nil_r w) at 1.
    rewrite (split_ws_word w "" "" Tw). simpl. destruct w; [congruence|reflexivity].
  - change (String.concat " " (w :: w' :: ws))
      with (w ++ " " ++ String.concat " " (w' :: ws))%string.
    rewrite (split_ws_word w "" _ Tw). change ("" ++ w)%string with w.
    rewrite (split_ws_space w _ Nw). now rewrite IH.
Qed.

Lemma command_str_join (s : MCPServer) :
  CursorHandler.command_str s = py_join (command s :: args s).
Proof.
  unfold CursorHandler.command_str, py_join. destruct (args s); reflexivity.
Qed.

(** A command line of words comes back as it was; so does the empty command
    without arguments. *)
Lemma cursor_command_words (s : MCPServer) :
  Forall token (command s :: args s) \/ (command s = "" /\ args s = []) ->
  cursor_command s = (command s, args s).
Proof.
  unfold cursor_command. intros [F|[Ec Ea]].
  - rewrite command_str_join, (py_split_join _ F).
    assert (py_join (command s :: args s) <> "") as N.
    { inversion F as [|? ? [Nc _] _]; subst. unfold py_join.
      destruct (args s); [exact Nc|].
      change (String.concat " " (command s :: s0 :: l))
        with (command s ++ " " ++ String.concat " " (s0 :: l))%string.
      now apply append_nonempty. }
    apply String.eqb_neq in N. now rewrite N.
  - unfold CursorHandler.command_str. now rewrite Ea, Ec.
Qed.

Lemma cursor_list_reload (s : MCPServer) :
  named s ->
  CursorHandler.load_cursor_entry (CursorHandler.cursor_config_of s)
  = Ok (B_list_image s).
Proof.
  intros N. unfold CursorHandler.load_cursor_entry,
    CursorHandler.cursor_config_of, B_list_image, cursor_command.
  cbn [py_get get_or dict_get String.eqb Ascii.eqb Bool.eqb bind].
  unfold CursorHandler.split_command. cbn [truthy].
  destruct (String.eqb (CursorHandler.command_str s) "") eqn:E; cbn [negb bind].
  - erewrite init_intro;
      [ destruct s as [? ? ? ? [] ? ? ?]; reflexivity
      | exact N | reflexivity | reflexivity | reflexivity | reflexivity
      | reflexivity | reflexivity ].
  - destruct (py_split (CursorHandler.command_str s)) as [|x rest];
      cbn [bind fst snd];
      (erewrite init_intro;
       [ destruct s as [? ? ? ? [] ? ? ?]; reflexivity
       | exact N | reflexivity
       | cbn [kw_args or_default]; first [apply all_str_map | reflexivity]
       | reflexivity | reflexivity | reflexivity | reflexivity ]).
Qed.

(** ** Kind B: which format is written and what is then loaded *)

Lemma cursor_detect_obj (d : dict json) :
  CursorHandler._detect_config_format (JObj d)
  = Ok (if truthy (get_or "mcpServers" (JBool false) d)
           && truthy (get_or "servers" (JBool false) d)
        then CursorHandler.both
        else if truthy (get_or "mcpServers" (JBool false) d)
             then CursorHandler.claude
             else if truthy (get_or "servers" (JBool false) d)
                  then CursorHandler.cursor
                  else CursorHandler.none).
Proof. reflexivity. Qed.

Lemma get_or_set_same {V} (k : string) (v default : V) (d : dict V) :
  get_or k default (dict_set k v d) = v.
Proof. unfold get_or. now rewrite dict_get_set_same. Qed.

Lemma get_or_set_other {V} (k k' : string) (v default : V) (d : dict V) :
  k' <> k -> get_or k' default (dict_set k v d) = get_or k' default d.
Proof. intros N. unfold get_or. now rewrite dict_get_set_other. Qed.

Lemma cursor_load_mapping (m d : dict json) :
  truthy (get_or "servers" (JBool false) d) = false ->
  CursorHandler.load_servers
    (Some (Json (JObj (dict_set "mcpServers" (JObj m) d))))
  = mapM CursorHandler.load_claude_entry m.
Proof.
  intros S. unfold CursorHandler.load_servers, with_config.
  rewrite cursor_detect_obj, get_or_set_same,
    (get_or_set_other "mcpServers" "servers") by discriminate.
  rewrite S, andb_false_r. cbn [bind truthy].
  destruct m as [|e m]; [reflexivity|].
  unfold CursorHandler._load_claude_format, py_get.
  now rewrite get_or_set_same.
Qed.

Lemma cursor_load_list (items : list json) (d : dict json) :
  truthy (get_or "mcpServers" (JBool false) d) = false ->
  CursorHandler.load_servers
    (Some (Json (JObj (dict_set "servers" (JArr items) d))))
  = mapM CursorHandler.load_cursor_entry items.
Proof.
  intros M. unfold CursorHandler.load_servers, with_config.
  rewrite cursor_detect_obj, get_or_set_same,
    (get_or_set_other "servers" "mcpServers") by discriminate.
  rewrite M. cbn [bind truthy andb].
  destruct items as [|e items]; [reflexivity|].
  unfold CursorHandler._load_cursor_format, py_get.
  now rewrite get_or_set_same.
Qed.

Lemma get_or_del_same {V} (k : string) (default : V) (d : dict V) :
  get_or k default (dict_del k d) = default.
Proof. unfold get_or. now rewrite dict_get_del_same. Qed.

(** With a non-empty ["mcpServers"] the mapping format is written, into a
    dictionary without a populated ["servers"]. *)
Lemma cursor_save_mapping (st : store) (recs : list MCPServer) :
  writes_mapping st = true ->
  exists d,
    truthy (get_or "servers" (JBool false) d) = false /\
    CursorHandler.save_servers recs st
    = (Ok tt,
       Some (Json (JObj (dict_set "mcpServers"
          (JObj (by_name (fun s => Some (CursorHandler.claude_config_of s)) recs))
          d)))).
Proof.
  destruct st as [[raw|[| | | | | |d]]|]; try discriminate. simpl. intros M.
  unfold CursorHandler.save_servers, CursorHandler.existing.
  rewrite cursor_detect_obj, M. cbn [bind andb].
  destruct (truthy (get_or "servers" (JBool false) d)) eqn:S.
  - exists (dict_del "servers" d). split; [|reflexivity].
    now rewrite get_or_del_same.
  - exists d. split; [exact S|reflexivity].
Qed.

(** Without it, and with no file or a file that holds a dictionary, the list
    format is written, into a dictionary without a populated
    ["mcpServers"]. *)
Lemma cursor_save_list (st : store) (recs : list MCPServer) :
  writes_mapping st = false ->
  st = None \/ (exists d, st = Some (Json (JObj d))) ->
  exists d,
    truthy (get_or "mcpServers" (JBool false) d) = false /\
    CursorHandler.save_servers recs st
    = (Ok tt,
       Some (Json (JObj (dict_set "servers"
          (JArr (map CursorHandler.cursor_config_of recs)) d)))).
Proof.
  intros M [->|[d ->]].
  - eexists. split; [|reflexivity]. reflexivity.
  - simpl in M. unfold CursorHandler.save_servers, CursorHandler.existing.
    rewrite cursor_detect_obj, M. cbn [bind andb].
    exists d. split; [exact M|].
    destruct (truthy (get_or "servers" (JBool false) d)); reflexivity.
Qed.

Lemma cursor_list_entry_named (e : json) (b : MCPServer) :
  CursorHandler.load_cursor_entry e = Ok b -> named b.
Proof.
  unfold CursorHandler.load_cursor_entry.
  destruct e; try discriminate. cbn [py_get bind].
  destruct (CursorHandler.split_command _); cbn [bind]; [|discriminate].
  intros I. exact (proj1 (init_named _ _ I)).
Qed.

Lemma cursor_loaded_named (st : store) (l : list MCPServer) :
  CursorHandler.load_servers st = Ok l -> Forall named l.
Proof.
  intros H. apply with_config_ok in H.
  destruct H as [[_ ->]|(v & -> & H)]; [constructor|].
  destruct (CursorHandler._detect_config_format v) as [fmt|]; [|discriminate].
  cbn [bind] in H.
  assert (forall a, CursorHandler._load_claude_format v = Ok a -> Forall named a)
    as Ha.
  { intros a E. unfold CursorHandler._load_claude_format in E.
    destruct (py_get "mcpServers" (JObj []) v); [|discriminate]. cbn [bind] in E.
    destruct (py_items a0); [|discriminate]. cbn [bind] in E.
    eapply mapM_Forall; [|exact E].
    intros e b D. exact (proj1 (proj1 (cursor_claude_entry_inv e b D))). }
  assert (forall b, CursorHandler._load_cursor_format v = Ok b -> Forall named b)
    as Hb.
  { intros b E. unfold CursorHandler._load_cursor_format in E.
    destruct (py_get "servers" (JArr []) v); [|discriminate]. cbn [bind] in E.
    destruct (CursorHandler.py_iter a); [|discriminate]. cbn [bind] in E.
    eapply mapM_Forall; [|exact E]. exact cursor_list_entry_named. }
  destruct fmt; auto.
  - destruct (CursorHandler._load_claude_format v) as [a|]; [|discriminate].
    destruct (CursorHandler._load_cursor_format v) as [b|]; [|discriminate].
    cbn [bind] in H. injection H as <-. apply Forall_app. auto.
  - injection H as <-. constructor.
Qed.

Lemma find_image_added (image : MCPServer -> MCPServer)
      (l : list MCPServer) (r : MCPServer) :
  (forall s, name (image s) = name s) ->
  find (name_is (name r)) (map image (without (name r) l ++ [r]))
  = Some (image r).
Proof.
  intros N. rewrite map_app. simpl.
  assert (forall w, ~ In (name r) (map name w) ->
            find (name_is (name r)) (map image w ++ [image r]) = Some (image r))
    as H.
  { induction w as [|s w IH]; simpl; intros Nw.
    - unfold name_is. now rewrite N, String.eqb_refl.
    - unfold name_is at 1. rewrite N.
      destruct (String.eqb (name s) (name r)) eqn:E.
      + apply String.eqb_eq in E. tauto.
      + apply IH. tauto. }
  apply H, without_not_in.
Qed.

(** [add_server] then [get_server] for kind B, in the format it writes. *)
Lemma cursor_add_get_mapping (st : store) (l : list MCPServer) (r : MCPServer) :
  CursorHandler.load_servers st = Ok l -> writes_mapping st = true ->
  Forall consistent l -> consistent r ->
  exists st',
    CursorHandler.add_server r st = (Ok tt, st') /\
    CursorHandler.get_server (name r) st' = Ok (Some (D_image r)).
Proof.
  intros L W Fl Cr.
  unfold CursorHandler.add_server, CursorHandler.get_server, add_server,
    get_server. rewrite L.
  destruct (cursor_save_mapping st (without (name r) l ++ [r]) W)
    as (d & S & ->).
  eexists. split; [reflexivity|]. rewrite (cursor_load_mapping _ _ S).
  destruct (mapping_finds_added CursorHandler.load_claude_entry
              CursorHandler.claude_config_of D_image
              cursor_claude_entry_inv cursor_claude_reload l r Fl Cr)
    as (bs & -> & F).
  simpl. now rewrite F.
Qed.

Lemma cursor_add_get_list (st : store) (l : list MCPServer) (r : MCPServer) :
  CursorHandler.load_servers st = Ok l -> writes_mapping st = false ->
  st = None \/ (exists d, st = Some (Json (JObj d))) ->
  named r ->
  exists st',
    CursorHandler.add_server r st = (Ok tt, st') /\
    CursorHandler.get_server (name r) st' = Ok (Some (B_list_image r)).
Proof.
  intros L W Sh Nr.
  unfold CursorHandler.add_server, CursorHandler.get_server, add_server,
    get_server. rewrite L.
  destruct (cursor_save_list st (without (name r) l ++ [r]) W Sh)
    as (d & M & ->).
  eexists. split; [reflexivity|]. rewrite (cursor_load_list _ _ M).
  rewrite (mapM_map_map _ CursorHandler.cursor_config_of B_list_image).
  - cbn [bind]. f_equal. apply find_image_added. reflexivity.
  - intros s I. apply cursor_list_reload.
    pose proof (cursor_loaded_named _ _ L) as Nl. rewrite Forall_forall in Nl.
    apply in_app_or in I. destruct I as [I|[<-|[]]]; [|exact Nr].
    apply without_names in I. apply Nl. tauto.
Qed.

(** ** Adding a server and reading it back (C3) *)

Lemma read_back_kept (k : adapter) (st : store) (l : list MCPServer)
      (r : MCPServer) :
  can_add k st l r -> kept_fields k st r (read_back k st r).
Proof.
  destruct k; unfold can_add, kept_fields, read_back; intros C.
  - repeat split.
  - destruct (writes_mapping st); split; try reflexivity.
    + repeat split.
    + split; [reflexivity|]. split; [reflexivity|]. split; [reflexivity|].
      split; [reflexivity|]. intros W. unfold same_command_line, B_list_image.
      cbn [command args]. now rewrite (cursor_command_words r W).
  - repeat split.
  - repeat split.
  - destruct C as [_ Enc]. unfold E_image, local_entry.
    unfold OpenCodeHandler.server_config_of in Enc.
    destruct (MCPServerType_eqb (server_type r) STDIO
              && negb (String.eqb (command r) "")); [repeat split|].
    destruct (OpenCodeHandler.is_remote_type r && str_truthy (url r)) eqn:R;
      [|congruence].
    apply andb_true_iff in R. destruct R as [_ U].
    unfold url_text. destruct (url r); [|discriminate]. repeat split.
Qed.

(** C3, as the handlers have it.  For every kind and every server [r] that
    the kind can add to the file, [add] succeeds and [get] of the server's
    name then returns a record that agrees with [r] on the fields listed in
    [kept_fields]: the name always; command, arguments, environment,
    transport and url (an empty url is read back as none) for kinds A, C and
    D and for the mapping format of kind B; the enabled flag for kinds B, D
    and E; for the list format of kind B the transport and the enabled flag,
    and the command line when it consists of words free of whitespace; for
    kind E the command line and environment of a local entry, or the url of
    a remote one. *)
Theorem add_then_get_reads_back (py_str : json -> string) (k : adapter)
        (st : store) (l : list MCPServer) (r : MCPServer) :
  load py_str k st = Ok l ->
  can_add k st l r ->
  exists st',
    add py_str k r st = (Ok tt, st') /\
    get py_str k (name r) st' = Ok (Some (read_back k st r)) /\
    kept_fields k st r (read_back k st r).
Proof.
  intros L C. pose proof (read_back_kept k st l r C) as K.
  assert (exists st', add py_str k r st = (Ok tt, st') /\
            get py_str k (name r) st' = Ok (Some (read_back k st r))) as H.
  { destruct k; unfold add, get, load, save, read_back in *;
      cbn [can_add] in C.
    - exact (mapping_add_get "mcpServers" ClaudeCodeHandler.load_entry
               ClaudeCodeHandler.server_config_of A_image
               claude_code_entry_inv claude_code_reload st l r L C).
    - destruct (writes_mapping st) eqn:W.
      + destruct C as [Cr Fl]. exact (cursor_add_get_mapping st l r L W Fl Cr).
      + destruct C as [Nr Sh]. exact (cursor_add_get_list st l r L W Sh Nr).
    - exact (vscode_add_get st l r L C).
    - exact (mapping_add_get "mcpServers" (GeminiCLIHandler.load_entry py_str)
               GeminiCLIHandler.server_config_of D_image
               (gemini_entry_inv py_str) (gemini_reload py_str) st l r L C).
    - destruct C as [Nr Enc]. exact (opencode_add_get st l r L Nr Enc). }
  destruct H as (st' & A & G). exists st'. auto.
Qed.

Lemma stdio_with_url_consistent : consistent stdio_with_url.
Proof. split; [reflexivity|discriminate]. Qed.

(** A valid server that kind E does not give back: [get] returns none after
    [add]. *)
Lemma opencode_add_then_get_none :
  consistent stdio_with_url /\
  exists st',
    add (fun _ => "") kind_E stdio_with_url None = (Ok tt, st') /\
    get (fun _ => "") kind_E (name stdio_with_url) st' = Ok None.
Proof.
  split; [exact stdio_with_url_consistent|].
  eexists. split; reflexivity.
Qed.

Lemma add_then_get_reads_back_witness :
  exists st',
    add (fun _ => "") kind_C sample_server sample_settings = (Ok tt, st') /\
    get (fun _ => "") kind_C (name sample_server) st'
    = Ok (Some (read_back kind_C sample_settings sample_server)) /\
    kept_fields kind_C sample_settings sample_server
      (read_back kind_C sample_settings sample_server).
Proof.
  apply (add_then_get_reads_back (fun _ => "") kind_C sample_settings []
           sample_server).
  - reflexivity.
  - split; [reflexivity|discriminate].
Defined.

(** ** Removing a server (C4) *)

Lemma cursor_loaded_shape (st : store) (l : list MCPServer) :
  CursorHandler.load_servers st = Ok l -> l <> [] ->
  exists d, st = Some (Json (JObj d)).
Proof.
  intros H N. apply with_config_ok in H.
  destruct H as [[_ ->]|(v & -> & H)]; [congruence|].
  destruct v; try discriminate; [| |eauto].
  - unfold CursorHandler._detect_config_format, CursorHandler.has in H.
    destruct (contains "mcpServers" s); [discriminate|].
    destruct (contains "servers" s); [discriminate|].
    simpl in H. congruence.
  - unfold CursorHandler._detect_config_format, CursorHandler.has in H.
    destruct (existsb (is_str "mcpServers") items); [discriminate|].
    destruct (existsb (is_str "servers") items); [discriminate|].
    simpl in H. congruence.
Qed.

Lemma cursor_save_load (st st' : store) (l recs : list MCPServer) :
  CursorHandler.load_servers st = Ok l -> l <> [] ->
  Forall (can_write kind_B st) recs -> NoDup (map name recs) ->
  CursorHandler.save_servers recs st = (Ok tt, st') ->
  exists l', CursorHandler.load_servers st' = Ok l' /\ length l' = length recs.
Proof.
  intros L Nl F N S. unfold can_write in F.
  destruct (writes_mapping st) eqn:W.
  - destruct (cursor_save_mapping st recs W) as (d & Sv & E).
    rewrite E in S. injection S as <-. rewrite (cursor_load_mapping _ _ Sv).
    rewrite (mapping_reads_all CursorHandler.load_claude_entry
               CursorHandler.claude_config_of D_image cursor_claude_reload
               recs F N).
    eexists. split; [reflexivity|apply length_map].
  - destruct (cursor_save_list st recs W) as (d & M & E).
    { right. exact (cursor_loaded_shape st l L Nl). }
    rewrite E in S. injection S as <-. rewrite (cursor_load_list _ _ M).
    rewrite (mapM_map_map _ CursorHandler.cursor_config_of B_list_image).
    + eexists. split; [reflexivity|apply length_map].
    + intros s I. apply cursor_list_reload. rewrite Forall_forall in F. auto.
Qed.

Lemma save_after_load (py_str : json -> string) (k : adapter) (st : store)
      (l recs : list MCPServer) :
  load py_str k st = Ok l -> l <> [] ->
  exists st', save k recs st = (Ok tt, st').
Proof.
  intros L N. destruct k; unfold load, save in *.
  - destruct (mapping_save_after_load "mcpServers" _
                ClaudeCodeHandler.server_config_of st l recs L) as [d E].
    eexists. exact E.
  - destruct (writes_mapping st) eqn:W.
    + destruct (cursor_save_mapping st recs W) as (d & _ & E). eauto.
    + destruct (cursor_save_list st recs W) as (d & _ & E); eauto.
      right. exact (cursor_loaded_shape st l L N).
  - destruct (vscode_save_after_load st l recs L) as (d & mcp & E). eauto.
  - destruct (mapping_save_after_load "mcpServers" _
                GeminiCLIHandler.server_config_of st l recs L) as [d E].
    eexists. exact E.
  - destruct (opencode_save_after_load st l recs L) as [d E]. eauto.
Qed.

Lemma save_load_count (py_str : json -> string) (k : adapter) (st st' : store)
      (l recs : list MCPServer) :
  load py_str k st = Ok l -> l <> [] ->
  Forall (can_write k st) recs -> NoDup (map name recs) ->
  save k recs st = (Ok tt, st') ->
  exists l', load py_str k st' = Ok l' /\ length l' = length recs.
Proof.
  intros L Nl F N S. destruct k; unfold load, save in *; unfold can_write in F.
  - exists (map A_image recs). split; [|apply length_map].
    exact (mapping_save_load "mcpServers" ClaudeCodeHandler.load_entry
             ClaudeCodeHandler.server_config_of A_image
             claude_code_reload st st' l recs L F N S).
  - exact (cursor_save_load st st' l recs L Nl F N S).
  - rewrite (vscode_save_load st st' l recs L F N S).
    eexists. split; [reflexivity|apply length_map].
  - exists (map D_image recs). split; [|apply length_map].
    exact (mapping_save_load "mcpServers" (GeminiCLIHandler.load_entry py_str)
             GeminiCLIHandler.server_config_of D_image
             (gemini_reload py_str) st st' l recs L F N S).
  - rewrite (opencode_save_load st st' l recs L).
    + eexists. split; [reflexivity|apply length_map].
    + eapply Forall_impl; [|exact F]. intros s [H _]. exact H.
    + eapply Forall_impl; [|exact F]. intros s [_ H]. exact H.
    + exact N.
    + exact S.
Qed.

Lemma NoDup_names_without (n : string) (l : list MCPServer) :
  NoDup (map name l) -> NoDup (map name (without n l)).
Proof.
  unfold without. induction l as [|s l IH]; simpl; intros N; [constructor|].
  inversion N as [|? ? Ni Nl]; subst.
  destruct (negb (name_is n s)); simpl; auto.
  constructor; auto. rewrite in_map_iff in *.
  intros (x & E & I). apply filter_In in I. apply Ni. exists x. tauto.
Qed.

Lemma count_name_distinct (n : string) (l : list MCPServer) :
  NoDup (map name l) -> count_name n l <= 1.
Proof.
  unfold count_name. induction l as [|s l IH]; simpl; intros N; [lia|].
  inversion N as [|? ? Ni Nl]; subst. specialize (IH Nl).
  unfold name_is at 1. destruct (String.eqb (name s) n) eqn:E; simpl; [|lia].
  apply String.eqb_eq in E. rewrite E in Ni.
  apply count_name_zero in Ni. unfold count_name in Ni. lia.
Qed.

(** C4, as the handlers have it.  For every kind: when the load fails,
    [remove] raises the same exception and writes nothing; when no loaded
    record has the name, it returns false and leaves the file as it is; when
    some loaded record has the name, it returns true and saves the loaded
    records without those of that name, as many fewer as carried the name.
    When the loaded names are distinct and the kind can write every loaded
    record, the file then loads with exactly one record fewer. *)
Theorem remove_filters_by_name (py_str : json -> string) (k : adapter)
        (n : string) (st : store) :
  (forall e, load py_str k st = Raise e ->
             remove py_str k n st = (Raise e, st)) /\
  (forall l, load py_str k st = Ok l -> count_name n l = 0 ->
             remove py_str k n st = (Ok false, st)) /\
  (forall l, load py_str k st = Ok l -> 1 <= count_name n l ->
     exists st',
       remove py_str k n st = (Ok true, st') /\
       save k (without n l) st = (Ok tt, st') /\
       length (without n l) + count_name n l = length l /\
       (NoDup (map name l) -> Forall (can_write k st) l ->
        exists l', load py_str k st' = Ok l' /\ length l' + 1 = length l)).
Proof.
  unfold remove, remove_server. repeat split.
  - intros e ->. reflexivity.
  - intros l -> Z. pose proof (length_without n l) as W.
    assert (Nat.ltb (length (without n l)) (length l) = false) as ->
      by (apply Nat.ltb_ge; lia).
    reflexivity.
  - intros l L C. pose proof (length_without n l) as W.
    assert (l <> []) as Nl.
    { intros ->. unfold count_name in C. simpl in C. lia. }
    destruct (save_after_load py_str k st l (without n l) L Nl) as [st' S].
    exists st'. rewrite L.
    assert (Nat.ltb (length (without n l)) (length l) = true) as ->
      by (apply Nat.ltb_lt; lia).
    rewrite S. repeat split; auto.
    intros N F.
    destruct (save_load_count py_str k st st' l (without n l) L Nl) as (l' & E & Len);
      auto.
    + rewrite Forall_forall in *. intros s I. apply without_names in I.
      apply F. tauto.
    + now apply NoDup_names_without.
    + exists l'. split; [exact E|].
      pose proof (count_name_distinct n l N). lia.
Qed.

(** A [remove] that returns true and leaves two records fewer: the name is
    loaded from both sub-formats of kind B. *)
Lemma cursor_remove_drops_two :
  exists st' l l',
    remove (fun _ => "") kind_B "fs" (Some (Json (JObj both_config)))
    = (Ok true, st') /\
    load (fun _ => "") kind_B (Some (Json (JObj both_config))) = Ok l /\
    load (fun _ => "") kind_B st' = Ok l' /\
    length l' + 1 <> length l.
Proof.
  do 3 eexists. split; [reflexivity|]. split; [reflexivity|].
  split; [reflexivity|]. discriminate.
Qed.

(* ================================================================== *)
(** * Further properties of the code *)

(** ** The server list of a [ClientConfig] *)

Lemma find_without_other (n n' : string) (l : list MCPServer) :
  n' <> n -> find (name_is n') (without n l) = find (name_is n') l.
Proof.
  intros N. unfold without. induction l as [|s l IH]; simpl; auto.
  destruct (name_is n s) eqn:E, (name_is n' s) eqn:E'; simpl;
    rewrite ?E'; auto.
  unfold name_is in E, E'. apply String.eqb_eq in E, E'. congruence.
Qed.

Lemma find_app_not_in (n : string) (l1 l2 : list MCPServer) :
  ~ In n (map name l1) ->
  find (name_is n) (l1 ++ l2) = find (name_is n) l2.
Proof.
  induction l1 as [|s l1 IH]; simpl; intros N; auto.
  unfold name_is at 1. destruct (String.eqb (name s) n) eqn:E.
  - apply String.eqb_eq in E. tauto.
  - apply IH. tauto.
Qed.

Lemma find_app_other (n : string) (l : list MCPServer) (s : MCPServer) :
  name s <> n -> find (name_is n) (l ++ [s]) = find (name_is n) l.
Proof.
  intros N. induction l as [|x l IH]; simpl.
  - unfold name_is. apply String.eqb_neq in N. now rewrite N.
  - destruct (name_is n x); auto.
Qed.

(** X1.  After [add_server] the configuration holds the server under its name,
    once; the servers of other names are found as before, and names that
    were distinct stay distinct. *)
Theorem client_config_add_server (server : MCPServer) (c : ClientConfig) :
  Client.get_server (name server) (Client.add_server server c) = Some server /\
  count_name (name server) (servers (Client.add_server server c)) = 1 /\
  (forall n, n <> name server ->
     Client.get_server n (Client.add_server server c) = Client.get_server n c) /\
  (NoDup (map name (servers c)) ->
   NoDup (map name (servers (Client.add_server server c)))).
Proof.
  unfold Client.get_server, Client.add_server; simpl. repeat split.
  - rewrite find_app_not_in by apply without_not_in. simpl.
    unfold name_is. now rewrite String.eqb_refl.
  - rewrite count_name_app.
    assert (count_name (name server) (without (name server) (servers c)) = 0)
      as -> by (apply count_name_zero, without_not_in).
    unfold count_name; simpl. unfold name_is. now rewrite String.eqb_refl.
  - intros n N. rewrite find_app_other by congruence.
    now apply find_without_other.
  - intros N. rewrite map_app. simpl.
    apply NoDup_app; [now apply NoDup_names_without|repeat constructor; auto|].
    intros x I [<-|[]]. exact (without_not_in _ _ I).
Qed.

(** X2.  [remove_server] answers whether a server of that name was there; after
    it none is, the servers of other names are found as before, and the list
    is shorter by the number of servers that had the name. *)
Theorem client_config_remove_server (n : string) (c : ClientConfig) :
  (fst (Client.remove_server n c) = true <-> In n (map name (servers c))) /\
  Client.get_server n (snd (Client.remove_server n c)) = None /\
  (forall n', n' <> n ->
     Client.get_server n' (snd (Client.remove_server n c))
     = Client.get_server n' c) /\
  length (servers (snd (Client.remove_server n c))) + count_name n (servers c)
  = length (servers c).
Proof.
  unfold Client.get_server, Client.remove_server; simpl.
  pose proof (length_without n (servers c)) as W.
  pose proof (count_name_zero n (servers c)) as Z. repeat split.
  - intros H. apply Nat.ltb_lt in H.
    destruct (in_dec string_dec n (map name (servers c))); auto.
    apply Z in n0. lia.
  - intros I. apply Nat.ltb_lt.
    assert (count_name n (servers c) <> 0) by tauto. lia.
  - apply find_name_None, without_not_in.
  - intros n' N. now apply find_without_other.
  - exact W.
Qed.

(** ** What [validate_config] accepts *)

Lemma forallb_by_name (enc : MCPServer -> option (dict json))
      (ok : json -> bool) (recs : list MCPServer) :
  (forall s c, enc s = Some c -> ok (JObj c) = true) ->
  forallb (fun e => ok (snd e)) (by_name enc recs) = true.
Proof.
  intros H. apply forallb_forall. intros [k v] I. apply by_name_In in I.
  destruct I as (s & c & _ & E & [= _ ->]). simpl. eauto.
Qed.

Lemma claude_code_entry_valid (s : MCPServer) :
  valid_mapping_entry (JObj (ClaudeCodeHandler.server_config_of s)) = true.
Proof.
  unfold ClaudeCodeHandler.server_config_of, set_if.
  destruct (str_truthy (url s)), (not_stdio s); reflexivity.
Qed.

Lemma cursor_claude_entry_valid (s : MCPServer) :
  valid_mapping_entry (JObj (CursorHandler.claude_config_of s)) = true.
Proof.
  unfold CursorHandler.claude_config_of, set_if.
  destruct (negb (enabled s)), (str_truthy (url s)), (not_stdio s); reflexivity.
Qed.

Lemma vscode_entry_valid (s : MCPServer) :
  valid_mapping_entry (JObj (VSCodeHandler.server_config_of s)) = true.
Proof.
  unfold VSCodeHandler.server_config_of, set_if.
  destruct (str_truthy (url s)), (not_stdio s), (env s); reflexivity.
Qed.

Lemma gemini_entry_valid (s : MCPServer) :
  GeminiCLIHandler.valid_entry (JObj (GeminiCLIHandler.server_config_of s)) = true.
Proof.
  unfold GeminiCLIHandler.server_config_of, set_if.
  destruct (str_truthy (url s)), (not_stdio s),
    (MCPServerType_eqb (server_type s) HTTP); reflexivity.
Qed.

Lemma opencode_entry_valid (s : MCPServer) (c : dict json) :
  OpenCodeHandler.server_config_of s = Some c ->
  OpenCodeHandler.valid_entry (JObj c) = true.
Proof.
  unfold OpenCodeHandler.server_config_of, set_if.
  destruct (MCPServerType_eqb (server_type s) STDIO
            && negb (String.eqb (command s) "")).
  - intros [= <-]. destruct (env s); reflexivity.
  - destruct (OpenCodeHandler.is_remote_type s && str_truthy (url s)) eqn:R;
      [|discriminate].
    intros [= <-]. apply andb_true_iff in R. destruct R as [_ U].
    unfold url_text. destruct (url s) as [u|]; [|discriminate].
    simpl in U. unfold OpenCodeHandler.valid_entry.
    cbn -[String.eqb]. cbn. now rewrite U.
Qed.

Lemma cursor_list_entry_valid (s : MCPServer) :
  CursorHandler.valid_cursor_entry (CursorHandler.cursor_config_of s) = true.
Proof.
  unfold CursorHandler.cursor_config_of, CursorHandler.cursor_type.
  destruct (server_type s); reflexivity.
Qed.

(** What a save that succeeded wrote, for each kind. *)
Lemma mapping_save_ok (key : string) (enc : MCPServer -> dict json)
      (recs : list MCPServer) (st : store) :
  fst (mapping_save key enc recs st) = Ok tt ->
  exists d,
    mapping_save key enc recs st
    = (Ok tt, Some (Json (JObj (dict_set key
                 (JObj (by_name (fun s => Some (enc s)) recs)) d)))).
Proof.
  unfold mapping_save. destruct (existing_or (JObj []) st); try discriminate.
  intros _. eexists. reflexivity.
Qed.

Lemma vscode_save_ok (recs : list MCPServer) (st : store) :
  fst (VSCodeHandler.save_servers recs st) = Ok tt ->
  exists d mcp,
    VSCodeHandler.save_servers recs st
    = (Ok tt,
       Some (Json (JObj (dict_set "mcp"
          (JObj (dict_set "servers"
                   (JObj (by_name (fun s => Some (VSCodeHandler.server_config_of s))
                            recs)) mcp)) d)))).
Proof.
  unfold VSCodeHandler.save_servers.
  destruct (existing_or (JObj []) st); try discriminate.
  destruct (dict_get "mcp" (VSCodeHandler.ensure_mcp members)) as [[]|];
    try discriminate.
  intros _. do 2 eexists. reflexivity.
Qed.

Lemma opencode_save_ok (recs : list MCPServer) (st : store) :
  fst (OpenCodeHandler.save_servers recs st) = Ok tt ->
  exists d,
    OpenCodeHandler.save_servers recs st
    = (Ok tt, Some (Json (JObj (dict_set "mcp"
                 (JObj (by_name OpenCodeHandler.server_config_of recs)) d)))).
Proof.
  unfold OpenCodeHandler.save_servers.
  destruct (existing_or (JObj []) st); try discriminate.
  intros _. eexists. reflexivity.
Qed.

Lemma cursor_save_needs_object (recs : list MCPServer) (v : json) :
  fst (CursorHandler.save_servers recs (Some (Json v))) = Ok tt ->
  exists d, v = JObj d.
Proof.
  unfold CursorHandler.save_servers, CursorHandler.existing,
    CursorHandler._detect_config_format, CursorHandler.has.
  destruct v; cbn [bind fst]; try discriminate; eauto;
    repeat match goal with
      | |- context [if ?b then _ else _] => destruct b; cbn [bind fst]
      end; discriminate.
Qed.

Lemma cursor_save_ok (recs : list MCPServer) (st : store) :
  fst (CursorHandler.save_servers recs st) = Ok tt ->
  exists d,
    (writes_mapping st = true /\
     truthy (get_or "servers" (JBool false) d) = false /\
     CursorHandler.save_servers recs st
     = (Ok tt,
        Some (Json (JObj (dict_set "mcpServers"
           (JObj (by_name (fun s => Some (CursorHandler.claude_config_of s)) recs))
           d)))))
    \/
    (writes_mapping st = false /\
     truthy (get_or "mcpServers" (JBool false) d) = false /\
     CursorHandler.save_servers recs st
     = (Ok tt,
        Some (Json (JObj (dict_set "servers"
           (JArr (map CursorHandler.cursor_config_of recs)) d))))).
Proof.
  intros H. destruct (writes_mapping st) eqn:W.
  - destruct (cursor_save_mapping st recs W) as (d & S & E). exists d. now left.
  - assert (exists d, truthy (get_or "mcpServers" (JBool false) d) = false /\
              CursorHandler.save_servers recs st
              = (Ok tt,
                 Some (Json (JObj (dict_set "servers"
                    (JArr (map CursorHandler.cursor_config_of recs)) d)))))
      as (d & M & E).
    { destruct st as [[raw|v]|].
      - exists [("version", JStr "1.0")]. split; reflexivity.
      - apply cursor_save_list; [exact W|]. right.
        destruct (cursor_save_needs_object recs v H) as [d ->]. eauto.
      - apply cursor_save_list; [exact W|]. now left. }
    exists d. now right.
Qed.

(** X3.  Whatever [save_servers] writes, [validate_config] accepts: for every
    kind, a save that succeeds leaves a file for which the kind's own
    validation returns true. *)
Theorem saved_config_validates (k : adapter) (recs : list MCPServer)
        (st : store) :
  fst (save k recs st) = Ok tt ->
  validate k (snd (save k recs st)) = Ok true.
Proof.
  intros H. destruct k; unfold save, validate in *.
  - destruct (mapping_save_ok "mcpServers" _ recs st H) as [d E].
    change ClaudeCodeHandler.save_servers
      with (mapping_save "mcpServers" ClaudeCodeHandler.server_config_of).
    rewrite E. unfold ClaudeCodeHandler.validate_config, validating, snd, py_get.
    rewrite get_or_set_same. cbn [bind valid_mapping]. f_equal.
    apply forallb_by_name. intros s c [= <-]. apply claude_code_entry_valid.
  - destruct (cursor_save_ok recs st H) as [d [(_ & S & E)|(_ & M & E)]];
      rewrite E; unfold CursorHandler.validate_config, validating, snd;
      rewrite cursor_detect_obj.
    + rewrite get_or_set_same, (get_or_set_other "mcpServers" "servers")
        by discriminate.
      rewrite S, andb_false_r. cbn [bind].
      destruct (truthy (JObj _)); [|reflexivity].
      unfold CursorHandler._validate_claude_format, py_get.
      rewrite get_or_set_same. cbn [bind valid_mapping]. f_equal.
      apply forallb_by_name. intros s c [= <-]. apply cursor_claude_entry_valid.
    + rewrite get_or_set_same, (get_or_set_other "servers" "mcpServers")
        by discriminate.
      rewrite M. cbn [bind andb].
      destruct (truthy (JArr _)); [|reflexivity].
      unfold CursorHandler._validate_cursor_format, py_get.
      rewrite get_or_set_same. cbn [bind]. f_equal.
      apply forallb_forall. intros e I. apply in_map_iff in I.
      destruct I as (s & <- & _). apply cursor_list_entry_valid.
  - destruct (vscode_save_ok recs st H) as (d & mcp & E). rewrite E.
    unfold VSCodeHandler.validate_config, validating, snd, py_get.
    rewrite get_or_set_same. cbn [bind is_dict negb].
    rewrite get_or_set_same. cbn [valid_mapping]. f_equal.
    apply forallb_by_name. intros s c [= <-]. apply vscode_entry_valid.
  - destruct (mapping_save_ok "mcpServers" _ recs st H) as [d E].
    change GeminiCLIHandler.save_servers
      with (mapping_save "mcpServers" GeminiCLIHandler.server_config_of).
    rewrite E. unfold GeminiCLIHandler.validate_config, validating, snd.
    rewrite get_or_set_same. f_equal.
    apply forallb_by_name. intros s c [= <-]. apply gemini_entry_valid.
  - destruct (opencode_save_ok recs st H) as [d E]. rewrite E.
    unfold OpenCodeHandler.validate_config, validating, snd, py_get.
    rewrite get_or_set_same. cbn [bind]. f_equal.
    apply forallb_by_name. exact opencode_entry_valid.
Qed.

Lemma saved_config_validates_witness :
  validate kind_C (snd (save kind_C [sample_server] sample_settings)) = Ok true.
Proof.
  apply (saved_config_validates kind_C [sample_server] sample_settings).
  reflexivity.
Defined.

(** ** What a validated file can still do to [load_servers] *)

Lemma init_raises (kw : kwargs) (e : exn) :
  MCPServer_init kw = Raise e -> e = PydanticValidationError.
Proof.
  unfold MCPServer_init.
  destruct (field_name kw), (as_str (kw_command kw)),
    (as_list_str (or_default (kw_args kw) (JArr []))),
    (as_dict_str (or_default (kw_env kw) (JObj []))),
    (field_url kw), (as_bool (or_default (kw_enabled kw) (JBool true))),
    (field_description kw);
    intros [= <-] || discriminate; reflexivity.
Qed.

Lemma mapM_raises {A B} (f : A -> result B) (P : exn -> Prop)
      (l : list A) (e : exn) :
  (forall a e, In a l -> f a = Raise e -> P e) ->
  mapM f l = Raise e -> P e.
Proof.
  induction l as [|a l IH]; intros H; simpl; [discriminate|].
  destruct (f a) eqn:Fa; simpl.
  - destruct (mapM f l); simpl; [discriminate|].
    intros [= <-]. apply IH; [|reflexivity]. intros; eapply H; eauto. now right.
  - intros [= <-]. eapply H; [now left|eassumption].
Qed.

Lemma collectM_raises {A B} (f : A -> result (option B)) (P : exn -> Prop)
      (l : list A) (e : exn) :
  (forall a e, In a l -> f a = Raise e -> P e) ->
  collectM f l = Raise e -> P e.
Proof.
  induction l as [|a l IH]; intros H; simpl; [discriminate|].
  destruct (f a) eqn:Fa; simpl.
  - destruct (collectM f l); simpl; [discriminate|].
    intros [= <-]. apply IH; [|reflexivity]. intros; eapply H; eauto. now right.
  - intros [= <-]. eapply H; [now left|eassumption].
Qed.

Lemma claude_code_valid_entry_raises (entry : string * json) (e : exn) :
  valid_mapping_entry (snd entry) = true ->
  ClaudeCodeHandler.load_entry entry = Raise e -> e = PydanticValidationError.
Proof.
  destruct entry as [n [| | | | | |sc]]; try discriminate. intros _.
  unfold ClaudeCodeHandler.load_entry, py_get. cbn [bind]. apply init_raises.
Qed.

Lemma vscode_valid_entry_raises (entry : string * json) (e : exn) :
  valid_mapping_entry (snd entry) = true ->
  VSCodeHandler.load_entry entry = Raise e -> e = PydanticValidationError.
Proof.
  destruct entry as [n [| | | | | |sc]]; try discriminate. intros _.
  unfold VSCodeHandler.load_entry, py_get. cbn [bind]. apply init_raises.
Qed.

Lemma gemini_valid_entry_raises (py_str : json -> string)
      (entry : string * json) (e : exn) :
  GeminiCLIHandler.valid_entry (snd entry) = true ->
  GeminiCLIHandler.load_entry py_str entry = Raise e ->
  e = PydanticValidationError.
Proof.
  destruct entry as [n [| | | | | |sc]]; try discriminate. intros _.
  unfold GeminiCLIHandler.load_entry, py_get. cbn [bind]. apply init_raises.
Qed.

Lemma bind_init_raises {B} (kw : kwargs) (k : MCPServer -> result B) (e : exn) :
  (forall s, k s <> Raise e) ->
  (s <- MCPServer_init kw ;; k s) = Raise e -> e = PydanticValidationError.
Proof.
  intros K. destruct (MCPServer_init kw) eqn:I; simpl.
  - intros H. now apply K in H.
  - intros [= <-]. eapply init_raises; eassumption.
Qed.

Lemma opencode_valid_entry_raises (entry : string * json) (e : exn) :
  OpenCodeHandler.valid_entry (snd entry) = true ->
  OpenCodeHandler.load_entry entry = Raise e -> e = PydanticValidationError.
Proof.
  destruct entry as [n [| | | | | |sc]]; try discriminate.
  unfold OpenCodeHandler.valid_entry, OpenCodeHandler.load_entry, snd, get_or.
  destruct (dict_get "type" sc) as [ty|]; [|discriminate].
  destruct (is_str "local" ty) eqn:L; cbn [orb negb].
  - destruct (dict_get "command" sc) as [[| | | | |[|x rest]|]|];
      try discriminate.
    intros _. cbn [truthy negb OpenCodeHandler.head_and_rest bind].
    apply bind_init_raises. discriminate.
  - destruct (is_str "remote" ty); cbn [negb]; [|discriminate].
    destruct (dict_get "url" sc) as [[| | | |u| |]|]; try discriminate.
    cbn [is_string andb OpenCodeHandler.plain_http bind].
    destruct (truthy (JStr u)); [|discriminate]. intros _. cbn [negb].
    apply bind_init_raises. discriminate.
Qed.

Lemma forallb_In {A} (f : A -> bool) (l : list A) (a : A) :
  forallb f l = true -> In a l -> f a = true.
Proof. intros H I. now apply (proj1 (forallb_forall f l) H). Qed.

(** X4.  A file that [validate_config] accepts can make [load_servers] fail in
    one way only: for the kinds whose validation looks at every entry of the
    mapping (A, C, D and E), the only exception loading a validated file
    can raise is pydantic's ValidationError, from the construction of a
    record. *)
Theorem validated_config_load_raises_only_validation
        (py_str : json -> string) (k : adapter) (st : store) (e : exn) :
  k <> kind_B ->
  validate k st = Ok true ->
  load py_str k st = Raise e ->
  e = PydanticValidationError.
Proof.
  intros NB V L. destruct k; try congruence; clear NB;
    unfold validate, load in *;
    destruct st as [[raw|v]|]; try discriminate.
  - unfold ClaudeCodeHandler.validate_config, ClaudeCodeHandler.load_servers,
      validating, with_config in *.
    destruct v; try discriminate. unfold py_get in *. cbn [bind] in *.
    destruct (get_or "mcpServers" (JObj []) members) as [| | | | | |m];
      try discriminate.
    injection V as V. cbn [py_items bind valid_mapping] in *.
    revert L. apply (mapM_raises _ (fun x => x = PydanticValidationError)). intros a e' I.
    apply claude_code_valid_entry_raises.
    exact (forallb_In _ _ _ V I).
  - unfold VSCodeHandler.validate_config, VSCodeHandler.load_servers,
      validating, with_config in *.
    destruct v; try discriminate. unfold py_get in *. cbn [bind] in *.
    destruct (get_or "mcp" (JObj []) members) as [| | | | | |mcp];
      try discriminate.
    cbn [is_dict negb bind] in *.
    destruct (get_or "servers" (JObj []) mcp) as [| | | | | |m];
      try discriminate.
    injection V as V. cbn [py_items bind valid_mapping] in *.
    revert L. apply (mapM_raises _ (fun x => x = PydanticValidationError)). intros a e' I.
    apply vscode_valid_entry_raises.
    exact (forallb_In _ _ _ V I).
  - unfold GeminiCLIHandler.validate_config, GeminiCLIHandler.load_servers,
      validating, with_config in *.
    destruct v; try discriminate. unfold py_get in *. cbn [bind] in *.
    destruct (get_or "mcpServers" (JObj []) members) as [| | | | | |m];
      try discriminate.
    injection V as V. cbn [py_items bind] in *.
    revert L. apply (mapM_raises _ (fun x => x = PydanticValidationError)). intros a e' I.
    apply gemini_valid_entry_raises.
    exact (forallb_In _ _ _ V I).
  - unfold OpenCodeHandler.validate_config, OpenCodeHandler.load_servers,
      validating, with_config in *.
    destruct v; try discriminate. unfold py_get in *. cbn [bind] in *.
    destruct (get_or "mcp" (JObj []) members) as [| | | | | |m];
      try discriminate.
    injection V as V. cbn [py_items bind] in *.
    revert L. apply (collectM_raises _ (fun x => x = PydanticValidationError)). intros a e' I.
    apply opencode_valid_entry_raises.
    exact (forallb_In _ _ _ V I).
Qed.

Lemma validated_config_load_raises_only_validation_witness :
  validate kind_A entry_with_bad_name = Ok true /\
  load (fun _ => "") kind_A entry_with_bad_name
  = Raise PydanticValidationError.
Proof.
  split; [reflexivity|].
  destruct (load (fun _ => "") kind_A entry_with_bad_name) as [l|e] eqn:L;
    [vm_compute in L; discriminate|].
  f_equal.
  apply (validated_config_load_raises_only_validation
           (fun _ => "") kind_A entry_with_bad_name e);
    [discriminate|reflexivity|exact L].
Defined.

(** ** Saving a list and loading it again *)

Lemma save_load_all (py_str : json -> string) (k : adapter)
      (st : store) (recs : list MCPServer) :
  fst (save k recs st) = Ok tt ->
  Forall (can_write k st) recs ->
  NoDup (map name recs) ->
  load py_str k (snd (save k recs st)) = Ok (map (read_back k st) recs).
Proof.
  intros H F N.
  destruct k; unfold save, load, read_back in *; unfold can_write in F.
  - destruct (mapping_save_ok "mcpServers" _ recs st H) as [d E].
    change ClaudeCodeHandler.save_servers
      with (mapping_save "mcpServers" ClaudeCodeHandler.server_config_of).
    rewrite E. cbn [snd].
    exact (eq_trans
             (mapping_load_saved "mcpServers" ClaudeCodeHandler.load_entry _ d)
             (mapping_reads_all ClaudeCodeHandler.load_entry
                ClaudeCodeHandler.server_config_of A_image claude_code_reload
                recs F N)).
  - destruct (cursor_save_ok recs st H) as [d [(W & S & E)|(W & M & E)]];
      rewrite E; rewrite W in *; cbn [snd].
    + rewrite (cursor_load_mapping _ _ S).
      exact (mapping_reads_all CursorHandler.load_claude_entry
               CursorHandler.claude_config_of D_image cursor_claude_reload
               recs F N).
    + rewrite (cursor_load_list _ _ M).
      apply mapM_map_map. intros s I. apply cursor_list_reload.
      rewrite Forall_forall in F. auto.
  - destruct (vscode_save_ok recs st H) as (d & mcp & E). rewrite E. cbn [snd].
    rewrite vscode_load_saved.
    exact (mapping_reads_all VSCodeHandler.load_entry
             VSCodeHandler.server_config_of C_image vscode_reload recs F N).
  - destruct (mapping_save_ok "mcpServers" _ recs st H) as [d E].
    change GeminiCLIHandler.save_servers
      with (mapping_save "mcpServers" GeminiCLIHandler.server_config_of).
    rewrite E. cbn [snd].
    exact (eq_trans
             (mapping_load_saved "mcpServers"
                (GeminiCLIHandler.load_entry py_str) _ d)
             (mapping_reads_all (GeminiCLIHandler.load_entry py_str)
                GeminiCLIHandler.server_config_of D_image
                (gemini_reload py_str) recs F N)).
  - destruct (opencode_save_ok recs st H) as [d E]. rewrite E. cbn [snd].
    assert (Forall named recs) as Fn.
    { eapply Forall_impl; [|exact F]. now intros s [Ns _]. }
    assert (Forall (fun s => OpenCodeHandler.server_config_of s <> None) recs)
      as Enc.
    { eapply Forall_impl; [|exact F]. now intros s [_ Es]. }
    destruct (opencode_load_saved recs d Fn) as (bs & -> & Cb). rewrite <- Cb.
    rewrite (by_name_ext _ (fun s => Some (opencode_entry s))).
    2:{ intros s I. rewrite Forall_forall in Enc. specialize (Enc s I).
        unfold opencode_entry.
        destruct (OpenCodeHandler.server_config_of s); [reflexivity|congruence]. }
    rewrite by_name_distinct by exact N.
    apply collectM_map. intros s I. rewrite Forall_forall in Fn, Enc.
    apply opencode_reload_entry; auto.
Qed.


(** ** A file whose JSON is not an object *)

(** X5.  A configuration file that parses to something other than an object (a
    list, a string, a number) is not reported as invalid by kinds A, C and
    E: their [validate_config] calls the dictionary's lookup on the parsed
    value and so raises AttributeError, which its try block does not catch.
    Kind D checks the type first and returns false.  [load_servers] raises
    AttributeError on such a file for all four kinds. *)
Theorem non_object_config_is_not_reported_invalid
        (py_str : json -> string) (v : json) :
  is_dict v = false ->
  validate kind_A (Some (Json v)) = Raise AttributeError /\
  validate kind_C (Some (Json v)) = Raise AttributeError /\
  validate kind_E (Some (Json v)) = Raise AttributeError /\
  validate kind_D (Some (Json v)) = Ok false /\
  (forall k, k <> kind_B ->
     load py_str k (Some (Json v)) = Raise AttributeError).
Proof.
  intros D. destruct v; try discriminate;
    (repeat split; try reflexivity; intros []; congruence || reflexivity).
Qed.

Lemma non_object_config_is_not_reported_invalid_witness :
  validate kind_A (Some (Json (JArr []))) = Raise AttributeError /\
  validate kind_D (Some (Json (JArr []))) = Ok false.
Proof.
  destruct (non_object_config_is_not_reported_invalid
              (fun _ => "") (JArr []) eq_refl) as (A & _ & _ & D & _).
  split; [exact A|exact D].
Defined.

(** ** Backups *)

(** X6.  [backup_config] without a configuration file raises ClientHandlerError
    and writes nothing.  When it returns a path, that path is not the
    configuration's own, it is the path the caller gave if there was one,
    the file there is a copy of the configuration, and every other file,
    the configuration included, is as before. *)
Theorem backup_copies_the_config (k : adapter) (timestamp config_path : string)
        (backup_path : option string) (fs : fsys) :
  (fs config_path = None ->
   backup k timestamp config_path backup_path fs
   = (Raise ClientHandlerError, fs)) /\
  (forall p fs',
     backup k timestamp config_path backup_path fs = (Ok p, fs') ->
     p <> config_path /\
     (forall b, backup_path = Some b -> p = b) /\
     fs' p = fs config_path /\ fs' p <> None /\
     forall q, q <> p -> fs' q = fs q).
Proof.
  split.
  - intros N. destruct k; unfold backup;
      cbv [ClaudeCodeHandler.backup_config CursorHandler.backup_config
           VSCodeHandler.backup_config GeminiCLIHandler.backup_config
           OpenCodeHandler.backup_config backup_config_with];
      now rewrite N.
  - intros p fs' H.
    assert (exists filename,
              backup k timestamp config_path backup_path fs
              = backup_config_with filename config_path backup_path fs)
      as [filename E] by (destruct k; eexists; reflexivity).
    rewrite E in H. clear E. unfold backup_config_with in H.
    destruct (fs config_path) as [f|] eqn:C; [|discriminate].
    destruct (String.eqb config_path _) eqn:Q in H; [discriminate|].
    injection H as <- <-. apply String.eqb_neq in Q.
    split; [congruence|]. split; [now intros b ->|].
    unfold fs_write. rewrite String.eqb_refl.
    split; [reflexivity|]. split; [discriminate|].
    intros q Nq. apply String.eqb_neq in Nq. now rewrite Nq.
Qed.

(** X7.  A backup brings the configuration back.  If [backup_config] returned a
    path for a configuration file that holds JSON, then, whatever was
    written since to files other than that backup, [restore_config] from the
    path succeeds and leaves the configuration as it was when the backup was
    taken, all other files untouched.  A configuration that is not JSON can
    be backed up as well, but [restore_config] refuses that backup and
    changes nothing. *)
Theorem backup_then_restore (k : adapter) (timestamp config_path : string)
        (backup_path : option string) (fs fs1 fs2 : fsys) (f : file)
        (p : string) :
  fs config_path = Some f ->
  backup k timestamp config_path backup_path fs = (Ok p, fs1) ->
  fs2 p = fs1 p ->
  restore k config_path p fs2
  = match f with
    | Json _ => (Ok tt, fs_write config_path f fs2)
    | Text _ => (Raise (invalid_backup k), fs2)
    end.
Proof.
  intros C B Keep.
  assert (exists filename,
            backup k timestamp config_path backup_path fs
            = backup_config_with filename config_path backup_path fs)
    as [filename E] by (destruct k; eexists; reflexivity).
  rewrite E in B. clear E. unfold backup_config_with in B. rewrite C in B.
  destruct (String.eqb config_path _) eqn:Q in B; [discriminate|].
  injection B as <- <-.
  unfold fs_write in Keep. rewrite String.eqb_refl in Keep.
  rewrite String.eqb_sym in Q.
  destruct k; unfold restore;
    cbv [ClaudeCodeHandler.restore_config CursorHandler.restore_config
         VSCodeHandler.restore_config GeminiCLIHandler.restore_config
         OpenCodeHandler.restore_config restore_config_with invalid_backup];
    rewrite Keep; destruct f; try reflexivity; now rewrite Q.
Qed.

Lemma backup_then_restore_witness :
  fst (backup kind_A "20240101_120000" "/home/u/.claude.json" None
         fs_one_config)
  = Ok "/home/u/backups/claude_code_config_backup_20240101_120000.json" /\
  restore kind_A "/home/u/.claude.json"
    "/home/u/backups/claude_code_config_backup_20240101_120000.json"
    (fs_write "/home/u/.claude.json" (Text "{")
       (snd (backup kind_A "20240101_120000" "/home/u/.claude.json" None
               fs_one_config)))
  = (Ok tt,
     fs_write "/home/u/.claude.json" (Json (JObj [("mcpServers", JObj [])]))
       (fs_write "/home/u/.claude.json" (Text "{")
          (snd (backup kind_A "20240101_120000" "/home/u/.claude.json" None
                  fs_one_config)))).
Proof.
  split; [reflexivity|].
  apply (backup_then_restore kind_A "20240101_120000" "/home/u/.claude.json"
           None fs_one_config
           (snd (backup kind_A "20240101_120000" "/home/u/.claude.json" None
                   fs_one_config))
           _ (Json (JObj [("mcpServers", JObj [])]))
           "/home/u/backups/claude_code_config_backup_20240101_120000.json");
    reflexivity.
Defined.

(** ** The format of a kind-B file after a save *)

Lemma by_name_truthy (enc : MCPServer -> dict json) (recs : list MCPServer) :
  recs <> [] ->
  truthy (JObj (by_name (fun s => Some (enc s)) recs)) = true.
Proof.
  intros N. destruct (exists_last N) as (l & r & ->).
  pose proof (by_name_snoc (fun s => Some (enc s)) l r (enc r) eq_refl) as H.
  destruct (by_name _ _); [discriminate|reflexivity].
Qed.

(** X8.  After a successful [save_servers], kind B's [get_config_format] never
    answers [both]: it is the mapping format when the file had a non-empty
    ["mcpServers"] before, the list format otherwise, and [none] when the
    saved list is empty.  So a save of no servers into a mapping-format
    file makes the next save write the list format. *)
Theorem cursor_format_after_save (recs : list MCPServer) (st : store) :
  fst (CursorHandler.save_servers recs st) = Ok tt ->
  CursorHandler.get_config_format (snd (CursorHandler.save_servers recs st))
  = Ok (match recs with
        | [] => CursorHandler.none
        | _ :: _ => if writes_mapping st then CursorHandler.claude
                    else CursorHandler.cursor
        end)
  /\ writes_mapping (snd (CursorHandler.save_servers recs st))
     = writes_mapping st && match recs with [] => false | _ :: _ => true end.
Proof.
  intros H.
  destruct (cursor_save_ok recs st H) as [d [(W & S & E)|(W & M & E)]];
    rewrite E, W; unfold CursorHandler.get_config_format, writes_mapping, snd;
    rewrite cursor_detect_obj.
  - rewrite get_or_set_same, (get_or_set_other "mcpServers" "servers")
      by discriminate.
    rewrite S, andb_false_r.
    destruct recs as [|r recs]; [split; reflexivity|].
    now rewrite by_name_truthy by discriminate.
  - rewrite get_or_set_same, (get_or_set_other "servers" "mcpServers")
      by discriminate.
    rewrite M. destruct recs; split; reflexivity.
Qed.

Lemma cursor_format_after_save_witness :
  CursorHandler.get_config_format
    (snd (CursorHandler.save_servers [] (Some (Json (JObj both_config)))))
  = Ok CursorHandler.none /\
  writes_mapping (snd (CursorHandler.save_servers [] (Some (Json (JObj both_config))))) = false.
Proof.
  apply (cursor_format_after_save [] (Some (Json (JObj both_config)))). reflexivity.
Defined.

(** ** The registry *)

Lemma ClientType_eqb_eq (a b : ClientType) :
  ClientRegistry.ClientType_eqb a b = true <-> a = b.
Proof. destruct a, b; split; (reflexivity || discriminate). Qed.

Lemma ClientType_eqb_refl (a : ClientType) :
  ClientRegistry.ClientType_eqb a a = true.
Proof. now apply ClientType_eqb_eq. Qed.

Lemma ClientType_eqb_neq (a b : ClientType) :
  ClientRegistry.ClientType_eqb a b = false <-> a <> b.
Proof.
  destruct (ClientRegistry.ClientType_eqb a b) eqn:E.
  - apply ClientType_eqb_eq in E. split; [discriminate|congruence].
  - split; [|reflexivity]. intros _ H. apply ClientType_eqb_eq in H. congruence.
Qed.

(** X9.  After discovery the registry answers for a client type exactly what
    the discovery of that type found: [get_client] returns the discovered
    configuration, and fails with ClientNotFoundError when nothing was
    found.  The configurations of [get_available_clients] come in the order
    of the enumeration, one per type at most, each marked available, of the
    type it is registered under and with no servers loaded. *)
Theorem registry_holds_what_discovery_found (h : host) :
  (forall t, ClientRegistry.get_client t (ClientRegistry._discover_clients h)
             = ClientRegistry._discover_client h t) /\
  (forall t, ClientRegistry.is_client_available t
               (ClientRegistry._discover_clients h) = true
             <-> ClientRegistry._discover_client h t <> None) /\
  (exists keep,
     map client_type (ClientRegistry.get_available_clients h)
     = filter keep ClientType_members) /\
  NoDup (map client_type (ClientRegistry.get_available_clients h)) /\
  (forall c, In c (ClientRegistry.get_available_clients h) ->
             is_available c = true /\ servers c = [] /\
             ClientRegistry._discover_client h (client_type c) = Some c).
Proof.
  assert (forall t, ClientRegistry.get_client t (ClientRegistry._discover_clients h)
                    = ClientRegistry._discover_client h t) as G.
  { intros t.
    cbv [ClientRegistry.get_client ClientRegistry._discover_clients
         ClientType_members flat_map].
    destruct t;
      destruct (ClientRegistry._discover_client h CLAUDE_CODE),
        (ClientRegistry._discover_client h CLAUDE_DESKTOP),
        (ClientRegistry._discover_client h CURSOR),
        (ClientRegistry._discover_client h VSCODE); reflexivity. }
  assert (forall t c, ClientRegistry._discover_client h t = Some c ->
                      is_available c = true /\ servers c = []) as A.
  { intros t c.
    destruct t;
      cbv [ClientRegistry._discover_client ClientRegistry._discover_claude_code
           ClientRegistry._discover_claude_desktop
           ClientRegistry._discover_cursor
           ClientRegistry._discover_vscode ClientRegistry.found];
      repeat match goal with
        | |- (if ?b then _ else _) = _ -> _ => destruct b
        end;
      (discriminate || (intros [= <-]; split; reflexivity)). }
  assert (map client_type (ClientRegistry.get_available_clients h)
          = filter (fun t => match ClientRegistry._discover_client h t with
                             | Some _ => true | None => false end)
              ClientType_members) as M.
  { cbv [ClientRegistry.get_available_clients ClientRegistry._discover_clients
         ClientType_members flat_map filter].
    destruct (ClientRegistry._discover_client h CLAUDE_CODE) as [c1|] eqn:D1,
      (ClientRegistry._discover_client h CLAUDE_DESKTOP) as [c2|] eqn:D2,
      (ClientRegistry._discover_client h CURSOR) as [c3|] eqn:D3,
      (ClientRegistry._discover_client h VSCODE) as [c4|] eqn:D4;
      cbn [map app snd];
      repeat match goal with
        | D : ClientRegistry._discover_client h _ = Some _ |- _ =>
            rewrite (discover_client_type _ _ _ D); clear D
        end; reflexivity. }
  split; [exact G|]. split.
  - intros t. unfold ClientRegistry.is_client_available.
    change (ClientRegistry.lookup t (ClientRegistry._discover_clients h))
      with (ClientRegistry.get_client t (ClientRegistry._discover_clients h)).
    rewrite G. destruct (ClientRegistry._discover_client h t);
      split; congruence.
  - split; [eexists; exact M|]. split.
    + rewrite M. apply NoDup_filter.
      repeat constructor; simpl; intuition discriminate.
    + intros c I. unfold ClientRegistry.get_available_clients in I.
      apply in_map_iff in I. destruct I as ([t c'] & <- & I). simpl.
      unfold ClientRegistry._discover_clients in I. rewrite in_flat_map in I.
      destruct I as (t' & _ & I).
      destruct (ClientRegistry._discover_client h t') as [c''|] eqn:D;
        simpl in I; [|destruct I].
      destruct I as [[= <- <-]|[]].
      rewrite (discover_client_type _ _ _ D).
      destruct (A _ _ D) as [Av Sv]. auto.
Qed.

Lemma lookup_assign_same (t : ClientType) (c : ClientConfig)
      (cs : ClientRegistry.clients) :
  ClientRegistry.lookup t (ClientRegistry.assign t c cs) = Some c.
Proof.
  induction cs as [|[t' c'] cs IH]; simpl.
  - now rewrite ClientType_eqb_refl.
  - destruct (ClientRegistry.ClientType_eqb t' t) eqn:E; simpl; now rewrite E.
Qed.

Lemma lookup_assign_other (t u : ClientType) (c : ClientConfig)
      (cs : ClientRegistry.clients) :
  u <> t ->
  ClientRegistry.lookup u (ClientRegistry.assign t c cs)
  = ClientRegistry.lookup u cs.
Proof.
  intros N. induction cs as [|[t' c'] cs IH]; simpl.
  - apply ClientType_eqb_neq in N.
    destruct (ClientRegistry.ClientType_eqb t u) eqn:E; [|reflexivity].
    apply ClientType_eqb_eq in E. apply ClientType_eqb_neq in N. congruence.
  - destruct (ClientRegistry.ClientType_eqb t' t) eqn:E; simpl.
    + apply ClientType_eqb_eq in E. subst t'.
      apply not_eq_sym in N. apply ClientType_eqb_neq in N. now rewrite N.
    + now rewrite IH.
Qed.

Lemma keys_assign (t : ClientType) (c : ClientConfig)
      (cs : ClientRegistry.clients) :
  map fst (ClientRegistry.assign t c cs)
  = if existsb (fun e => ClientRegistry.ClientType_eqb (fst e) t) cs
    then map fst cs else map fst cs ++ [t].
Proof.
  induction cs as [|[t' c'] cs IH]; simpl; [reflexivity|].
  destruct (ClientRegistry.ClientType_eqb t' t) eqn:E; simpl; [reflexivity|].
  rewrite IH. now destruct (existsb _ cs).
Qed.

(** X10.  [add_custom_client] registers a configuration under its own client
    type: [get_client] for that type then returns it, a configuration
    registered for the same type before (one found by discovery, say) is
    replaced where it stood, a new type goes last, and every other type
    answers as before. *)
Theorem custom_client_replaces_its_type (config : ClientConfig)
        (cs : ClientRegistry.clients) :
  ClientRegistry.get_client (client_type config)
    (ClientRegistry.add_custom_client config cs) = Some config /\
  (forall t, t <> client_type config ->
     ClientRegistry.get_client t (ClientRegistry.add_custom_client config cs)
     = ClientRegistry.get_client t cs) /\
  map fst (ClientRegistry.add_custom_client config cs)
  = (if ClientRegistry.is_client_available (client_type config) cs
     then map fst cs else map fst cs ++ [client_type config]).
Proof.
  unfold ClientRegistry.get_client, ClientRegistry.add_custom_client.
  split; [apply lookup_assign_same|].
  split; [intros t N; now apply lookup_assign_other|].
  rewrite keys_assign. unfold ClientRegistry.is_client_available.
  assert (existsb (fun e => ClientRegistry.ClientType_eqb (fst e)
                              (client_type config)) cs
          = match ClientRegistry.lookup (client_type config) cs with
            | Some _ => true | None => false end) as ->; [|reflexivity].
  induction cs as [|[t' c'] cs IH]; simpl; [reflexivity|].
  now destruct (ClientRegistry.ClientType_eqb t' (client_type config)).
Qed.

(** ** The server that [add_command] makes *)

Lemma split_eq_spec (s key value : string) :
  AddCommand.split_eq s = Some (key, value) <->
  s = (key ++ "=" ++ value)%string /\
  ~ In "="%char (list_ascii_of_string key).
Proof.
  revert key. induction s as [|c s IH]; intros key; simpl.
  - split; [discriminate|]. intros [E _]. destruct key; discriminate.
  - destruct (Ascii.eqb c "=") eqn:C.
    + apply Ascii.eqb_eq in C. subst c. split.
      * intros [= <- <-]. split; [reflexivity|]. simpl. tauto.
      * intros [E N]. destruct key as [|k key]; simpl in E.
        -- now injection E as ->.
        -- injection E as <- _. simpl in N. tauto.
    + apply Ascii.eqb_neq in C. split.
      * destruct (AddCommand.split_eq s) as [[k v]|] eqn:S; [|discriminate].
        intros [= <- <-]. destruct (proj1 (IH k) eq_refl) as [E N].
        rewrite E.
        split; [reflexivity|]. simpl. intros [H|H]; [congruence|tauto].
      * intros [E N]. destruct key as [|k' key]; simpl in E.
        -- injection E as E _. congruence.
        -- injection E as <- E. simpl in N.
           rewrite (proj2 (IH key)); [reflexivity|]. split; [exact E|tauto].
Qed.

Lemma parse_env_fold (env : list string) (d : dict string) :
  AddCommand.parse_env env d
  = match mapM (fun e => match AddCommand.split_eq e with
                         | Some kv => Ok kv
                         | None => Raise ValueError
                         end) env with
    | Ok pairs =>
        Some (fold_left (fun d kv => dict_set (fst kv) (snd kv) d) pairs d)
    | Raise _ => None
    end.
Proof.
  revert d. induction env as [|e env IH]; intros d; simpl; [reflexivity|].
  destruct (AddCommand.split_eq e) as [[k v]|]; simpl; [|reflexivity].
  rewrite IH. now destruct (mapM _ env).
Qed.

(** X11.  The [--env] options of [add_command]: the command goes on exactly when
    every entry holds an ['='].  Each entry is then cut at its first ['='],
    and the pairs are assigned into the dictionary in the order given, so
    that the last entry for a key gives its value and the key keeps the
    place of its first entry. *)
Theorem add_command_env_entries (env : list string) :
  (AddCommand.parse_env env [] = None <->
   exists e, In e env /\ ~ In "="%char (list_ascii_of_string e)) /\
  (forall env_dict,
     AddCommand.parse_env env [] = Some env_dict ->
     exists pairs,
       Forall2 (fun e kv => e = (fst kv ++ "=" ++ snd kv)%string /\
                            ~ In "="%char (list_ascii_of_string (fst kv)))
         env pairs /\
       env_dict = fold_left (fun d kv => dict_set (fst kv) (snd kv) d) pairs []).
Proof.
  split.
  - generalize (@nil (string * string)).
    induction env as [|e env IH]; intros d; simpl.
    + split; [discriminate|]. intros (e & [] & _).
    + destruct (AddCommand.split_eq e) as [[k v]|] eqn:S.
      * apply split_eq_spec in S. destruct S as [-> N]. rewrite IH. split.
        -- intros (e & I & H). eauto.
        -- intros (e & [<-|I] & H); [|eauto]. exfalso. apply H.
           clear. induction k as [|c k IHk]; simpl; [now left|now right].
      * split; [|reflexivity]. intros _. exists e. split; [now left|].
        intros I.
        assert (forall s, In "="%char (list_ascii_of_string s) ->
                          AddCommand.split_eq s <> None) as P.
        { clear. induction s as [|c s IHs]; simpl; [tauto|].
          destruct (Ascii.eqb c "=") eqn:C; [discriminate|].
          intros [->|I]; [now rewrite Ascii.eqb_refl in C|].
          specialize (IHs I). now destruct (AddCommand.split_eq s) as [[]|]. }
        now apply P in I.
  - intros env_dict. rewrite parse_env_fold.
    destruct (mapM _ env) as [pairs|] eqn:M; [|discriminate].
    intros [= <-]. exists pairs. split; [|reflexivity].
    apply mapM_Forall2 in M. eapply Forall2_impl; [|exact M].
    intros e [k v] H. simpl in H.
    destruct (AddCommand.split_eq e) as [[k' v']|] eqn:S; [|discriminate].
    injection H as -> ->. now apply split_eq_spec.
Qed.

(** X12.  [add_command] makes a server exactly when every [--env] entry holds an
    ['='], the name passes the name check, and a url is given with the
    transports sse and http.  The server then carries the arguments as they
    were passed, the parsed environment, and [enabled] unless [--disabled]
    was given; it is always a valid record. *)
Theorem add_command_makes_valid_servers (o : AddCommand.options)
        (s : MCPServer) :
  (AddCommand.make_server o = Some s <->
   exists env_dict,
     AddCommand.parse_env (AddCommand.opt_env o) [] = Some env_dict /\
     validate_name (AddCommand.opt_name o) = Some (AddCommand.opt_name o) /\
     (AddCommand.opt_server_type o <> STDIO ->
      str_truthy (AddCommand.opt_url o) = true) /\
     s = {| name := AddCommand.opt_name o;
            command := AddCommand.opt_command o;
            args := AddCommand.opt_args o;
            env := env_dict;
            server_type := AddCommand.opt_server_type o;
            url := AddCommand.opt_url o;
            enabled := negb (AddCommand.opt_disabled o);
            description := AddCommand.opt_description o |}) /\
  (AddCommand.make_server o = Some s -> consistent s).
Proof.
  assert (forall u, as_opt_str (AddCommand.json_of_opt u) = Some u) as J
      by (now intros []).
  split.
  - unfold AddCommand.make_server.
    destruct (AddCommand.parse_env (AddCommand.opt_env o) []) as [env_dict|];
      [|split; [discriminate|intros (d & [=] & _)]].
    destruct (negb (MCPServerType_eqb (AddCommand.opt_server_type o) STDIO)
              && negb (str_truthy (AddCommand.opt_url o))) eqn:U.
    { split; [discriminate|]. intros (d & _ & _ & H & _).
      apply andb_true_iff in U. destruct U as [T U].
      destruct (AddCommand.opt_server_type o); try discriminate;
        rewrite H in U by discriminate; discriminate. }
    split.
    + destruct (MCPServer_init _) as [s'|] eqn:I; [|discriminate].
      intros [= ->]. exists env_dict. split; [reflexivity|].
      apply init_inv in I. cbn [kw_command kw_args kw_env kw_enabled
        kw_server_type or_default] in I.
      destruct I as (N & C & A & E & FU & En & D & T).
      unfold field_name in N. cbn [kw_name as_str] in N.
      pose proof N as N'. apply validate_name_spec in N'.
      destruct N' as (_ & _ & Nm).
      rewrite as_list_str_args in A. rewrite as_dict_str_env in E.
      unfold field_url in FU. cbn [kw_url kw_server_type or_default] in FU.
      rewrite J in FU.
      unfold field_description in D. cbn [kw_description] in D. rewrite J in D.
      simpl in C, En.
      split; [congruence|]. split.
      * intros NS. destruct (AddCommand.opt_server_type o); try congruence;
          simpl in U; now destruct (str_truthy (AddCommand.opt_url o)).
      * destruct s; simpl in *.
        assert (url0 = AddCommand.opt_url o) as ->.
        { destruct (AddCommand.opt_server_type o); simpl in FU;
            try destruct (str_truthy (AddCommand.opt_url o));
            congruence. }
        congruence.
    + intros (d & [= <-] & N & H & ->).
      erewrite init_intro;
        [ reflexivity | exact N | reflexivity | apply as_list_str_args
        | apply as_dict_str_env | | reflexivity
        | unfold field_description; cbn [kw_description]; apply J ].
      unfold field_url. cbn [kw_url kw_server_type or_default]. rewrite J.
      destruct (AddCommand.opt_server_type o); simpl;
        try rewrite H by discriminate; reflexivity.
  - unfold AddCommand.make_server.
    destruct (AddCommand.parse_env _ _); [|discriminate].
    destruct (_ && _); [discriminate|].
    destruct (MCPServer_init _) as [s'|] eqn:I; [|discriminate].
    intros [= ->]. eapply init_consistent; [exact I|reflexivity].
Qed.

(** ** What [sync_command] takes from the source and where it goes *)

Lemma ClientType_of_value_spec (v : string) (t : ClientType) :
  ClientType_of_value v = Ok t <-> ClientType_value t = v.
Proof.
  unfold ClientType_of_value, ClientType_members.
  cbn [find ClientType_value]. split.
  - repeat match goal with
      | |- context [String.eqb ?a v] =>
          let E := fresh "E" in
          destruct (String.eqb a v) eqn:E;
          [apply String.eqb_eq in E; subst v; now intros [= <-]|]
      end.
    discriminate.
  - intros <-. destruct t; reflexivity.
Qed.

Lemma ClientType_of_value_raises (v : string) (e : exn) :
  ClientType_of_value v = Raise e <-> e = ValueError /\
                                      forall t, ClientType_value t <> v.
Proof.
  split.
  - intros H. split.
    + unfold ClientType_of_value in H. destruct (find _ _); congruence.
    + intros t E. apply ClientType_of_value_spec in E. congruence.
  - intros [-> N]. destruct (ClientType_of_value v) as [t|e'] eqn:E.
    + apply ClientType_of_value_spec in E. now apply N in E.
    + unfold ClientType_of_value in E. destruct (find _ _); congruence.
Qed.

(** X13.  The servers that [sync_command] syncs.  Without [--servers] they are
    all the servers of the source.  With [--servers] the command stops
    exactly when a name that was asked for is not the name of a source
    server; otherwise it syncs the source servers whose name was asked for,
    in the order of the source, and every name asked for is among them. *)
Theorem sync_takes_the_requested_servers (servers : list string)
        (source_servers : list MCPServer) :
  (servers = [] ->
   SyncCommand.select_servers servers source_servers = Some source_servers) /\
  (servers <> [] ->
   (SyncCommand.select_servers servers source_servers = None <->
    exists n, In n servers /\ ~ In n (map name source_servers)) /\
   forall selected,
     SyncCommand.select_servers servers source_servers = Some selected ->
     selected = filter (fun s => existsb (String.eqb (name s)) servers)
                  source_servers /\
     (forall s, In s selected <-> In s source_servers /\ In (name s) servers) /\
     (forall n, In n servers -> In n (map name selected))).
Proof.
  split; [now intros ->|]. intros NE.
  assert (forall n, existsb (name_is n) source_servers = true
                    <-> In n (map name source_servers)) as Hn.
  { intros n. rewrite existsb_exists, in_map_iff. unfold name_is.
    split; intros (s & A & B).
    - apply String.eqb_eq in B. eauto.
    - exists s. split; [exact B|]. now apply String.eqb_eq. }
  assert (forall s, existsb (String.eqb (name s)) servers = true
                    <-> In (name s) servers) as Hs.
  { intros s. rewrite existsb_exists. split.
    - intros (n & I & E). apply String.eqb_eq in E. now rewrite E.
    - intros I. exists (name s). split; [exact I|apply String.eqb_refl]. }
  unfold SyncCommand.select_servers.
  destruct servers as [|n0 servers0] eqn:Es; [congruence|]. rewrite <- Es in *.
  clear NE.
  destruct (filter (fun n => negb (existsb (name_is n) source_servers)) servers)
    as [|m missing] eqn:F.
  - assert (forall n, In n servers -> In n (map name source_servers)) as All.
    { intros n I. apply Hn.
      destruct (existsb (name_is n) source_servers) eqn:E; [reflexivity|].
      assert (In n (filter (fun n => negb (existsb (name_is n) source_servers))
                      servers)) as I'
          by (apply filter_In; split; [exact I|now rewrite E]).
      rewrite F in I'. destruct I'. }
    split.
    + split; [discriminate|]. intros (n & I & N). now apply All in I.
    + intros selected [= <-]. split; [reflexivity|]. split.
      * intros s. rewrite filter_In, Hs. reflexivity.
      * intros n I. pose proof (All n I) as I'.
        apply in_map_iff in I'. destruct I' as (s & <- & Is).
        apply in_map. apply filter_In. split; [exact Is|now apply Hs].
  - split; [|discriminate]. split; [|reflexivity]. intros _.
    assert (In m (filter (fun n => negb (existsb (name_is n) source_servers))
                    servers)) as I by (rewrite F; now left).
    apply filter_In in I. destruct I as [I E]. exists m. split; [exact I|].
    intros H. apply Hn in H. now rewrite H in E.
Qed.

Lemma named_targets_spec (source : ClientType) (target_clients : list string) :
  match SyncCommand.named_targets source target_clients with
  | Some types =>
      map ClientType_value types
      = filter (fun v => negb (String.eqb v (ClientType_value source)))
          target_clients
      /\ forall v, In v target_clients -> exists t, ClientType_value t = v
  | None => exists v, In v target_clients /\ forall t, ClientType_value t <> v
  end.
Proof.
  induction target_clients as [|v l IH]; simpl; [split; [reflexivity|tauto]|].
  destruct (ClientType_of_value v) as [t|e] eqn:E.
  - apply ClientType_of_value_spec in E. subst v.
    destruct (SyncCommand.named_targets source l) as [types|].
    + destruct IH as [M A]. split.
      * change (String.eqb (ClientType_value t) (ClientType_value source))
          with (ClientRegistry.ClientType_eqb t source).
        destruct (ClientRegistry.ClientType_eqb t source); simpl;
          now rewrite M.
      * intros v [<-|I]; eauto.
    + destruct IH as (v & I & N). eauto.
  - apply ClientType_of_value_raises in E. destruct E as [_ N].
    exists v. split; [now left|exact N].
Qed.

(** X14.  The targets of [sync_command].  The source is never among them.  With
    [--to] the command stops exactly when one of the names is not a client
    type; otherwise the targets are the named clients in the order given,
    the source left out and repetitions kept.  Without [--to] they are the
    types of the available clients other than the source, in the
    registry's order. *)
Theorem sync_never_targets_the_source (target_clients : list string)
        (source_client_type : ClientType)
        (available_clients : list ClientConfig) :
  (forall types,
     SyncCommand.target_client_types target_clients source_client_type
       available_clients = Some types ->
     ~ In source_client_type types) /\
  (target_clients = [] ->
   SyncCommand.target_client_types target_clients source_client_type
     available_clients
   = Some (filter (fun t => negb (ClientRegistry.ClientType_eqb t
                                    source_client_type))
             (map client_type available_clients))) /\
  (target_clients <> [] ->
   (SyncCommand.target_client_types target_clients source_client_type
      available_clients = None <->
    exists v, In v target_clients /\ forall t, ClientType_value t <> v) /\
   forall types,
     SyncCommand.target_client_types target_clients source_client_type
       available_clients = Some types ->
     map ClientType_value types
     = filter (fun v => negb (String.eqb v
                                (ClientType_value source_client_type)))
         target_clients).
Proof.
  assert (forall l : list ClientConfig,
            map client_type
              (filter (fun client =>
                         negb (ClientRegistry.ClientType_eqb (client_type client)
                                 source_client_type)) l)
            = filter (fun t => negb (ClientRegistry.ClientType_eqb t
                                       source_client_type))
                (map client_type l)) as MF.
  { induction l as [|c l IH]; simpl; [reflexivity|].
    destruct (ClientRegistry.ClientType_eqb (client_type c) source_client_type);
      simpl; now rewrite IH. }
  pose proof (named_targets_spec source_client_type target_clients) as S.
  split; [|split].
  - intros types H I.
    destruct target_clients as [|v l]; unfold SyncCommand.target_client_types in H.
    + injection H as <-. rewrite MF in I. apply filter_In in I.
      destruct I as [_ I]. now rewrite ClientType_eqb_refl in I.
    + rewrite H in S. destruct S as [M _].
      apply (in_map ClientType_value) in I. rewrite M in I.
      apply filter_In in I. destruct I as [_ I].
      now rewrite String.eqb_refl in I.
  - intros ->. unfold SyncCommand.target_client_types. now rewrite MF.
  - intros NE. destruct target_clients as [|v l]; [congruence|].
    unfold SyncCommand.target_client_types.
    destruct (SyncCommand.named_targets source_client_type (v :: l))
      as [types|].
    + destruct S as [M A]. split.
      * split; [discriminate|]. intros (w & I & N).
        destruct (A w I) as [t E]. now apply N in E.
      * now intros ? [= <-].
    + split; [|discriminate]. split; [|reflexivity]. intros _. exact S.
Qed.

(** ** The records that [load_servers] returns *)

Lemma opencode_loaded_consistent (st : store) (l : list MCPServer) :
  OpenCodeHandler.load_servers st = Ok l -> Forall consistent l.
Proof.
  intros H. apply opencode_load_inv in H.
  destruct H as [[_ ->]|(d & m & _ & _ & H)]; [constructor|].
  eapply collectM_Forall; [|exact H].
  intros [k v] b E. unfold OpenCodeHandler.load_entry in E.
  destruct v; try discriminate.
  destruct (is_str "local" _).
  - destruct (negb (truthy _)); [discriminate|].
    destruct (OpenCodeHandler.head_and_rest _); simpl in E; [|discriminate].
    destruct (MCPServer_init _) eqn:I; simpl in E; [|discriminate].
    injection E as <-. split; [exact (proj1 (init_named _ _ I))|].
    apply init_inv in I. destruct I as (_ & _ & _ & _ & _ & _ & _ & T).
    unfold not_stdio. rewrite T. discriminate.
  - destruct (is_str "remote" _); [|discriminate].
    destruct (negb (truthy _)); [discriminate|].
    destruct (OpenCodeHandler.plain_http _); simpl in E; [|discriminate].
    destruct (MCPServer_init _) eqn:I; simpl in E; [|discriminate].
    injection E as <-. eapply init_consistent; [exact I|reflexivity].
Qed.

Lemma loaded_consistent (py_str : json -> string) (k : adapter) (st : store)
      (l : list MCPServer) :
  k <> kind_B -> load py_str k st = Ok l -> Forall consistent l.
Proof.
  intros NB L. destruct k; try congruence; unfold load in L.
  - exact (mapping_loaded_consistent "mcpServers" ClaudeCodeHandler.load_entry
             claude_code_entry_inv st l L).
  - exact (vscode_loaded_consistent st l L).
  - exact (mapping_loaded_consistent "mcpServers"
             (GeminiCLIHandler.load_entry py_str) (gemini_entry_inv py_str)
             st l L).
  - exact (opencode_loaded_consistent st l L).
Qed.

(** X15.  Every record that [load_servers] returns has a name that passes the
    name check, whatever the kind and the file.  For kinds A, C, D and E it
    is a valid record altogether: a record with transport sse or http
    carries a non-empty url.  Kind B is the exception: its list format has
    no url, so an sse entry loads as a record without one. *)
Theorem loaded_records_are_valid (py_str : json -> string) :
  (forall k st l, load py_str k st = Ok l -> Forall named l) /\
  (forall k st l, k <> kind_B -> load py_str k st = Ok l ->
                  Forall consistent l) /\
  (exists s, load py_str kind_B cursor_sse_list = Ok [s] /\ ~ consistent s).
Proof.
  split; [|split].
  - intros k st l L.
    assert (k = kind_B \/ k <> kind_B) as [->|N]
        by (destruct k; (now left) || (right; discriminate)).
    + exact (cursor_loaded_named st l L).
    + eapply Forall_impl; [|exact (loaded_consistent py_str k st l N L)].
      now intros s [Ns _].
  - exact (loaded_consistent py_str).
  - eexists. split; [reflexivity|]. intros [_ C].
    specialize (C eq_refl). discriminate.
Qed.

(** ** The loop of [sync_command] over the servers of the source *)

Lemma NoDup_names_added (l : list MCPServer) (s : MCPServer) :
  NoDup (map name l) -> NoDup (map name (without (name s) l ++ [s])).
Proof.
  intros N. rewrite map_app. simpl.
  assert (forall a b : list string, NoDup a -> ~ In (hd "" b) a ->
            length b = 1 -> NoDup (a ++ b)) as P.
  { clear. intros a [|x [|y b]] Na Nx L; try discriminate. simpl in Nx.
    induction a as [|z a IH]; simpl.
    - constructor; [tauto|constructor].
    - inversion Na as [|? ? Nz Na']; subst. constructor.
      + rewrite in_app_iff. simpl in *. intuition congruence.
      + apply IH; [exact Na'|]. simpl in Nx. tauto. }
  apply P; [now apply NoDup_names_without|apply without_not_in|reflexivity].
Qed.

Lemma added_in_turn_distinct (source l : list MCPServer) :
  NoDup (map name source) ->
  fold_left (fun l s => without (name s) l ++ [s]) source l
  = filter (fun x => negb (existsb (String.eqb (name x)) (map name source))) l
    ++ source.
Proof.
  revert l. induction source as [|s source IH]; intros l N; simpl.
  - rewrite app_nil_r. induction l as [|x l IHl]; simpl; congruence.
  - inversion N as [|? ? Ns N']; subst. rewrite (IH _ N').
    rewrite filter_app. simpl.
    assert (existsb (String.eqb (name s)) (map name source) = false) as ->.
    { destruct (existsb _ _) eqn:E; [|reflexivity].
      apply existsb_exists in E. destruct E as (n & I & E).
      apply String.eqb_eq in E. congruence. }
    simpl. rewrite <- app_assoc. simpl. f_equal.
    unfold without. clear. induction l as [|x l IHl]; simpl; [reflexivity|].
    unfold name_is at 1.
    destruct (String.eqb (name x) (name s)); simpl; [exact IHl|].
    destruct (existsb _ _); simpl; now rewrite IHl.
Qed.

Section SyncLoop.
Variable load_servers : store -> result (list MCPServer).
Variable add_server : MCPServer -> store -> result unit * store.
Variable image : MCPServer -> MCPServer.

Hypothesis image_name : forall s, name (image s) = name s.
Hypothesis image_idem : forall s, image (image s) = image s.
Hypothesis add_loads :
  forall st l r,
    load_servers st = Ok l -> NoDup (map name l) -> consistent r ->
    exists st',
      add_server r st = (Ok tt, st') /\
      load_servers st' = Ok (map image (without (name r) l ++ [r])).

Lemma names_of_images (l : list MCPServer) :
  map name (map image l) = map name l.
Proof. rewrite map_map. apply map_ext. exact image_name. Qed.

Lemma without_images (n : string) (l : list MCPServer) :
  without n (map image l) = map image (without n l).
Proof.
  unfold without. induction l as [|s l IH]; simpl; [reflexivity|].
  assert (name_is n (image s) = name_is n s) as ->
      by (unfold name_is; now rewrite image_name).
  destruct (name_is n s); simpl; now rewrite IH.
Qed.

Lemma images_of_images (l : list MCPServer) :
  map image (map image l) = map image l.
Proof. rewrite map_map. apply map_ext. exact image_idem. Qed.

Lemma sync_overwrite_loop (ask : nat -> bool) (existing_names : list string)
      (source : list MCPServer) :
  Forall consistent source ->
  forall (st : store) (l X : list MCPServer) (a c : nat),
    load_servers st = Ok l -> NoDup (map name l) ->
    map image l = map image X ->
    exists st' l',
      SyncCommand.sync_servers add_server true ask existing_names source
        {| SyncCommand.asked := a; SyncCommand.client_success := c;
           SyncCommand.config := st |}
      = {| SyncCommand.asked := a;
           SyncCommand.client_success := length source + c;
           SyncCommand.config := st' |}
      /\ load_servers st' = Ok l' /\ NoDup (map name l')
      /\ map image l'
         = map image (fold_left (fun l s => without (name s) l ++ [s]) source X)
      /\ (source <> [] -> map image l' = l').
Proof.
  induction 1 as [|s source Cs Fs IH]; intros st l X a c L N E.
  - exists st, l. simpl. repeat split; auto. congruence.
  - cbn [SyncCommand.sync_servers SyncCommand.asked SyncCommand.config
         SyncCommand.client_success negb].
    rewrite andb_false_r. cbn [andb].
    destruct (add_loads st l s L N Cs) as (st1 & -> & L1).
    assert (NoDup (map name (map image (without (name s) l ++ [s])))) as N1.
    { rewrite names_of_images. now apply NoDup_names_added. }
    assert (map image (map image (without (name s) l ++ [s]))
            = map image (without (name s) X ++ [s])) as E1.
    { rewrite images_of_images, !map_app, <- !without_images. now rewrite E. }
    destruct (IH st1 _ _ a (S c) L1 N1 E1) as (st' & l' & R & L' & N' & E' & I').
    exists st', l'. rewrite R. cbn [length fold_left].
    replace (length source + S c) with (S (length source) + c) by lia.
    repeat split; auto. intros _.
    destruct source as [|s2 source].
    + simpl in R. injection R as <-. rewrite L1 in L'. injection L' as <-.
      apply images_of_images.
    + apply I'. discriminate.
Qed.
End SyncLoop.

Lemma norm_url_idem (s s' : MCPServer) :
  url s' = norm_url s -> norm_url s' = norm_url s.
Proof.
  unfold norm_url. intros ->.
  destruct (str_truthy (url s)) eqn:E; [now rewrite E|reflexivity].
Qed.

Lemma add_then_load (py_str : json -> string) (k : adapter) (st : store)
      (l : list MCPServer) (r : MCPServer) :
  k <> kind_B -> k <> kind_E ->
  load py_str k st = Ok l -> NoDup (map name l) -> consistent r ->
  exists st',
    add py_str k r st = (Ok tt, st') /\
    load py_str k st'
    = Ok (map (read_back k st) (without (name r) l ++ [r])).
Proof.
  intros NB NE L N C.
  pose proof (loaded_consistent py_str k st l NB L) as F.
  assert (Forall consistent (without (name r) l ++ [r])) as Fr.
  { apply Forall_app. split; [|constructor; [exact C|constructor]].
    rewrite Forall_forall in *. intros s I. apply without_names in I.
    apply F. tauto. }
  pose proof (NoDup_names_added l r N) as Nr.
  unfold add, add_server. rewrite L.
  destruct k; try congruence; unfold load, save, read_back in *.
  - destruct (mapping_save_after_load "mcpServers" ClaudeCodeHandler.load_entry
                ClaudeCodeHandler.server_config_of st l
                (without (name r) l ++ [r]) L) as [d E].
    eexists. split; [exact E|].
    exact (mapping_save_load "mcpServers" ClaudeCodeHandler.load_entry
             ClaudeCodeHandler.server_config_of A_image claude_code_reload
             st _ l _ L Fr Nr E).
  - destruct (vscode_save_after_load st l (without (name r) l ++ [r]) L)
      as (d & mcp & E).
    eexists. split; [exact E|].
    exact (vscode_save_load st _ l _ L Fr Nr E).
  - destruct (mapping_save_after_load "mcpServers"
                (GeminiCLIHandler.load_entry py_str)
                GeminiCLIHandler.server_config_of st l
                (without (name r) l ++ [r]) L) as [d E].
    eexists. split; [exact E|].
    exact (mapping_save_load "mcpServers" (GeminiCLIHandler.load_entry py_str)
             GeminiCLIHandler.server_config_of D_image (gemini_reload py_str)
             st _ l _ L Fr Nr E).
Qed.

(** X16.  [sync_command] with [--overwrite] onto a target of kind A, C or D whose
    configuration loads with distinct names: when the servers to sync are
    valid records with distinct names, no question is asked, every
    [add_server] succeeds, and afterwards the target loads its own servers
    that are not named in the source, in their order, followed by the
    servers of the source in the source's order, each one as the kind
    reads it back. *)
Theorem sync_with_overwrite_writes_every_server
        (py_str : json -> string) (k : adapter) (ask : nat -> bool)
        (st : store) (l source : list MCPServer) :
  k <> kind_B -> k <> kind_E ->
  load py_str k st = Ok l -> NoDup (map name l) ->
  Forall consistent source -> NoDup (map name source) -> source <> [] ->
  exists st',
    SyncCommand.sync_target (load py_str k) (add py_str k) true ask source st
    = Ok {| SyncCommand.asked := 0;
            SyncCommand.client_success := length source;
            SyncCommand.config := st' |}
    /\ load py_str k st'
       = Ok (map (read_back k st)
               (filter (fun x => negb (existsb (String.eqb (name x))
                                         (map name source))) l
                ++ source)).
Proof.
  intros NB NE L N F Ns Nn.
  assert (forall s, name (read_back k st s) = name s) as image_name
      by (intros s; destruct k; try congruence; reflexivity).
  assert (forall s, read_back k st (read_back k st s) = read_back k st s)
    as image_idem.
  { intros s. destruct k; try congruence;
      unfold read_back, A_image, C_image, D_image; cbn [name command args env
        server_type enabled description]; f_equal; now apply norm_url_idem. }
  assert (forall st0 l0 r,
            load py_str k st0 = Ok l0 -> NoDup (map name l0) -> consistent r ->
            exists st',
              add py_str k r st0 = (Ok tt, st') /\
              load py_str k st'
              = Ok (map (read_back k st) (without (name r) l0 ++ [r])))
    as add_loads.
  { intros st0 l0 r L0 N0 C0.
    destruct (add_then_load py_str k st0 l0 r NB NE L0 N0 C0) as (st' & A & R).
    exists st'. split; [exact A|]. rewrite R.
    destruct k; try congruence; reflexivity. }
  destruct (sync_overwrite_loop (load py_str k) (add py_str k)
              (read_back k st) image_name image_idem add_loads
              ask (map name l) source F st l l 0 0 L N eq_refl)
    as (st' & l' & R & L' & _ & E & I).
  exists st'. unfold SyncCommand.sync_target. rewrite L. cbn [bind].
  rewrite R, Nat.add_0_r. split; [reflexivity|].
  rewrite L', <- (I Nn), E. now rewrite added_in_turn_distinct.
Qed.

Lemma sync_with_overwrite_writes_every_server_witness :
  exists st',
    SyncCommand.sync_target (load (fun _ => "") kind_A)
      (add (fun _ => "") kind_A) true (fun _ => false) [sample_server]
      kind_A_scenario
    = Ok {| SyncCommand.asked := 0; SyncCommand.client_success := 1;
            SyncCommand.config := st' |}
    /\ exists fs_server,
         load (fun _ => "") kind_A kind_A_scenario = Ok [fs_server] /\
         load (fun _ => "") kind_A st'
         = Ok [A_image fs_server; A_image sample_server].
Proof.
  destruct (load (fun _ => "") kind_A kind_A_scenario) as [l|] eqn:L;
    [|vm_compute in L; discriminate].
  assert (exists fs_server, l = [fs_server] /\ name fs_server = "fs")
    as (fs_server & -> & Nf)
      by (vm_compute in L; injection L as <-; eexists; split; reflexivity).
  destruct (sync_with_overwrite_writes_every_server
              (fun _ => "") kind_A (fun _ => false) kind_A_scenario
              [fs_server] [sample_server]) as (st' & R & L');
    try discriminate; try exact L.
  - constructor; [simpl; tauto|constructor].
  - constructor; [|constructor]. split; [reflexivity|discriminate].
  - constructor; [simpl; tauto|constructor].
  - exists st'. split; [exact R|]. exists fs_server. split; [reflexivity|].
    rewrite L'. cbn [filter map existsb name sample_server app read_back].
    rewrite Nf. reflexivity.
Defined.

Lemma sync_declined_loop (add_server : MCPServer -> store -> result unit * store)
      (ask' : nat -> bool) (existing_names : list string)
      (source : list MCPServer) :
  forall p p',
    SyncCommand.config p = SyncCommand.config p' ->
    SyncCommand.client_success p = SyncCommand.client_success p' ->
    let declined :=
      SyncCommand.sync_servers add_server false (fun _ => false)
        existing_names source p in
    let forced :=
      SyncCommand.sync_servers add_server true ask' existing_names
        (filter (fun s => negb (existsb (String.eqb (name s)) existing_names))
           source) p' in
    SyncCommand.config declined = SyncCommand.config forced /\
    SyncCommand.client_success declined = SyncCommand.client_success forced /\
    SyncCommand.asked declined
    = SyncCommand.asked p
      + length (filter (fun s => existsb (String.eqb (name s)) existing_names)
                  source) /\
    SyncCommand.asked forced = SyncCommand.asked p'.
Proof.
  induction source as [|s source IH]; intros p p' Ec Es; cbn zeta.
  - simpl. repeat split; auto.
  - cbn [SyncCommand.sync_servers filter negb].
    destruct (existsb (String.eqb (name s)) existing_names) eqn:X;
      cbn [andb negb length].
    + match goal with
      | |- context [SyncCommand.sync_servers _ false _ _ source ?q] =>
          destruct (IH q p') as (A & B & C & D); [exact Ec|exact Es|]
      end.
      cbn zeta in *. rewrite A, B, C, D. cbn [SyncCommand.asked].
      repeat split; lia.
    + cbn [SyncCommand.sync_servers negb]. rewrite X. cbn [andb].
      rewrite Ec, Es.
      destruct (add_server s (SyncCommand.config p')) as [[u|e] st'];
        match goal with
        | |- context [SyncCommand.sync_servers _ false _ _ source ?q] =>
            match goal with
            | |- context [SyncCommand.sync_servers _ true _ _ _ ?q'] =>
                destruct (IH q q') as (A & B & C & D);
                [reflexivity|reflexivity|]
            end
        end;
        cbn zeta in *; rewrite A, B, C, D; cbn [SyncCommand.asked];
        repeat split; lia.
Qed.

(** X17.  [sync_command] without [--overwrite], every question answered no: the
    servers whose name the target already had when the loop started are
    left alone, one question each.  The target ends as if the command had
    been run with [--overwrite] on the other servers only, with the same
    count of successes, and [--overwrite] itself asks nothing. *)
Theorem sync_declined_servers_are_skipped
        (add_server : MCPServer -> store -> result unit * store)
        (ask' : nat -> bool) (existing_names : list string)
        (source : list MCPServer) (p : SyncCommand.progress) :
  SyncCommand.config
    (SyncCommand.sync_servers add_server false (fun _ => false)
       existing_names source p)
  = SyncCommand.config
      (SyncCommand.sync_servers add_server true ask' existing_names
         (filter (fun s => negb (existsb (String.eqb (name s)) existing_names))
            source) p) /\
  SyncCommand.client_success
    (SyncCommand.sync_servers add_server false (fun _ => false)
       existing_names source p)
  = SyncCommand.client_success
      (SyncCommand.sync_servers add_server true ask' existing_names
         (filter (fun s => negb (existsb (String.eqb (name s)) existing_names))
            source) p) /\
  SyncCommand.asked
    (SyncCommand.sync_servers add_server false (fun _ => false)
       existing_names source p)
  = SyncCommand.asked p
    + length (filter (fun s => existsb (String.eqb (name s)) existing_names)
                source) /\
  SyncCommand.asked
    (SyncCommand.sync_servers add_server true ask' existing_names source p)
  = SyncCommand.asked p.
Proof.
  destruct (sync_declined_loop add_server ask' existing_names source p p
              eq_refl eq_refl) as (A & B & C & _).
  split; [exact A|]. split; [exact B|]. split; [exact C|].
  clear. revert p. induction source as [|s source IH]; intros p; [reflexivity|].
  cbn [SyncCommand.sync_servers negb]. rewrite andb_false_r. cbn [andb].
  destruct (add_server s (SyncCommand.config p)) as [[u|e] st'];
    now rewrite IH.
Qed.

(** ** What is found after a save and after a removal *)

Lemma read_back_name (k : adapter) (st : store) (s : MCPServer) :
  name (read_back k st s) = name s.
Proof.
  destruct k; unfold read_back; try reflexivity.
  - now destruct (writes_mapping st).
  - unfold E_image. now destruct (local_entry s).
Qed.

Lemma find_map_image (image : MCPServer -> MCPServer) (n : string)
      (l : list MCPServer) :
  (forall s, name (image s) = name s) ->
  find (name_is n) (map image l) = option_map image (find (name_is n) l).
Proof.
  intros H. induction l as [|s l IH]; simpl; [reflexivity|].
  unfold name_is at 1 3. rewrite H.
  destruct (String.eqb (name s) n); [reflexivity|exact IH].
Qed.

(** X18.  The list that [load_servers] returns after a successful [save_servers]:
    for every kind, when the saved servers have distinct names and are
    servers the kind can write, loading the written file returns one record
    per saved server, in the order they were saved, each as the kind reads
    it back; [get_server] on the written file then finds, under each name,
    the saved server of that name as the kind reads it back, and nothing
    under any other name. *)
Theorem save_then_load_reads_all (py_str : json -> string) (k : adapter)
        (st : store) (recs : list MCPServer) :
  fst (save k recs st) = Ok tt ->
  Forall (can_write k st) recs ->
  NoDup (map name recs) ->
  load py_str k (snd (save k recs st)) = Ok (map (read_back k st) recs) /\
  (forall n,
     get py_str k n (snd (save k recs st))
     = Ok (option_map (read_back k st) (find (name_is n) recs))).
Proof.
  intros H F N.
  pose proof (save_load_all py_str k st recs H F N) as L.
  split; [exact L|].
  intros n. unfold get, get_server. rewrite L. cbn [bind]. f_equal.
  apply find_map_image. intros s. apply read_back_name.
Qed.

Lemma save_then_load_reads_all_witness :
  load (fun _ => "") kind_C
    (snd (save kind_C [sample_server] sample_settings))
  = Ok [C_image sample_server] /\
  get (fun _ => "") kind_C "weather"
    (snd (save kind_C [sample_server] sample_settings))
  = Ok (Some (C_image sample_server)).
Proof.
  destruct (save_then_load_reads_all (fun _ => "") kind_C sample_settings
              [sample_server]) as [L G].
  - reflexivity.
  - constructor; [|constructor]. split; [reflexivity|discriminate].
  - constructor; [simpl; tauto|constructor].
  - split; [exact L|exact (G "weather")].
Defined.

(** X19.  [remove_server] and then [get_server].  For every kind, when the file
    loads with distinct names, all of them servers the kind can write, and
    one of them is the name to remove: the removal returns true, the file
    then loads the other servers in their order, each as the kind reads it
    back, [get_server] for the removed name finds nothing, and for any
    other name it finds what was there before. *)
Theorem remove_then_get (py_str : json -> string) (k : adapter) (st : store)
        (l : list MCPServer) (n : string) :
  load py_str k st = Ok l ->
  NoDup (map name l) ->
  Forall (can_write k st) l ->
  In n (map name l) ->
  exists st',
    remove py_str k n st = (Ok true, st') /\
    load py_str k st' = Ok (map (read_back k st) (without n l)) /\
    get py_str k n st' = Ok None /\
    (forall n', n' <> n ->
       get py_str k n' st'
       = Ok (option_map (read_back k st) (find (name_is n') l))).
Proof.
  intros L N F I.
  assert (l <> []) as Nl by (intros ->; destruct I).
  destruct (save_after_load py_str k st l (without n l) L Nl) as [st' S].
  assert (load py_str k st' = Ok (map (read_back k st) (without n l))) as L'.
  { pose proof (save_load_all py_str k st (without n l)) as R.
    rewrite S in R. apply R; [reflexivity| |now apply NoDup_names_without].
    rewrite Forall_forall in *. intros s Is. apply without_names in Is.
    apply F. tauto. }
  exists st'. unfold remove, remove_server, get, get_server.
  rewrite L, S, L'. cbn [bind].
  assert (Nat.ltb (length (without n l)) (length l) = true) as ->.
  { apply Nat.ltb_lt. pose proof (length_without n l) as W.
    assert (count_name n l <> 0) by (rewrite count_name_zero; tauto). lia. }
  split; [reflexivity|]. split; [reflexivity|]. split.
  - f_equal. apply find_name_None. rewrite map_map.
    rewrite (map_ext _ name) by (intros; apply read_back_name).
    apply without_not_in.
  - intros n' Nn. f_equal.
    rewrite find_map_image by (intros; apply read_back_name).
    now rewrite find_without_other.
Qed.

Lemma remove_then_get_witness :
  exists st',
    remove (fun _ => "") kind_A "fs" kind_A_scenario = (Ok true, st') /\
    get (fun _ => "") kind_A "fs" st' = Ok None.
Proof.
  destruct (load (fun _ => "") kind_A kind_A_scenario) as [l|] eqn:L;
    [|vm_compute in L; discriminate].
  assert (exists fs_server, l = [fs_server] /\ name fs_server = "fs")
    as (fs_server & -> & Nf)
      by (vm_compute in L; injection L as <-; eexists; split; reflexivity).
  destruct (remove_then_get (fun _ => "") kind_A kind_A_scenario
              [fs_server] "fs" L) as (st' & R & _ & G & _).
  - constructor; [simpl; tauto|constructor].
  - exact (loaded_consistent (fun _ => "") kind_A kind_A_scenario _
             ltac:(discriminate) L).
  - simpl. now left.
  - exists st'. split; [exact R|exact G].
Defined.

(** ** The names that [MCPServer] accepts *)

(** X20.  [MCPServer(name=n, command=c)] succeeds exactly when [n] is not empty
    and made of ASCII letters, digits, hyphens and underscores only.  The
    record then has the name and the command as they were passed, no
    arguments, no environment, transport stdio, no url, and is enabled: the
    stripping of the name never changes an accepted name. *)
Theorem constructed_name_is_the_name_passed (n c : string) (s : MCPServer) :
  MCPServer_init (minimal n c) = Ok s <->
  n <> "" /\
  forallb (in_chars allowed_chars) (list_ascii_of_string n) = true /\
  s = {| name := n; command := c; args := []; env := [];
         server_type := STDIO; url := None; enabled := true;
         description := None |}.
Proof.
  split.
  - intros H. apply init_inv in H.
    destruct H as (N & C & A & E & U & En & D & T).
    unfold field_name in N. cbn [minimal kw_name as_str] in N.
    apply validate_name_spec in N. destruct N as (Ne & Al & Nm).
    split; [exact Ne|]. split; [exact Al|].
    destruct s. simpl in *. unfold field_url, field_description in *.
    simpl in *. congruence.
  - intros (Ne & Al & ->).
    erewrite init_intro; try reflexivity.
    unfold field_name. cbn [minimal kw_name as_str].
    apply validate_name_spec. auto.
Qed.
